(** * Execution synchronisation and extraction pipeline

    A shallow embedding of the services of the dashboard server:
    - [DataExtraction]: src/unnamed/part_004 (dataExtractionService),
    - [Sheets]: src/unnamed/part_004 (sheetService and googleSheetsService),
    - [Bolna]: src/services/bolnaService.js (doctor-info step) and the
      BolnaService of src/services/encryptionService.js (custom-fields step),
    - [Encryption]: src/services/encryptionService.js (EncryptionService),
    - [Csv]: src/unnamed/part_004 (the CSV files of sheetService, over a
      store of UTF-8 files),
    - [BolnaService]: src/services/bolnaService.js (syncAllExecutions and
      fetchAndUpdateExecution),
    - [GoogleSheets]: src/unnamed/part_004 (token refresh and Sheets client
      of googleSheetsService) and the header row of
      src/controllers/extractionFieldsController.js,
    - [Samples]: collaborators on which the services are run.

    JavaScript values are embedded as they are at run time: strings are
    sequences of UTF-16 code units, numbers are binary64 floats, objects are
    finite maps from property names to values. *)

From Stdlib Require Import ZArith NArith List String Ascii Floats Uint63 DecimalString Lia.
From stdpp Require Import gmap list fin_maps.

#[local] Set Warnings "-register-all".
Local Open Scope N_scope.

(* ===================================================================== *)
(** ** JavaScript values *)
(* ===================================================================== *)

Module JS.

(** A string is its sequence of UTF-16 code units. *)
Abbreviation jsstring := (list N).

(** The code units of an ASCII literal. *)
Definition js (s : string) : jsstring := map N_of_ascii (list_ascii_of_string s).

(** Values. An object is the finite map of its own enumerable data
    properties; what it inherits from Object.prototype is read through
    [get_computed] and [get_member] below. A Date is its time value (NaN
    for an invalid date). *)
Inductive jsval : Type :=
| JUndefined
| JNull
| JBool (b : bool)
| JNum (x : float)
| JStr (s : jsstring)
| JDate (t : float)
| JArr (l : list jsval)
| JObj (o : gmap jsstring jsval).

Abbreviation jsobj := (gmap jsstring jsval).

(** ToBoolean. *)
Definition truthy (v : jsval) : bool :=
  match v with
  | JUndefined | JNull => false
  | JBool b => b
  | JNum x => negb (PrimFloat.eqb x 0%float || PrimFloat.is_nan x)
  | JStr s => match s with [] => false | _ => true end
  | JDate _ | JArr _ | JObj _ => true
  end.

(** [a || b] and [a && b]. *)
Definition js_or (a b : jsval) : jsval := if truthy a then a else b.
Definition js_and (a b : jsval) : jsval := if truthy a then b else a.

(** [typeof v === 'string'] *)
Definition is_string (v : jsval) : bool :=
  match v with JStr _ => true | _ => false end.

(** The canonical array index [String(i)]. *)
Definition index_key (i : nat) : jsstring :=
  js (NilEmpty.string_of_uint (Nat.to_uint i)).

Definition num_of_nat (n : nat) : jsval :=
  JNum (PrimFloat.of_uint63 (Uint63.of_Z (Z.of_nat n))).

(** Element [k] of an array-like whose first element has index [i]. *)
Fixpoint lookup_index {A} (k : jsstring) (i : nat) (l : list A) : option A :=
  match l with
  | [] => None
  | x :: l' => if decide (index_key i = k) then Some x else lookup_index k (S i) l'
  end.

(** The own properties of an indexed collection. *)
Fixpoint index_props {A} (f : A -> jsval) (i : nat) (l : list A) : jsobj :=
  match l with
  | [] => ∅
  | x :: l' => <[index_key i := f x]> (index_props f (S i) l')
  end.

Definition length_key : jsstring := js "length".

(** [v[k]]: [None] is the TypeError raised on [undefined] and [null]. *)
Definition get_prop (v : jsval) (k : jsstring) : option jsval :=
  match v with
  | JUndefined | JNull => None
  | JObj o => Some (default JUndefined (o !! k))
  | JArr l =>
      Some (match lookup_index k 0 l with
            | Some x => x
            | None => if decide (k = length_key) then num_of_nat (length l) else JUndefined
            end)
  | JStr s =>
      Some (match lookup_index k 0 s with
            | Some c => JStr [c]
            | None => if decide (k = length_key) then num_of_nat (length s) else JUndefined
            end)
  | JBool _ | JNum _ | JDate _ => Some JUndefined
  end.

(** [v?.k] *)
Definition get_opt (v : jsval) (k : jsstring) : jsval :=
  default JUndefined (get_prop v k).

(** The accessor that Object.prototype holds for the prototype of an
    object. *)
Definition proto_key : jsstring := js "__proto__".

(** The names of the properties of Object.prototype: every object answers
    to them, whether it has a property of that name or not. *)
Definition Object_prototype_names : list jsstring :=
  [js "constructor"; js "hasOwnProperty"; js "isPrototypeOf";
   js "propertyIsEnumerable"; js "toLocaleString"; js "toString"; js "valueOf";
   js "__defineGetter__"; js "__defineSetter__"; js "__lookupGetter__";
   js "__lookupSetter__"; proto_key].

Definition inherited (k : jsstring) : bool := bool_decide (k ∈ Object_prototype_names).

(** What an inherited name reads as: Object.prototype itself under
    [__proto__], one of its methods under the other names. Neither has an
    own enumerable property, and neither is a string. *)
Definition Object_prototype : jsval := JObj ∅.

(** [o[k]] for a computed name [k] on an object [o]: the own property of
    that name, or what Object.prototype holds under it. *)
Definition get_member (o : jsobj) (k : jsstring) : jsval :=
  match o !! k with
  | Some v => v
  | None => if inherited k then Object_prototype else JUndefined
  end.

(** [v[k]] for a computed name [k]: as [get_prop], with the names every
    value other than [undefined] and [null] inherits from Object.prototype.
    The methods that arrays, strings, numbers and booleans inherit from
    their own prototypes read as [undefined] here: they are functions, as
    little a string as [undefined] is. *)
Definition get_computed (v : jsval) (k : jsstring) : option jsval :=
  match v with
  | JUndefined | JNull => None
  | JObj o => Some (get_member o k)
  | _ => if inherited k then Some Object_prototype else get_prop v k
  end.

(** [o[k] = s] for a string [s], on an object [o] whose prototype is
    Object.prototype. Under [__proto__] an object without an own property
    of that name runs the setter of Object.prototype, which ignores a value
    that is neither an object nor null: no property is created. Every other
    inherited name is a writable data property, which the assignment
    shadows by an own property. *)
Definition set_text (o : jsobj) (k s : jsstring) : jsobj :=
  if decide (k = proto_key)
  then match o !! k with
       | Some _ => <[k := JStr s]> o
       | None => o
       end
  else <[k := JStr s]> o.

(** The properties copied by [{...v}]. *)
Definition spread (v : jsval) : jsobj :=
  match v with
  | JObj o => o
  | JArr l => index_props (fun x => x) 0 l
  | JStr s => index_props (fun c => JStr [c]) 0 s
  | _ => ∅
  end.

(** WhiteSpace and LineTerminator code units, the ones [trim] strips. *)
Definition is_white_space (c : N) : bool :=
  (c =? 9) || (c =? 10) || (c =? 11) || (c =? 12) || (c =? 13) || (c =? 32)
  || (c =? 160) || (c =? 5760) || ((8192 <=? c) && (c <=? 8202))
  || (c =? 8232) || (c =? 8233) || (c =? 8239) || (c =? 8287)
  || (c =? 12288) || (c =? 65279).

Fixpoint trimStart (s : jsstring) : jsstring :=
  match s with
  | [] => []
  | c :: s' => if is_white_space c then trimStart s' else s
  end.

Definition trimEnd (s : jsstring) : jsstring := rev (trimStart (rev s)).

Definition trim (s : jsstring) : jsstring := trimEnd (trimStart s).

(** The two halves of a surrogate pair. *)
Definition is_high_surrogate (c : N) : bool := (55296 <=? c) && (c <=? 56319).
Definition is_low_surrogate (c : N) : bool := (56320 <=? c) && (c <=? 57343).

(** [s.split(sep)[0]] for a one-unit separator. *)
Fixpoint split_head (sep : N) (s : jsstring) : jsstring :=
  match s with
  | [] => []
  | c :: s' => if c =? sep then [] else c :: split_head sep s'
  end.

End JS.

Export JS.

(* ===================================================================== *)
(** ** Collaborators, persisted state and effects *)
(* ===================================================================== *)

(** A field descriptor handed to the extractor (models/ExtractionField:
    both paths are of type String). *)
Record CustomField := { field_name : jsstring; description : jsstring }.

(** Calls that leave the process, in the order they are made, and the
    entry of the reconciler. [ok = false] records a call that failed. *)
Inductive Event : Type :=
| EvFetchExecutions (bolnaAgentId : jsval) (pageNumber : N)
| EvReconcile (executionData : jsval)
| EvOpenAICustom (transcript : jsstring) (customFields : list CustomField)
| EvOpenAIDoctor (transcript : jsstring)
| EvAppendCSV (data : jsobj) (filename : jsstring) (ok : bool)
| EvWebhook (data : jsobj) (ok : bool)
| EvAppendRow (client : jsval) (values : list jsval) (ok : bool).

(** Calls to the language model. *)
Definition is_openai (ev : Event) : bool :=
  match ev with EvOpenAICustom _ _ | EvOpenAIDoctor _ => true | _ => false end.

(** Fetches of a page and entries of the reconciler. *)
Definition is_sync (ev : Event) : bool :=
  match ev with EvFetchExecutions _ _ | EvReconcile _ => true | _ => false end.

(** Fetches of a page. *)
Definition is_fetch (ev : Event) : bool :=
  match ev with EvFetchExecutions _ _ => true | _ => false end.

(** The number of pages fetched so far. *)
Definition fetches (tr : list Event) : nat := length (List.filter is_fetch tr).

(** Calls to the language model and to the file system. *)
Definition is_background (ev : Event) : bool :=
  match ev with
  | EvOpenAICustom _ _ | EvOpenAIDoctor _ | EvAppendCSV _ _ _ => true
  | _ => false
  end.

(** Everything the services read from outside. A remote collaborator
    answers as a function of the calls made so far, so that the same
    request may be answered differently later on; the answer of the
    language model is the body of the HTTP response, [None] when the
    request throws. *)
Record Env := {
  (* configuration *)
  useAI : bool;                    (* !!process.env.OPENAI_API_KEY *)
  SAVE_EMPTY_EXTRACTIONS : bool;   (* process.env.SAVE_EMPTY_EXTRACTIONS === 'true' *)
  GOOGLE_SCRIPT_URL : bool;        (* process.env.GOOGLE_SCRIPT_URL is set *)
  (* remote collaborators *)
  openai_custom : list Event -> jsstring -> list CustomField -> option jsval;
  openai_doctor : list Event -> jsstring -> option jsval;
  bolna_executions : list Event -> jsval -> N -> option jsval;
  sheets_append : list Event -> jsval -> list jsval -> bool;
  apps_script_post : list Event -> jsobj -> option jsval;
  fs_append : list Event -> jsobj -> jsstring -> bool;
  clock : list Event -> float;
  (* the other collections, which the pipeline only reads *)
  Agent_findOne : jsval -> jsval;
  Agent_findById : jsval -> jsval;
  Client_findById : jsval -> jsval;
  ExtractionField_find : jsval -> list CustomField;
  (* the Execution model, whose schema is not among the sources: the key
     a remote execution id is stored under, and the id of a new document *)
  execution_key : jsval -> jsstring;
  ObjectId : list Event -> jsval;
  (* built-ins; [None] is an exception *)
  JSON_parse : jsstring -> option jsval;
  new_Date : jsval -> float;
  toISOString : float -> option jsstring;
  toTimeString : float -> jsstring;
  ToNumber : jsval -> float;
  ToString : jsval -> jsstring;
  toLowerCase : jsstring -> jsstring;
  (* the pattern matchers of the regex fallback (part_004, lines 693-831) *)
  extractDoctorName : jsstring -> jsstring -> jsstring;
  extractClinicName : jsstring -> jsstring -> jsstring;
  extractPhoneNumber : jsstring -> jsstring -> jsstring;
  extractEmail : jsstring -> jsstring -> jsstring;
  extractCity : jsstring -> jsstring -> jsstring;
}.

(** The Execution collection, keyed by remote execution id, and the calls
    made so far (oldest first). *)
Record World := {
  executions : gmap jsstring jsobj;
  trace : list Event;
}.

Inductive Res (A : Type) : Type :=
| Ok (a : A)
| Throw (msg : string)
| OutOfFuel.
Arguments Ok {A} a.
Arguments Throw {A} msg.
Arguments OutOfFuel {A}.

(** Computations: a result or an exception, and the world they leave. *)
Definition M (A : Type) : Type := World -> Res A * World.

Definition ret {A} (a : A) : M A := fun w => (Ok a, w).

Definition bind {A B} (c : M A) (k : A -> M B) : M B :=
  fun w =>
    match c w with
    | (Ok a, w') => k a w'
    | (Throw msg, w') => (Throw msg, w')
    | (OutOfFuel, w') => (OutOfFuel, w')
    end.

Definition throw {A} (msg : string) : M A := fun w => (Throw msg, w).

(** [try { c } catch (error) { h error }] *)
Definition try_catch {A} (c : M A) (h : string -> M A) : M A :=
  fun w =>
    match c w with
    | (Throw msg, w') => h msg w'
    | r => r
    end.

(** A value that may raise a TypeError. *)
Definition must {A} (o : option A) : M A :=
  match o with
  | Some a => ret a
  | None => throw "TypeError"
  end.

(** The world after the calls [evs] have been made. *)
Definition add_events (evs : list Event) (w : World) : World :=
  {| executions := executions w; trace := trace w ++ evs |}.

Definition emit (ev : Event) : M unit :=
  fun w => (Ok tt, add_events [ev] w).

(** A call to a collaborator: its answer is read off the history, then
    the call is recorded. *)
Definition call {A} (answer : list Event -> A) (ev : A -> Event) : M A :=
  fun w => let a := answer (trace w) in (Ok a, add_events [ev a] w).

Definition ask {A} (answer : list Event -> A) : M A :=
  fun w => (Ok (answer (trace w)), w).

Notation "'let*' x := c1 'in' c2" := (bind c1 (fun x => c2))
  (at level 10, x name, c1 at level 100, c2 at level 200).

(* ===================================================================== *)
(** ** dataExtractionService (src/unnamed/part_004, lines 366-854) *)
(* ===================================================================== *)

Module DataExtraction.

Definition not_found : jsstring := js "Not Found".

(** [sanitizeCustomValue(value)] *)
Definition sanitizeCustomValue (value : jsval) : jsstring :=
  if negb (truthy value) || negb (is_string value) then not_found
  else match value with
       | JStr s =>
           let trimmed := trim s in
           if truthy (JStr trimmed) then trimmed else not_found
       | _ => not_found
       end.

(** [getEmptyCustomFieldsData(customFields)] *)
Definition getEmptyCustomFieldsData (customFields : list CustomField) : jsobj :=
  foldl (fun result field => set_text result (field_name field) not_found) ∅ customFields.

(** The closing [forEach] of [extractWithCustomFieldsAI]: reading a
    property of [undefined] or [null] throws. *)
Fixpoint sanitize_each (extractedData : jsval) (customFields : list CustomField)
    (result : jsobj) : option jsobj :=
  match customFields with
  | [] => Some result
  | field :: rest =>
      match get_computed extractedData (field_name field) with
      | None => None
      | Some value =>
          sanitize_each extractedData rest
            (set_text result (field_name field) (sanitizeCustomValue value))
      end
  end.

(** [response.data.choices[0].message.content] *)
Definition response_content (data : jsval) : option jsval :=
  choices ← get_prop data (js "choices");
  first ← get_prop choices (js "0");
  message ← get_prop first (js "message");
  get_prop message (js "content").

Fixpoint starts_with (prefix s : jsstring) : bool :=
  match prefix, s with
  | [], _ => true
  | p :: prefix', c :: s' => (p =? c) && starts_with prefix' s'
  | _ :: _, [] => false
  end.

Definition ends_with (suffix s : jsstring) : bool := starts_with (rev suffix) (rev s).

(** [s.replace(/```json\n?/i, '')] and [s.replace(/```\n?/i, '')] on a
    string that starts with the fence: the fence goes, and the line feed
    after it. *)
Definition drop_fence (width : nat) (s : jsstring) : jsstring :=
  match drop width s with
  | 10 :: rest => rest
  | rest => rest
  end.

(** [s.replace(/```\n?$/, '')]: a fence that ends the string goes, with
    the line feed after it. *)
Definition drop_closing_fence (s : jsstring) : jsstring :=
  if ends_with (js "```" ++ [10]) s then take (length s - 4) s
  else if ends_with (js "```") s then take (length s - 3) s
  else s.

(** The content without its markdown code fence (lines 507-512). *)
Definition strip_fence (content : jsstring) : jsstring :=
  let cleanedContent := trim content in
  if starts_with (js "```json") cleanedContent
  then drop_closing_fence (drop_fence 7 cleanedContent)
  else if starts_with (js "```") cleanedContent
  then drop_closing_fence (drop_fence 3 cleanedContent)
  else cleanedContent.

(** The suffix of [s] that starts at the first [c]. *)
Fixpoint from_first (c : N) (s : jsstring) : option jsstring :=
  match s with
  | [] => None
  | x :: s' => if x =? c then Some s else from_first c s'
  end.

(** [content.match(/\{[\s\S]*\}/)]: from the first opening brace to the
    last closing brace after it. *)
Definition brace_match (content : jsstring) : option jsstring :=
  opened ← from_first 123 content;
  closed ← from_first 125 (rev (tail opened));
  Some (123 :: rev closed).

(** The decoding of the reply (lines 503-524 and 628-649): parse the
    content without its fence, and when that throws, parse what lies
    between the outermost braces. [None] is an exception. *)
Definition parse_reply (env : Env) (content : jsval) : option jsval :=
  match content with
  | JStr c =>
      match JSON_parse env (strip_fence c) with
      | Some extractedData => Some extractedData
      | None => jsonMatch ← brace_match c; JSON_parse env jsonMatch
      end
  | _ => None
  end.

(** [extractWithCustomFieldsAI(transcript, customFields)] *)
Definition extractWithCustomFieldsAI (env : Env) (transcript : jsstring)
    (customFields : list CustomField) : M jsobj :=
  try_catch
    (let* response := call (fun tr => openai_custom env tr transcript customFields)
                           (fun _ => EvOpenAICustom transcript customFields) in
     let* data := must response in
     let* content := must (response_content data) in
     let* extractedData := must (parse_reply env content) in
     must (sanitize_each extractedData customFields ∅))
    (fun error => throw error).

(** [extractWithCustomFields(transcript, customFields)] *)
Definition extractWithCustomFields (env : Env) (transcript : jsval)
    (customFields : list CustomField) : M jsobj :=
  if negb (truthy transcript) || negb (is_string transcript)
  then ret (getEmptyCustomFieldsData customFields)
  else match transcript, customFields with
       | JStr text, _ :: _ =>
           if useAI env then
             try_catch (extractWithCustomFieldsAI env text customFields)
                       (fun _ => ret (getEmptyCustomFieldsData customFields))
           else ret (getEmptyCustomFieldsData customFields)
       | _, _ => ret ∅
       end.

(** The five fields of the doctor-info mode. *)
Record DoctorInfo := {
  doctor_name : jsstring;
  clinic_hospital_name : jsstring;
  phone_number : jsstring;
  email_id : jsstring;
  city : jsstring;
}.

Definition doctor_obj (d : DoctorInfo) : jsobj :=
  <[js "doctor_name" := JStr (doctor_name d)]>
  (<[js "clinic_hospital_name" := JStr (clinic_hospital_name d)]>
  (<[js "phone_number" := JStr (phone_number d)]>
  (<[js "email_id" := JStr (email_id d)]>
  (<[js "city" := JStr (city d)]> ∅)))).

(** [sanitizeValue(value)] *)
Definition sanitizeValue (value : jsval) : jsstring :=
  if negb (truthy value) || negb (is_string value) then []
  else match value with JStr s => trim s | _ => [] end.

(** [getEmptyDoctorInfo()] *)
Definition getEmptyDoctorInfo : DoctorInfo :=
  {| doctor_name := []; clinic_hospital_name := []; phone_number := [];
     email_id := []; city := [] |}.

(** [extractWithAI(transcript)] *)
Definition extractWithAI (env : Env) (transcript : jsstring) : M DoctorInfo :=
  try_catch
    (let* response := call (fun tr => openai_doctor env tr transcript)
                           (fun _ => EvOpenAIDoctor transcript) in
     let* data := must response in
     let* content := must (response_content data) in
     let* extractedData := must (parse_reply env content) in
     let* v1 := must (get_prop extractedData (js "doctor_name")) in
     let* v2 := must (get_prop extractedData (js "clinic_hospital_name")) in
     let* v3 := must (get_prop extractedData (js "phone_number")) in
     let* v4 := must (get_prop extractedData (js "email_id")) in
     let* v5 := must (get_prop extractedData (js "city")) in
     ret {| doctor_name := sanitizeValue v1;
            clinic_hospital_name := sanitizeValue v2;
            phone_number := sanitizeValue v3;
            email_id := sanitizeValue v4;
            city := sanitizeValue v5 |})
    (fun error => throw error).

(** [extractWithRegex(transcript)] *)
Definition extractWithRegex (env : Env) (transcript : jsstring) : DoctorInfo :=
  let text := toLowerCase env transcript in
  {| doctor_name := extractDoctorName env transcript text;
     clinic_hospital_name := extractClinicName env transcript text;
     phone_number := extractPhoneNumber env transcript text;
     email_id := extractEmail env transcript text;
     city := extractCity env transcript text |}.

(** [extractDoctorInfo(transcript)] *)
Definition extractDoctorInfo (env : Env) (transcript : jsval) : M DoctorInfo :=
  if negb (truthy transcript) || negb (is_string transcript)
  then ret getEmptyDoctorInfo
  else match transcript with
       | JStr text =>
           if useAI env then
             try_catch (extractWithAI env text)
                       (fun _ => ret (extractWithRegex env text))
           else ret (extractWithRegex env text)
       | _ => ret getEmptyDoctorInfo
       end.

(** [hasValidData(extractedData)] on the five values, in key order. *)
Definition hasValidData (extractedData : DoctorInfo) : bool :=
  existsb (fun value => truthy (JStr value) && negb (Nat.eqb (length (trim value)) 0))
    [doctor_name extractedData; clinic_hospital_name extractedData;
     phone_number extractedData; email_id extractedData; city extractedData].

End DataExtraction.

(* ===================================================================== *)
(** ** sheetService and googleSheetsService (src/unnamed/part_004) *)
(* ===================================================================== *)

Module Sheets.

(** [value === 'success'] *)
Definition is_success (value : jsval) : bool :=
  match value with JStr s => bool_decide (s = js "success") | _ => false end.

(** [sheetService.appendToCSV(data, filename)]: the file operations either
    complete or throw. *)
Definition appendToCSV (env : Env) (data : jsobj) (filename : jsstring) : M unit :=
  let* ok := call (fun tr => fs_append env tr data filename)
                  (fun ok => EvAppendCSV data filename ok) in
  if ok : bool then ret tt else throw "appendToCSV failed".

(** [sheetService.sendToGoogleAppsScript(data)]: never throws, reports
    whether the webhook accepted the row. *)
Definition sendToGoogleAppsScript (env : Env) (data : jsobj) : M bool :=
  try_catch
    (if negb (GOOGLE_SCRIPT_URL env) then ret false
     else
       let* response := call (fun tr => apps_script_post env tr data)
                             (fun r => EvWebhook data
                                (match r with
                                 | Some d => truthy d && is_success (get_opt d (js "status"))
                                 | None => false
                                 end)) in
       match response with
       | None => throw "request failed"
       | Some d => if truthy d && is_success (get_opt d (js "status"))
                   then ret true else ret false
       end)
    (fun _ => ret false).

(** [googleSheetsService.appendRow(client, values)]: the credential
    refresh and the append either complete or throw. *)
Definition appendRow (env : Env) (client : jsval) (values : list jsval) : M bool :=
  let* ok := call (fun tr => sheets_append env tr client values)
                  (fun ok => EvAppendRow client values ok) in
  if ok : bool then ret true else throw "Failed to append row".

End Sheets.

(* ===================================================================== *)
(** ** BolnaService *)
(* ===================================================================== *)

Module Bolna.

Import DataExtraction Sheets.

(** The two versions of [processTranscriptForExtraction] in the sources:
    src/services/bolnaService.js (doctor info) and the BolnaService of
    src/services/encryptionService.js (custom fields). *)
Inductive Version := DoctorInfoMode | CustomFieldsMode.

Definition k_extracted_data : jsstring := js "extracted_data".
Definition k_processed : jsstring := js "_extraction_processed".
Definition k_extraction_date : jsstring := js "_extraction_date".
Definition k_transcript : jsstring := js "transcript".
Definition k_started_at : jsstring := js "started_at".
Definition k_bolna_execution_id : jsstring := js "bolna_execution_id".

(** [doc.k] on a document. *)
Definition field (doc : jsobj) (k : jsstring) : jsval := default JUndefined (doc !! k).

(** [execution.extracted_data && execution.extracted_data._extraction_processed] *)
Definition already_processed (execution : jsobj) : bool :=
  truthy (js_and (field execution k_extracted_data)
                 (get_opt (field execution k_extracted_data) k_processed)).

(** [d.toISOString()] and [d.toTimeString()] on whatever [d] is; [None]
    is an exception (not a Date, or an invalid one). *)
Definition call_toISOString (env : Env) (d : jsval) : option jsstring :=
  match d with
  | JDate t => toISOString env t
  | _ => None
  end.

Definition call_toTimeString (env : Env) (d : jsval) : option jsstring :=
  match d with
  | JDate t => Some (toTimeString env t)
  | _ => None
  end.

(** [v.toString()] *)
Definition call_toString (env : Env) (v : jsval) : option jsval :=
  match v with
  | JUndefined | JNull => None
  | JStr s => Some (JStr s)
  | _ => Some (JStr (ToString env v))
  end.

(** [execution.bolna_execution_id || execution._id.toString()] *)
Definition execution_id_of (env : Env) (execution : jsobj) : option jsval :=
  if truthy (field execution k_bolna_execution_id)
  then Some (field execution k_bolna_execution_id)
  else call_toString env (field execution (js "_id")).

(** The metadata block of the custom-fields step (lines 355-360 of
    src/services/encryptionService.js). *)
Definition custom_metadata (env : Env) (agent : jsval) (execution : jsobj) : option jsobj :=
  let started_at := field execution k_started_at in
  Call_Date ←
    (if truthy started_at
     then split_head 84 <$> call_toISOString env started_at else Some []);
  Call_Time ←
    (if truthy started_at
     then split_head 32 <$> call_toTimeString env started_at else Some []);
  Execution_ID ← execution_id_of env execution;
  Some (<[js "Agent_Name" := js_or (get_opt agent (js "name")) (JStr [])]>
       (<[js "Execution_ID" := Execution_ID]>
       (<[js "Call_Time" := JStr Call_Time]>
       (<[js "Call_Date" := JStr Call_Date]> (∅ : jsobj))))).

(** The row of the doctor-info step (lines 237-242 of
    src/services/bolnaService.js). *)
Definition doctor_sheetData (env : Env) (execution : jsobj) (extractedInfo : DoctorInfo)
    : option jsobj :=
  let started_at := field execution k_started_at in
  call_date ←
    (if truthy started_at
     then split_head 84 <$> call_toISOString env started_at else Some []);
  call_time ←
    (if truthy started_at then call_toISOString env started_at else Some []);
  execution_id ← execution_id_of env execution;
  Some (<[js "execution_id" := execution_id]>
       (<[js "call_time" := JStr call_time]>
       (<[js "call_date" := JStr call_date]> (doctor_obj extractedInfo)))).

(** [execution.save()] *)
Definition save (env : Env) (execution : jsobj) : M unit :=
  fun w =>
    (Ok tt,
     {| executions := <[execution_key env (field execution k_bolna_execution_id) := execution]>
                        (executions w);
        trace := trace w |}).

(** [new Date()] *)
Definition now (env : Env) : M float := ask (clock env).

(** [value !== 'Not Found'] *)
Definition is_not_found (value : jsval) : bool :=
  match value with JStr s => bool_decide (s = not_found) | _ => false end.

(** [Object.values(extractedData).some(value => value !== 'Not Found')] *)
Definition some_found (extractedData : jsobj) : bool :=
  existsb (fun kv => negb (is_not_found (snd kv))) (map_to_list extractedData).

(** The extracted_data written by the custom-fields step. *)
Definition custom_extracted_data (previous : jsval) (extractedData metadata : jsobj)
    (date : float) : jsobj :=
  <[k_extraction_date := JDate date]>
  (<[k_processed := JBool true]>
  (<[js "metadata" := JObj metadata]>
  (<[js "custom_fields" := JObj extractedData]> (spread previous)))).

(** The extracted_data written by the doctor-info step. *)
Definition doctor_extracted_data (previous : jsval) (extractedInfo : DoctorInfo)
    (date : float) : jsobj :=
  <[k_extraction_date := JDate date]>
  (<[k_processed := JBool true]>
  (<[js "doctor_info" := JObj (doctor_obj extractedInfo)]> (spread previous))).

(** The row sent to the sheet: the values in field order, then the four
    metadata values. *)
Definition custom_row (extractionFields : list CustomField) (extractedData metadata : jsobj)
    : list jsval :=
  map (fun f => js_or (get_member extractedData (field_name f)) (JStr not_found))
      extractionFields
  ++ [field metadata (js "Call_Date"); field metadata (js "Call_Time");
      field metadata (js "Execution_ID"); field metadata (js "Agent_Name")].

(** Lines 366-388: the delivery to Google Sheets, whose failure is logged
    and absorbed. *)
Definition deliver_custom (env : Env) (client : jsval) (extractionFields : list CustomField)
    (extractedData metadata : jsobj) : M unit :=
  if truthy (js_and (js_and client (get_opt client (js "google_authorized")))
                    (get_opt client (js "google_sheet_id")))
  then
    try_catch
      (let* _ := appendRow env client (custom_row extractionFields extractedData metadata) in
       ret tt)
      (fun _ => ret tt)
  else ret tt.

(** [processTranscriptForExtraction(execution)], custom-fields version
    (src/services/encryptionService.js, lines 308-408). The result is the
    document as the call leaves it. *)
Definition processTranscriptForExtraction_custom (env : Env) (execution : jsobj) : M jsobj :=
  try_catch
    (if already_processed execution then ret execution
     else
       let agent := Agent_findById env (field execution (js "agent_id")) in
       if negb (truthy agent) || negb (truthy (get_opt agent (js "client_id")))
       then ret execution
       else
         let extractionFields := ExtractionField_find env (get_opt agent (js "client_id")) in
         if Nat.eqb (length extractionFields) 0 then ret execution
         else
           let fieldsForAI :=
             map (fun f => {| field_name := field_name f; description := description f |})
                 extractionFields in
           let* extractedData :=
             extractWithCustomFields env (field execution k_transcript) fieldsForAI in
           let hasValidData := some_found extractedData in
           if hasValidData || SAVE_EMPTY_EXTRACTIONS env then
             let* metadata := must (custom_metadata env agent execution) in
             let client := Client_findById env (get_opt agent (js "client_id")) in
             let* _ := deliver_custom env client extractionFields extractedData metadata in
             let* date := now env in
             let execution' :=
               <[k_extracted_data :=
                   JObj (custom_extracted_data (field execution k_extracted_data)
                           extractedData metadata date)]> execution in
             let* _ := save env execution' in
             ret execution'
           else ret execution)
    (fun _ => ret execution).

(** [`doctor_data_${date}.csv`] *)
Definition csv_filename (iso : jsstring) : jsstring :=
  js "doctor_data_" ++ split_head 84 iso ++ js ".csv".

(** [processTranscriptForExtraction(execution)], doctor-info version
    (src/services/bolnaService.js, lines 224-267). *)
Definition processTranscriptForExtraction_doctor (env : Env) (execution : jsobj) : M jsobj :=
  try_catch
    (if already_processed execution then ret execution
     else
       let* extractedInfo := extractDoctorInfo env (field execution k_transcript) in
       if hasValidData extractedInfo then
         let* sheetData := must (doctor_sheetData env execution extractedInfo) in
         let* today := now env in
         let* iso := must (toISOString env today) in
         let* _ := appendToCSV env sheetData (csv_filename iso) in
         let* _ := sendToGoogleAppsScript env sheetData in
         let* date := now env in
         let execution' :=
           <[k_extracted_data :=
               JObj (doctor_extracted_data (field execution k_extracted_data)
                       extractedInfo date)]> execution in
         let* _ := save env execution' in
         ret execution'
       else ret execution)
    (fun _ => ret execution).

Definition processTranscriptForExtraction (v : Version) : Env -> jsobj -> M jsobj :=
  match v with
  | DoctorInfoMode => processTranscriptForExtraction_doctor
  | CustomFieldsMode => processTranscriptForExtraction_custom
  end.

(** [executionData.conversation_duration || ... || 0] *)
Definition conversationTime_of (executionData : jsval) : jsval :=
  js_or (js_or (js_or (js_or (js_or (js_or
    (get_opt executionData (js "conversation_duration"))
    (get_opt executionData (js "conversation_time")))
    (get_opt executionData (js "duration")))
    (get_opt executionData (js "call_duration")))
    (get_opt executionData (js "call_duration_seconds")))
    (get_opt executionData (js "billable_duration")))
    (JNum 0%float).

(** [executionData.total_cost ? executionData.total_cost / 100 : 0] *)
Definition costInDollars_of (env : Env) (executionData : jsval) : jsval :=
  let total_cost := get_opt executionData (js "total_cost") in
  if truthy total_cost then
    JNum (match total_cost with JNum x => x | v => ToNumber env v end / 100)%float
  else JNum 0%float.

(** [x ? new Date(x) : null] *)
Definition date_or_null (env : Env) (x : jsval) : jsval :=
  if truthy x then JDate (new_Date env x) else JNull.

(** The compartment to persist: the remote one, under the stored one when
    the stored execution has been processed. *)
Definition finalExtractedData_of (executionData : jsval) (existingExecution : option jsobj)
    : jsval :=
  let finalExtractedData := js_or (get_opt executionData k_extracted_data) (JObj ∅) in
  match existingExecution with
  | Some existing =>
      if already_processed existing
      then JObj (spread (field existing k_extracted_data) ∪ spread finalExtractedData)
      else finalExtractedData
  | None => finalExtractedData
  end.

(** The update document of [upsertExecution]. *)
Definition executionDoc_of (env : Env) (agentId executionId executionData : jsval)
    (existingExecution : option jsobj) : jsobj :=
  let telephony_data := get_opt executionData (js "telephony_data") in
  list_to_map
    [ (k_bolna_execution_id, executionId);
      (js "agent_id", agentId);
      (js "conversation_time", conversationTime_of executionData);
      (js "total_cost", costInDollars_of env executionData);
      (js "status", js_or (get_opt executionData (js "status")) (JStr (js "pending")));
      (js "telephony_provider",
        js_or (get_opt telephony_data (js "provider")) (get_opt executionData (js "provider")));
      (js "from_number",
        js_or (get_opt telephony_data (js "from_number"))
              (get_opt executionData (js "from_number")));
      (js "to_number",
        js_or (get_opt telephony_data (js "to_number"))
              (get_opt executionData (js "to_number")));
      (js "call_sid",
        js_or (get_opt telephony_data (js "call_sid")) (get_opt executionData (js "call_sid")));
      (k_extracted_data, finalExtractedData_of executionData existingExecution);
      (k_transcript, js_or (get_opt executionData k_transcript) (JStr []));
      (js "metadata",
        JObj (<[js "recording_url" := get_opt telephony_data (js "recording_url")]>
             (<[js "telephony_data" := telephony_data]>
             (<[js "cost_breakdown" := get_opt executionData (js "cost_breakdown")]>
             (spread executionData)))));
      (k_started_at, date_or_null env (get_opt executionData (js "created_at")));
      (js "ended_at", date_or_null env (get_opt executionData (js "updated_at"))) ].

(** [Execution.findOne({ bolna_execution_id: executionId })] *)
Definition findOne (env : Env) (executionId : jsval) : M (option jsobj) :=
  fun w => (Ok (executions w !! execution_key env executionId), w).

(** Modelled from the spec: models/Execution.js is not among the sources.
    [Execution.findOneAndUpdate(filter, executionDoc, { upsert, new })] is
    "write-or-create keyed by remote execution id": the paths of the update
    document are set on the stored document, or a new document is created
    from them; the document as stored is returned. *)
Definition findOneAndUpdate (env : Env) (executionId : jsval) (executionDoc : jsobj)
    : M jsobj :=
  fun w =>
    let key := execution_key env executionId in
    let doc := match executions w !! key with
               | Some existing => executionDoc ∪ existing
               | None => <[js "_id" := ObjectId env (trace w)]> executionDoc
               end in
    (Ok doc, {| executions := <[key := doc]> (executions w); trace := trace w |}).

(** [upsertExecution(agentId, executionData)]; the result is the stored
    document, or undefined for a record without id. *)
Definition upsertExecution (v : Version) (env : Env) (agentId executionData : jsval)
    : M jsval :=
  let* _ := emit (EvReconcile executionData) in
  try_catch
    (let* id := must (get_prop executionData (js "id")) in
     let executionId := js_or id (get_opt executionData (js "execution_id")) in
     if negb (truthy executionId) then ret JUndefined
     else
       let* existingExecution := findOne env executionId in
       let executionDoc :=
         executionDoc_of env agentId executionId executionData existingExecution in
       let* execution := findOneAndUpdate env executionId executionDoc in
       let transcript := field execution k_transcript in
       if truthy transcript then
         match transcript with
         | JStr text =>
             if negb (Nat.eqb (length (trim text)) 0) then
               let* execution' := processTranscriptForExtraction v env execution in
               ret (JObj execution')
             else ret (JObj execution)
         | _ => throw "TypeError"
         end
       else ret (JObj execution))
    (fun error => throw error).

(** The strings a string yields to [for...of]: one per code point. *)
Fixpoint string_iterator (s : jsstring) : list jsval :=
  match s with
  | [] => []
  | c :: s' =>
      match s' with
      | d :: s'' =>
          if is_high_surrogate c && is_low_surrogate d
          then JStr [c; d] :: string_iterator s''
          else JStr [c] :: string_iterator s'
      | [] => [JStr [c]]
      end
  end.

(** The values [for (const x of v)] visits; [None] when [v] is not iterable. *)
Definition iterate (v : jsval) : option (list jsval) :=
  match v with
  | JArr l => Some l
  | JStr s => Some (string_iterator s)
  | _ => None
  end.

(** [fetchExecutionsForAgent(bolnaAgentId, pageNumber, 50)] *)
Definition fetchExecutionsForAgent (env : Env) (bolnaAgentId : jsval) (pageNumber : N)
    : M jsval :=
  try_catch
    (let* response := call (fun tr => bolna_executions env tr bolnaAgentId pageNumber)
                           (fun _ => EvFetchExecutions bolnaAgentId pageNumber) in
     match response with
     | Some data => ret data
     | None => throw "request failed"
     end)
    (fun error => throw error).

(** The inner loop of [syncExecutionsForAgent]. *)
Fixpoint upsert_each (v : Version) (env : Env) (agentId : jsval) (items : list jsval)
    (totalSynced : N) : M N :=
  match items with
  | [] => ret totalSynced
  | executionData :: rest =>
      let* totalSynced' :=
        try_catch
          (let* _ := upsertExecution v env agentId executionData in ret (totalSynced + 1))
          (fun _ => ret totalSynced) in
      upsert_each v env agentId rest totalSynced'
  end.

(** The [while (hasMore)] loop; [fuel] bounds the number of pages. *)
Fixpoint sync_pages (fuel : nat) (v : Version) (env : Env) (bolnaAgentId agentId : jsval)
    (pageNumber totalSynced : N) : M N :=
  match fuel with
  | O => fun w => (OutOfFuel, w)
  | S fuel' =>
      let* response := fetchExecutionsForAgent env bolnaAgentId pageNumber in
      let* data := must (get_prop response (js "data")) in
      let executions := js_or data (JArr []) in
      let hasMore := js_or (get_opt response (js "has_more")) (JBool false) in
      let* items := must (iterate executions) in
      let* totalSynced' := upsert_each v env agentId items totalSynced in
      if truthy hasMore
      then sync_pages fuel' v env bolnaAgentId agentId (pageNumber + 1) totalSynced'
      else ret totalSynced'
  end.

(** [syncExecutionsForAgent(bolnaAgentId)] *)
Definition syncExecutionsForAgent (fuel : nat) (v : Version) (env : Env)
    (bolnaAgentId : jsval) : M N :=
  try_catch
    (let agent := Agent_findOne env bolnaAgentId in
     if negb (truthy agent) then throw "Agent not found in database"
     else sync_pages fuel v env bolnaAgentId (get_opt agent (js "_id")) 1 0)
    (fun _ => ret 0).

End Bolna.

(* ===================================================================== *)
(** ** EncryptionService (src/services/encryptionService.js, lines 1-84) *)
(* ===================================================================== *)

Module Encryption.

(** A Buffer. *)
Abbreviation bytes := (list Byte.byte).

Definition byte_of_N (n : N) : Byte.byte :=
  match Byte.of_N n with Some b => b | None => Byte.x00 end.

(** [buf.toString('hex')]: two lower-case digits per byte. *)
Definition hex_digit (n : N) : N := if n <? 10 then 48 + n else 87 + n.

Definition hex_of_byte (b : Byte.byte) : jsstring :=
  [hex_digit (Byte.to_N b / 16); hex_digit (Byte.to_N b mod 16)].

Definition toString_hex (buf : bytes) : jsstring := flat_map hex_of_byte buf.

Definition hex_value (c : N) : option N :=
  if (48 <=? c) && (c <=? 57) then Some (c - 48)
  else if (97 <=? c) && (c <=? 102) then Some (c - 87)
  else if (65 <=? c) && (c <=? 70) then Some (c - 55)
  else None.

(** [Buffer.from(s, 'hex')]: decoding stops at the first pair that is not
    two hex digits. *)
Fixpoint Buffer_from_hex (s : jsstring) : bytes :=
  match s with
  | a :: b :: rest =>
      match hex_value a, hex_value b with
      | Some x, Some y => byte_of_N (16 * x + y) :: Buffer_from_hex rest
      | _, _ => []
      end
  | _ => []
  end.

(** [s.split(sep)] for a one-unit separator. *)
Fixpoint split (sep : N) (s : jsstring) : list jsstring :=
  match s with
  | [] => [[]]
  | c :: s' =>
      if c =? sep then [] :: split sep s'
      else match split sep s' with
           | part :: parts => (c :: part) :: parts
           | [] => [[c]]
           end
  end.

(** The code points a string is encoded from: a surrogate pair is one
    code point, a surrogate on its own is replaced by U+FFFD. *)
Fixpoint code_points (s : jsstring) : list N :=
  match s with
  | [] => []
  | c :: s' =>
      if is_high_surrogate c then
        match s' with
        | d :: s'' =>
            if is_low_surrogate d
            then (65536 + (c - 55296) * 1024 + (d - 56320)) :: code_points s''
            else 65533 :: code_points s'
        | [] => [65533]
        end
      else if is_low_surrogate c then 65533 :: code_points s'
      else c :: code_points s'
  end.

(** The UTF-8 bytes of a code point. *)
Definition encode_code_point (cp : N) : list N :=
  if cp <? 128 then [cp]
  else if cp <? 2048 then [192 + cp / 64; 128 + cp mod 64]
  else if cp <? 65536 then [224 + cp / 4096; 128 + (cp / 64) mod 64; 128 + cp mod 64]
  else [240 + cp / 262144; 128 + (cp / 4096) mod 64; 128 + (cp / 64) mod 64;
        128 + cp mod 64].

(** The bytes [cipher.update(text, 'utf8', ...)] reads from a string. *)
Definition utf8_encode (text : jsstring) : bytes :=
  map byte_of_N (flat_map encode_code_point (code_points text)).

Definition is_continuation (b : N) : bool := (128 <=? b) && (b <=? 191).
Definition is_surrogate (c : N) : bool := (55296 <=? c) && (c <=? 57343).

(** The second byte a sequence may have after the first byte [b0]
    (Unicode, table 3-7): the bounds exclude the overlong forms, the
    surrogates and what lies beyond U+10FFFF. *)
Definition is_second (b0 b1 : N) : bool :=
  ((if b0 =? 224 then 160 else if b0 =? 240 then 144 else 128) <=? b1)
  && (b1 <=? (if b0 =? 237 then 159 else if b0 =? 244 then 143 else 191)).

(** The code points of a byte sequence. Bytes that do not form a
    well-formed sequence are replaced by U+FFFD, one for each maximal
    prefix of a well-formed sequence and one for each byte that starts
    none; decoding resumes at the byte that broke the sequence. *)
Fixpoint decode_code_points (bs : list N) : list N :=
  match bs with
  | [] => []
  | b0 :: rest =>
      if b0 <? 128 then b0 :: decode_code_points rest
      else if (194 <=? b0) && (b0 <=? 223) then
        match rest with
        | b1 :: r1 =>
            if is_continuation b1
            then ((b0 - 192) * 64 + (b1 - 128)) :: decode_code_points r1
            else 65533 :: decode_code_points rest
        | [] => [65533]
        end
      else if (224 <=? b0) && (b0 <=? 239) then
        match rest with
        | b1 :: r1 =>
            if is_second b0 b1 then
              match r1 with
              | b2 :: r2 =>
                  if is_continuation b2
                  then ((b0 - 224) * 4096 + (b1 - 128) * 64 + (b2 - 128))
                       :: decode_code_points r2
                  else 65533 :: decode_code_points r1
              | [] => [65533]
              end
            else 65533 :: decode_code_points rest
        | [] => [65533]
        end
      else if (240 <=? b0) && (b0 <=? 244) then
        match rest with
        | b1 :: r1 =>
            if is_second b0 b1 then
              match r1 with
              | b2 :: r2 =>
                  if is_continuation b2 then
                    match r2 with
                    | b3 :: r3 =>
                        if is_continuation b3
                        then ((b0 - 240) * 262144 + (b1 - 128) * 4096 + (b2 - 128) * 64
                              + (b3 - 128)) :: decode_code_points r3
                        else 65533 :: decode_code_points r2
                    | [] => [65533]
                    end
                  else 65533 :: decode_code_points r1
              | [] => [65533]
              end
            else 65533 :: decode_code_points rest
        | [] => [65533]
        end
      else 65533 :: decode_code_points rest
  end.

(** The code units of a code point. *)
Definition from_code_point (cp : N) : jsstring :=
  if cp <? 65536 then [cp]
  else [55296 + (cp - 65536) / 1024; 56320 + (cp - 65536) mod 1024].

(** The string a byte sequence is decoded to: what [decipher.update(...,
    'utf8')] and [final('utf8')] give for the decrypted bytes, and
    [fs.readFileSync(path, 'utf8')] for the bytes of a file. *)
Definition utf8_decode (buf : bytes) : jsstring :=
  flat_map from_code_point (decode_code_points (map Byte.to_N buf)).

(** [new EncryptionService()]: the key, or [None] when the constructor
    throws. [encryptionKey] is process.env.ENCRYPTION_KEY and [random] the
    32 bytes [crypto.randomBytes] would give. *)
Definition key_of (encryptionKey : option jsstring) (random : bytes) : option bytes :=
  match encryptionKey with
  | None | Some [] => Some random
  | Some k => if negb (Nat.eqb (length k) 64) then None else Some (Buffer_from_hex k)
  end.

Section Cipher.

(** Node's aes-256-gcm: [gcm_encrypt key iv plaintext] is the ciphertext
    and the authentication tag, [gcm_decrypt key iv authTag ciphertext] the
    plaintext; [None] stands for an exception (key or iv of the wrong
    length, authentication failure). *)
Variable gcm_encrypt : bytes -> bytes -> bytes -> option (bytes * bytes).
Variable gcm_decrypt : bytes -> bytes -> bytes -> bytes -> option bytes.

(** [encrypt(text)] with [iv] the 16 bytes drawn by [crypto.randomBytes];
    [None] is an exception. *)
Definition encrypt (key iv : bytes) (text : jsval) : option jsval :=
  if negb (truthy text) then Some JNull
  else match text with
       | JStr s =>
           '(encrypted, authTag) ← gcm_encrypt key iv (utf8_encode s);
           Some (JStr (toString_hex iv ++ [58] ++ toString_hex authTag ++ [58]
                       ++ toString_hex encrypted))
       | _ => None
       end.

(** The [try] block of [decrypt]; [None] is an exception. The two
    buffers are decoded by [Buffer.from], which stops at the first pair
    that is not hexadecimal; [decipher.update(encrypted, 'hex', 'utf8')]
    decodes its input the same way, after it has refused a string with an
    odd number of characters. *)
Definition decrypt_try (key : bytes) (encryptedText : jsval) : option jsstring :=
  match encryptedText with
  | JStr s =>
      match split 58 s with
      | [p0; p1; p2] =>
          let iv := Buffer_from_hex p0 in
          let authTag := Buffer_from_hex p1 in
          let encrypted := p2 in
          if Nat.odd (length encrypted) then None
          else
            decrypted ← gcm_decrypt key iv authTag (Buffer_from_hex encrypted);
            Some (utf8_decode decrypted)
      | _ => None
      end
  | _ => None
  end.

(** [decrypt(encryptedText)] *)
Definition decrypt (key : bytes) (encryptedText : jsval) : jsval :=
  if negb (truthy encryptedText) then JNull
  else match decrypt_try key encryptedText with
       | Some decrypted => JStr decrypted
       | None => JNull
       end.

End Cipher.

End Encryption.

(* ===================================================================== *)
(** ** sheetService: the CSV files (src/unnamed/part_004, lines 898-1116) *)
(* ===================================================================== *)

Module Csv.

Import Bolna Encryption.

(** [s.includes(c)] for a one-unit [c]. *)
Definition includes (c : N) (s : jsstring) : bool := existsb (N.eqb c) s.

(** [String(value)] *)
Definition String_of (env : Env) (value : jsval) : jsstring :=
  match value with JStr s => s | _ => ToString env value end.

(** Every double quote (code unit 34) of [s] written twice: the
    [replace] of line 1010. *)
Definition double_quotes (s : jsstring) : jsstring :=
  flat_map (fun c => if c =? 34 then [34; 34] else [c]) s.

(** [escapeCSV(value)] *)
Definition escapeCSV (env : Env) (value : jsval) : jsstring :=
  if negb (truthy value) then []
  else
    let stringValue := String_of env value in
    if includes 44 stringValue || includes 34 stringValue || includes 10 stringValue
    then [34] ++ double_quotes stringValue ++ [34]
    else stringValue.

(** The loop of [parseCSVLine], at the characters still to read. *)
Fixpoint parse_from (line current : jsstring) (inQuotes : bool) (values : list jsstring)
    : list jsstring :=
  match line with
  | [] => values ++ [trim current]
  | char :: rest =>
      if char =? 34 then
        match rest with
        | next :: rest' =>
            if inQuotes && (next =? 34)
            then parse_from rest' (current ++ [34]) inQuotes values
            else parse_from rest current (negb inQuotes) values
        | [] => parse_from rest current (negb inQuotes) values
        end
      else if (char =? 44) && negb inQuotes
      then parse_from rest [] inQuotes (values ++ [trim current])
      else parse_from rest (current ++ [char]) inQuotes values
  end.

(** [parseCSVLine(line)] *)
Definition parseCSVLine (line : jsstring) : list jsstring := parse_from line [] false [].

(** [parts.join(sep)] on strings. *)
Fixpoint join (sep : jsstring) (parts : list jsstring) : jsstring :=
  match parts with
  | [] => []
  | p :: rest =>
      match rest with
      | [] => p
      | _ :: _ => p ++ sep ++ join sep rest
      end
  end.

(** An element of an array as [join] writes it. *)
Definition cell (env : Env) (v : jsval) : jsstring :=
  match v with
  | JUndefined | JNull => []
  | _ => String_of env v
  end.

Definition headers : list jsstring :=
  [js "Doctor Name"; js "Clinic/Hospital Name"; js "Phone Number"; js "Email ID";
   js "City"; js "Call Date"; js "Call Time"; js "Execution ID"].

(** The cells of the row written for [data] (lines 932-941 and 985-994):
    the five extracted values are escaped, the three call values are not. *)
Definition row_of (env : Env) (data : jsval) : option (list jsstring) :=
  doctor_name ← get_prop data (js "doctor_name");
  clinic_hospital_name ← get_prop data (js "clinic_hospital_name");
  phone_number ← get_prop data (js "phone_number");
  email_id ← get_prop data (js "email_id");
  city ← get_prop data (js "city");
  call_date ← get_prop data (js "call_date");
  call_time ← get_prop data (js "call_time");
  execution_id ← get_prop data (js "execution_id");
  Some [escapeCSV env (js_or doctor_name (JStr []));
        escapeCSV env (js_or clinic_hospital_name (JStr []));
        escapeCSV env (js_or phone_number (JStr []));
        escapeCSV env (js_or email_id (JStr []));
        escapeCSV env (js_or city (JStr []));
        cell env (js_or call_date (JStr []));
        cell env (js_or call_time (JStr []));
        cell env (js_or execution_id (JStr []))].

(** [filename.endsWith('.csv') ? filename : filename + '.csv'] *)
Definition with_extension (filename : jsstring) : jsstring :=
  if DataExtraction.ends_with (js ".csv") filename then filename
  else filename ++ js ".csv".

(** The export directory: the bytes of each file, by path. Writing and
    reading go through UTF-8, as the 'utf8' argument of the fs calls says;
    the directory exists and the file system does not fail. *)
Abbreviation Files := (gmap jsstring bytes).

Section Directory.

(** [path.join(this.exportDir, filename)] *)
Variable path_join : jsstring -> jsstring.

(** [appendToCSV(data, filename)]: the path it returns ([None] is an
    exception) and the files it leaves. *)
Definition appendToCSV (env : Env) (data : jsval) (filename : jsstring) (files : Files)
    : option jsstring * Files :=
  let filePath := path_join (with_extension filename) in
  let files1 :=
    match files !! filePath with
    | Some _ => files
    | None => <[filePath := utf8_encode (join [44] headers ++ [10])]> files
    end in
  match row_of env data with
  | None => (None, files1)
  | Some row =>
      (Some filePath,
       <[filePath := default [] (files1 !! filePath) ++ utf8_encode (join [44] row ++ [10])]>
         files1)
  end.

(** The rows of [saveToCSV]: [None] when reading a property of an item
    throws. *)
Fixpoint rows_of (env : Env) (dataArray : list jsval) : option (list jsstring) :=
  match dataArray with
  | [] => Some []
  | item :: rest =>
      row ← row_of env item;
      rows ← rows_of env rest;
      Some (join [44] row :: rows)
  end.

(** [saveToCSV(dataArray, filename)] with [today] what
    [new Date().toISOString()] gives: the path it returns ([None] is an
    exception) and the files it leaves. *)
Definition saveToCSV (env : Env) (today : jsstring) (dataArray filename : jsval)
    (files : Files) : option jsstring * Files :=
  match dataArray with
  | JArr (item :: items) =>
      match (if negb (truthy filename) then Some (csv_filename today)
             else match filename with JStr s => Some s | _ => None end) with
      | None => (None, files)
      | Some name =>
          let filePath := path_join (with_extension name) in
          match rows_of env (item :: items) with
          | None => (None, files)
          | Some csvRows =>
              let csvContent := join [10] (join [44] headers :: csvRows) in
              (Some filePath, <[filePath := utf8_encode csvContent]> files)
          end
      end
  | _ => (None, files)
  end.

(** A header of line 1067: trimmed, then without the double quote that
    starts it and without the one that ends what is left. *)
Definition header_name (h : jsstring) : jsstring :=
  let trimmed := trim h in
  let opened := match trimmed with 34 :: rest => rest | _ => trimmed end in
  match rev opened with
  | 34 :: rest => rev rest
  | _ => opened
  end.

(** The [forEach] over the headers: [row[header] = values[index] || '']. *)
Fixpoint record_of (headers : list jsstring) (index : nat) (values : list jsstring)
    (row : jsobj) : jsobj :=
  match headers with
  | [] => row
  | header :: rest =>
      record_of rest (S index) values
        (set_text row header (default [] (values !! index)))
  end.

(** [readCSV(filename)]; [None] is an exception. *)
Definition readCSV (filename : jsstring) (files : Files) : option (list jsobj) :=
  let filePath := path_join (with_extension filename) in
  content ← files !! filePath;
  let lines :=
    List.filter (fun line => truthy (JStr (trim line))) (split 10 (utf8_decode content)) in
  match lines with
  | [] => Some []
  | first :: rest =>
      let headers := map header_name (split 44 first) in
      Some (map (fun line => record_of headers 0 (parseCSVLine line) ∅) rest)
  end.

(** [deleteCSV(filename)] *)
Definition deleteCSV (filename : jsstring) (files : Files) : bool * Files :=
  let filePath := path_join (with_extension filename) in
  match files !! filePath with
  | Some _ => (true, delete filePath files)
  | None => (false, files)
  end.

End Directory.

End Csv.

(* ===================================================================== *)
(** ** BolnaService: the orchestrator and the refresh of one execution *)
(* ===================================================================== *)

Module BolnaService.

Import Bolna.

(** The loop of [syncAllExecutions] (lines 83-91 of
    src/services/bolnaService.js): the handler reads the agent again for
    its message. *)
Fixpoint sync_agents (fuel : nat) (v : Version) (env : Env) (agents : list jsval)
    (totalSynced : N) : M N :=
  match agents with
  | [] => ret totalSynced
  | agent :: rest =>
      let* totalSynced' :=
        try_catch
          (let* _ := must (get_prop agent (js "name")) in
           let* bolna_agent_id := must (get_prop agent (js "bolna_agent_id")) in
           let* synced := syncExecutionsForAgent fuel v env bolna_agent_id in
           ret (totalSynced + synced))
          (fun _ =>
             let* _ := must (get_prop agent (js "bolna_agent_id")) in
             ret totalSynced) in
      sync_agents fuel v env rest totalSynced'
  end.

(** [syncAllExecutions()], with [agents] the array [Agent.find()] resolves
    to, [None] when it throws. *)
Definition syncAllExecutions (fuel : nat) (v : Version) (env : Env)
    (agents : option (list jsval)) : M N :=
  try_catch
    (let* agents := must agents in
     if Nat.eqb (length agents) 0 then ret 0
     else sync_agents fuel v env agents 0)
    (fun error => throw error).

(** [fetchAndUpdateExecution(bolnaAgentId, bolnaExecutionId)] (lines
    270-304), with [details] what [fetchExecutionDetails] resolves to,
    [None] when it throws. The result is the document as the call leaves
    it, or null when no execution has this id. *)
Definition fetchAndUpdateExecution (v : Version) (env : Env) (details : option jsval)
    (bolnaExecutionId : jsval) : M jsval :=
  try_catch
    (let* details := must details in
     let* found := findOne env bolnaExecutionId in
     match found with
     | None => ret JNull
     | Some execution =>
         let* remote := must (get_prop details k_extracted_data) in
         let extracted_data :=
           if already_processed execution
           then JObj (spread (field execution k_extracted_data)
                      ∪ spread (js_or remote (JObj ∅)))
           else js_or remote (field execution k_extracted_data) in
         let transcript :=
           js_or (get_opt details k_transcript) (field execution k_transcript) in
         let metadata :=
           JObj (<[js "recording_url" :=
                     get_opt (get_opt details (js "telephony_data")) (js "recording_url")]>
                   (spread details ∪ spread (field execution (js "metadata")))) in
         let execution1 :=
           <[js "metadata" := metadata]>
             (<[k_transcript := transcript]>
                (<[k_extracted_data := extracted_data]> execution)) in
         let* _ := save env execution1 in
         if truthy transcript then
           match transcript with
           | JStr text =>
               if negb (Nat.eqb (length (trim text)) 0) then
                 let* execution' := processTranscriptForExtraction v env execution1 in
                 ret (JObj execution')
               else ret (JObj execution1)
           | _ => throw "TypeError"
           end
         else ret (JObj execution1)
     end)
    (fun error => throw error).

End BolnaService.

(* ===================================================================== *)
(** ** The credentials of the Sheets client and the key of the cipher *)
(* ===================================================================== *)

Module GoogleSheets.

Import Bolna Encryption.

(** [EncryptionService.generateKey()], with [random] the 32 bytes drawn by
    [crypto.randomBytes]. *)
Definition generateKey (random : bytes) : jsstring := toString_hex random.

Section Credentials.

Variable gcm_encrypt : bytes -> bytes -> bytes -> option (bytes * bytes).
Variable gcm_decrypt : bytes -> bytes -> bytes -> bytes -> option bytes.

(** The key of the encryption service. *)
Variable key : bytes.

(** [oauth2Client.refreshAccessToken()] for a refresh token: the
    credentials of the answer, [None] when the request throws. *)
Variable refreshAccessToken : jsstring -> option jsval.

(** [refreshTokenIfNeeded(client)] (src/unnamed/part_004, lines 193-227),
    at the time [now], with [iv] the bytes drawn for the encryption: the
    client document as the call leaves it, [None] when it throws. *)
Definition refreshTokenIfNeeded (env : Env) (now : float) (iv : bytes) (client : jsobj)
    : option jsobj :=
  let google_token_expiry := field client (js "google_token_expiry") in
  if negb (truthy google_token_expiry) then Some client
  else
    let expiryTime := new_Date env google_token_expiry in
    if PrimFloat.ltb (PrimFloat.sub expiryTime now) 300000%float then
      match decrypt gcm_decrypt key (field client (js "google_refresh_token")) with
      | JStr (c :: token) =>
          credentials ← refreshAccessToken (c :: token);
          access_token ← get_prop credentials (js "access_token");
          encrypted ← encrypt gcm_encrypt key iv access_token;
          let client1 := <[js "google_access_token" := encrypted]> client in
          let expiry_date := get_opt credentials (js "expiry_date") in
          Some (if truthy expiry_date
                then <[js "google_token_expiry" := JDate (new_Date env expiry_date)]> client1
                else client1)
      | _ => None
      end
    else Some client.

(** [createSheetsClient(client)] (lines 168-187): the client document as
    the call leaves it and the access and refresh tokens the Sheets client
    is given, [None] when it throws. *)
Definition createSheetsClient (env : Env) (now : float) (iv : bytes) (client : jsobj)
    : option (jsobj * jsval * jsval) :=
  client' ← refreshTokenIfNeeded env now iv client;
  let accessToken := decrypt gcm_decrypt key (field client' (js "google_access_token")) in
  let refreshToken := decrypt gcm_decrypt key (field client' (js "google_refresh_token")) in
  if negb (truthy accessToken) then None
  else Some (client', accessToken, refreshToken).

End Credentials.

(** The header row written when a field is created
    (src/controllers/extractionFieldsController.js, lines 96-102). *)
Definition sheet_headers (allFields : list CustomField) : list jsval :=
  map (fun f => JStr (field_name f)) allFields
  ++ [JStr (js "Call_Date"); JStr (js "Call_Time"); JStr (js "Execution_ID");
      JStr (js "Agent_Name")].

End GoogleSheets.

(* ===================================================================== *)
(** ** Sample collaborators, used to run the services on concrete inputs *)
(* ===================================================================== *)

Module Samples.

Import DataExtraction Bolna.
Local Open Scope string_scope.

Definition obj (l : list (string * jsval)) : jsobj :=
  list_to_map (map (fun kv => (js (fst kv), snd kv)) l).

Definition str (s : string) : jsval := JStr (js s).

(** The text of an object whose values are strings, as the language model
    of the samples writes it: no escapes and no white space inside. *)
Definition quoted (s : string) : jsstring := ([34] ++ js s ++ [34])%list.

Fixpoint members_text (l : list (string * string)) : jsstring :=
  match l with
  | [] => []
  | (k, v) :: l' =>
      (quoted k ++ [58] ++ quoted v ++
       match l' with [] => [] | _ => [44] ++ members_text l' end)%list
  end.

Definition object_text (l : list (string * string)) : jsstring :=
  ([123] ++ members_text l ++ [125])%list.

(** The reader of such texts, the part of [JSON.parse] the samples need. *)
Fixpoint read_quoted (s : jsstring) : option (jsstring * jsstring) :=
  match s with
  | [] => None
  | c :: s' =>
      if (c =? 34)%N then Some ([], s')
      else '(word, rest) ← read_quoted s'; Some (c :: word, rest)
  end.

Fixpoint read_members (fuel : nat) (s : jsstring) (acc : jsobj) : option jsval :=
  match fuel with
  | O => None
  | S fuel' =>
      match s with
      | q :: s1 =>
          if negb (q =? 34)%N then None else
          '(k, s2) ← read_quoted s1;
          match s2 with
          | colon :: q' :: s3 =>
              if negb ((colon =? 58)%N && (q' =? 34)%N) then None else
              '(v, s4) ← read_quoted s3;
              match s4 with
              | [c] => if (c =? 125)%N then Some (JObj (<[k := JStr v]> acc)) else None
              | c :: s5 =>
                  if (c =? 44)%N then read_members fuel' s5 (<[k := JStr v]> acc) else None
              | [] => None
              end
          | _ => None
          end
      | [] => None
      end
  end.

Definition is_json_space (c : N) : bool :=
  ((c =? 9) || (c =? 10) || (c =? 13) || (c =? 32))%N.

Fixpoint dropwhile_space (s : jsstring) : jsstring :=
  match s with
  | [] => []
  | c :: s' => if is_json_space c then dropwhile_space s' else s
  end.

Definition strip_json_space (s : jsstring) : jsstring :=
  rev (dropwhile_space (rev (dropwhile_space s))).

Definition read_object (text : jsstring) : option jsval :=
  match strip_json_space text with
  | c :: s' =>
      if negb (c =? 123)%N then None
      else match s' with
           | [c'] => if (c' =? 125)%N then Some (JObj ∅) else read_members (length s') s' ∅
           | _ => read_members (length s') s' ∅
           end
  | [] => None
  end.

(** The body of a chat completion whose only choice carries [content]. *)
Definition completion (content : jsstring) : jsval :=
  JObj (obj [("choices", JArr [JObj (obj [("message",
    JObj (obj [("role", str "assistant"); ("content", JStr content)]))])])]).

(** The same text inside a markdown code fence. *)
Definition fenced (text : jsstring) : jsstring :=
  (js "```json" ++ [10] ++ text ++ [10] ++ js "```")%list.

(** No language model configured, no sheet connected, nothing stored
    besides what the functions below say. *)
Definition offline : Env := {|
  useAI := false;
  SAVE_EMPTY_EXTRACTIONS := false;
  GOOGLE_SCRIPT_URL := false;
  openai_custom := fun _ _ _ => None;
  openai_doctor := fun _ _ => None;
  bolna_executions := fun _ _ _ => None;
  sheets_append := fun _ _ _ => false;
  apps_script_post := fun _ _ => None;
  fs_append := fun _ _ _ => true;
  clock := fun _ => 1700000000000%float;
  Agent_findOne := fun _ => JNull;
  Agent_findById := fun _ => JNull;
  Client_findById := fun _ => JNull;
  ExtractionField_find := fun _ => [];
  execution_key := fun v => match v with JStr s => s | _ => [] end;
  ObjectId := fun tr => JStr (js "oid" ++ index_key (length tr))%list;
  JSON_parse := read_object;
  new_Date := fun _ => 1700000000000%float;
  toISOString := fun _ => Some (js "2023-11-14T22:13:20.000Z");
  toTimeString := fun _ => js "22:13:20 GMT+0000 (Coordinated Universal Time)";
  ToNumber := fun _ => nan;
  ToString := fun _ => js "[object Object]";
  toLowerCase := fun s => s;
  extractDoctorName := fun _ _ => [];
  extractClinicName := fun _ _ => [];
  extractPhoneNumber := fun _ _ => [];
  extractEmail := fun _ _ => [];
  extractCity := fun _ _ => [];
|}.

Definition empty_world : World := {| executions := ∅; trace := [] |}.

(** A stand-in for aes-256-gcm that checks the lengths Node checks: the
    ciphertext is the plaintext reversed, the tag repeats the iv. *)
Definition toy_encrypt (key iv plaintext : list Byte.byte)
    : option (list Byte.byte * list Byte.byte) :=
  if Nat.eqb (length key) 32 && Nat.eqb (length iv) 16
  then Some (rev plaintext, iv) else None.

Definition toy_decrypt (key iv authTag ciphertext : list Byte.byte)
    : option (list Byte.byte) :=
  if Nat.eqb (length key) 32 && Nat.eqb (length iv) 16 && Nat.eqb (length authTag) 16
  then Some (rev ciphertext) else None.

Definition toy_key : list Byte.byte := repeat Byte.x2a 32.
Definition toy_iv : list Byte.byte := repeat Byte.x07 16.

(** Remote executions, and the replies to the first three fetches. *)
Definition E1 : jsval :=
  JObj (obj [("id", str "E1"); ("total_cost", JNum 250); ("duration", JNull);
             ("call_duration", JNum 42); ("transcript", str "I am Dr. Rao from Pune")]).
Definition E2 : jsval := JObj (obj [("id", str "E2"); ("transcript", str "")]).
Definition E3 : jsval := JObj (obj [("execution_id", str "E3"); ("status", str "failed")]).
Definition E4 : jsval := JObj (obj [("id", str "E4"); ("conversation_duration", JNum 7)]).

Definition pages (call : N) : option jsval :=
  match call with
  | 1 => Some (JObj (obj [("data", JArr [E1]); ("has_more", JBool true)]))
  | 2 => Some (JObj (obj [("data", JArr [E2; E3]); ("has_more", JBool true)]))
  | 3 => Some (JObj (obj [("data", JArr [E4]); ("has_more", JBool false)]))
  | _ => None
  end.

(** A configured deployment: one agent owned by one client with a sheet
    connected and the field "f1" defined. [ai] tells, from the calls made
    so far, whether the language model answers, [answer] is what it finds
    in the transcript, and [sheet_ok] tells whether the sheet and the
    webhook accept rows. *)
Definition studio (ai : list Event -> bool) (answer : string) (sheet_ok : bool) : Env := {|
  useAI := true;
  SAVE_EMPTY_EXTRACTIONS := false;
  GOOGLE_SCRIPT_URL := true;
  openai_custom := fun tr _ _ =>
    if ai tr then Some (completion (fenced (object_text [("f1", answer)]))) else None;
  openai_doctor := fun tr _ =>
    if ai tr then Some (completion (object_text [("doctor_name", answer); ("city", "")]))
    else None;
  bolna_executions := fun tr _ _ => pages (N.of_nat (S (fetches tr)));
  sheets_append := fun _ _ _ => sheet_ok;
  apps_script_post := fun _ _ =>
    if sheet_ok then Some (JObj (obj [("status", str "success")])) else None;
  fs_append := fun _ _ _ => true;
  clock := fun _ => 1700000000000%float;
  Agent_findOne := fun _ =>
    JObj (obj [("_id", str "a1"); ("client_id", str "c1"); ("name", str "Front desk")]);
  Agent_findById := fun _ =>
    JObj (obj [("_id", str "a1"); ("client_id", str "c1"); ("name", str "Front desk")]);
  Client_findById := fun _ =>
    JObj (obj [("google_authorized", JBool true); ("google_sheet_id", str "sheet-1")]);
  ExtractionField_find := fun _ =>
    [{| field_name := js "f1"; description := js "city of the clinic" |}];
  execution_key := fun v => match v with JStr s => s | _ => [] end;
  ObjectId := fun tr => JStr (js "oid" ++ index_key (length tr))%list;
  JSON_parse := read_object;
  new_Date := fun _ => 1700000000000%float;
  toISOString := fun _ => Some (js "2023-11-14T22:13:20.000Z");
  toTimeString := fun _ => js "22:13:20 GMT+0000 (Coordinated Universal Time)";
  ToNumber := fun _ => nan;
  ToString := fun _ => js "[object Object]";
  toLowerCase := fun s => s;
  extractDoctorName := fun _ _ => [];
  extractClinicName := fun _ _ => [];
  extractPhoneNumber := fun _ _ => [];
  extractEmail := fun _ _ => [];
  extractCity := fun _ _ => [];
|}.

(** A stored execution with a transcript, not yet processed. *)
Definition fresh_execution : jsobj :=
  obj [("_id", str "oid0"); ("bolna_execution_id", str "E1"); ("agent_id", str "a1");
       ("transcript", str "I am Dr. Rao from Pune"); ("extracted_data", JObj ∅);
       ("started_at", JDate 1700000000000)].

(** The same execution after an earlier extraction. *)
Definition processed_execution : jsobj :=
  <[k_extracted_data := JObj (obj [("a", JNum 1); ("_extraction_processed", JBool true)])]>
    fresh_execution.

Definition fld (name : string) : CustomField :=
  {| field_name := js name; description := js "what to extract" |}.

(** Rows of the doctor-info export: the first has a comma and double
    quotes in a value, and blanks around another. *)
Definition row1 : jsobj :=
  obj [("doctor_name", JStr (js "Rao, " ++ [34] ++ js "Asha" ++ [34])%list);
       ("clinic_hospital_name", str "  City Clinic ");
       ("phone_number", str "+91 98765 43210");
       ("email_id", str "rao@example.org");
       ("city", str "Pune");
       ("call_date", str "2023-11-14");
       ("call_time", str "2023-11-14T22:13:20.000Z");
       ("execution_id", str "E1")].

Definition row2 : jsobj :=
  obj [("doctor_name", str "Mehta"); ("clinic_hospital_name", str "");
       ("phone_number", str ""); ("email_id", str ""); ("city", str "Thane");
       ("call_date", str "2023-11-15"); ("call_time", str "2023-11-15T09:00:00.000Z");
       ("execution_id", str "E2")].

(** [path.join] for the export directory /srv/exports. *)
Definition export_path (filename : jsstring) : jsstring :=
  (js "/srv/exports/" ++ filename)%list.

(** The deployment [env] in front of another remote. *)
Definition with_remote (env : Env) (remote : list Event -> jsval -> N -> option jsval)
    : Env := {|
  useAI := useAI env;
  SAVE_EMPTY_EXTRACTIONS := SAVE_EMPTY_EXTRACTIONS env;
  GOOGLE_SCRIPT_URL := GOOGLE_SCRIPT_URL env;
  openai_custom := openai_custom env;
  openai_doctor := openai_doctor env;
  bolna_executions := remote;
  sheets_append := sheets_append env;
  apps_script_post := apps_script_post env;
  fs_append := fs_append env;
  clock := clock env;
  Agent_findOne := Agent_findOne env;
  Agent_findById := Agent_findById env;
  Client_findById := Client_findById env;
  ExtractionField_find := ExtractionField_find env;
  execution_key := execution_key env;
  ObjectId := ObjectId env;
  JSON_parse := JSON_parse env;
  new_Date := new_Date env;
  toISOString := toISOString env;
  toTimeString := toTimeString env;
  ToNumber := ToNumber env;
  ToString := ToString env;
  toLowerCase := toLowerCase env;
  extractDoctorName := extractDoctorName env;
  extractClinicName := extractClinicName env;
  extractPhoneNumber := extractPhoneNumber env;
  extractEmail := extractEmail env;
  extractCity := extractCity env;
|}.

(** Records the reconciler skips, and the page that holds them. *)
Definition nameless : jsval := JObj (obj [("status", str "completed")]).
Definition zero_id : jsval := JObj (obj [("id", JNum 0)]).
Definition page_of_skipped : jsval :=
  JObj (obj [("data", JArr [nameless; zero_id]); ("has_more", JBool false)]).

(** A remote whose first page holds [E1] and announces more, and whose
    second page cannot be fetched. *)
Definition broken_after_first (tr : list Event) (bolnaAgentId : jsval) (pageNumber : N)
    : option jsval :=
  match pageNumber with
  | 1%N => Some (JObj (obj [("data", JArr [E1]); ("has_more", JBool true)]))
  | _ => None
  end.

(** A token as the service stores it. *)
Definition stored_token (token : string) : jsval :=
  default JNull (Encryption.encrypt toy_encrypt toy_key toy_iv (JStr (js token))).

(** A client whose access token expires at the time the sample clock
    shows, and the identity provider that answers its refresh token. *)
Definition expiring_client : jsobj :=
  obj [("google_authorized", JBool true); ("google_sheet_id", str "sheet-1");
       ("google_access_token", stored_token "ya29.old");
       ("google_refresh_token", stored_token "1//0gRefresh");
       ("google_token_expiry", JDate 1700000000000)].

Definition identity_provider (refresh_token : jsstring) : option jsval :=
  if bool_decide (refresh_token = js "1//0gRefresh")
  then Some (JObj (obj [("access_token", str "ya29.new");
                        ("expiry_date", JNum 1700003600000)]))
  else None.

End Samples.

(* ===================================================================== *)
(** ** Vocabulary of the properties *)
(* ===================================================================== *)

Import DataExtraction Sheets Bolna Encryption.

Definition starts_clean (s : jsstring) : Prop :=
  match s with [] => True | c :: _ => is_white_space c = false end.

(** The object in which [g field] has been assigned under each field
    name, in list order. *)
Definition fill (g : CustomField -> jsstring) (customFields : list CustomField)
    (result : jsobj) : jsobj :=
  foldl (fun result field => set_text result (field_name field) (g field))
        result customFields.

(** What the extractor makes of the property of [extractedData] that has
    the name of [f]; reading a property of [undefined] or [null] gives
    nothing. *)
Definition answered (extractedData : jsval) (f : CustomField) : jsstring :=
  sanitizeCustomValue (default JUndefined (get_computed extractedData (field_name f))).

(** A value of the output mapping: the sentinel, or a non-empty string
    without white space at either end. *)
Definition sentinel_or_trimmed (v : jsstring) : Prop :=
  v = not_found \/ (v <> [] /\ trim v = v).

(** What a run of the extractor leaves: a mapping built by [fill] from
    sentinels and trimmed strings, and calls to the language model only. *)
Definition extractor_run (customFields : list CustomField) (w : World)
    (r : Res jsobj * World) : Prop :=
  exists g evs,
    r = (Ok (fill g customFields ∅), add_events evs w)
    /\ (forall f, sentinel_or_trimmed (g f))
    /\ Forall (fun ev => is_openai ev = true) evs.

(** The step left the execution as it was: nothing written, and no row
    offered to a sheet. *)
Definition left_alone (execution : jsobj) (w : World) (r : Res jsobj * World) : Prop :=
  exists evs,
    r = (Ok execution, add_events evs w)
    /\ Forall (fun ev => is_background ev = true) evs.

Definition agent_of (env : Env) (execution : jsobj) : jsval :=
  Agent_findById env (field execution (js "agent_id")).

Definition fields_of (env : Env) (execution : jsobj) : list CustomField :=
  ExtractionField_find env (get_opt (agent_of env execution) (js "client_id")).

Definition client_of (env : Env) (execution : jsobj) : jsval :=
  Client_findById env (get_opt (agent_of env execution) (js "client_id")).

(** The document and the world the step leaves when it saves. *)
Definition saved (env : Env) (execution : jsobj) (compartment : jsobj) (evs : list Event)
    (w : World) : Res jsobj * World :=
  let execution' := <[k_extracted_data := JObj compartment]> execution in
  (Ok execution',
   {| executions := <[execution_key env (field execution k_bolna_execution_id) := execution']>
                      (executions w);
      trace := trace w ++ evs |}).

(** The custom-fields step saved what the extractor returned; at most one
    row was offered to the sheet. *)
Definition custom_persisted (env : Env) (execution : jsobj) (w : World)
    (r : Res jsobj * World) : Prop :=
  exists extractedData metadata ai_evs row_evs,
    already_processed execution = false
    /\ extractWithCustomFields env (field execution k_transcript) (fields_of env execution) w
       = (Ok extractedData, add_events ai_evs w)
    /\ Forall (fun ev => is_openai ev = true) ai_evs
    /\ some_found extractedData || SAVE_EMPTY_EXTRACTIONS env = true
    /\ custom_metadata env (agent_of env execution) execution = Some metadata
    /\ (row_evs = [] \/
        exists ok, row_evs = [EvAppendRow (client_of env execution)
                                (custom_row (fields_of env execution) extractedData metadata)
                                ok])
    /\ r = saved env execution
             (custom_extracted_data (field execution k_extracted_data) extractedData metadata
                (clock env (trace w ++ ai_evs ++ row_evs)))
             (ai_evs ++ row_evs) w.

(** The doctor-info step saved what the extractor returned, after the row
    was appended to the CSV file; at most one row was offered to the
    webhook. *)
Definition doctor_persisted (env : Env) (execution : jsobj) (w : World)
    (r : Res jsobj * World) : Prop :=
  exists extractedInfo sheetData iso ai_evs hook_evs,
    already_processed execution = false
    /\ extractDoctorInfo env (field execution k_transcript) w
       = (Ok extractedInfo, add_events ai_evs w)
    /\ Forall (fun ev => is_openai ev = true) ai_evs
    /\ hasValidData extractedInfo = true
    /\ doctor_sheetData env execution extractedInfo = Some sheetData
    /\ toISOString env (clock env (trace w ++ ai_evs)) = Some iso
    /\ (hook_evs = [] \/ exists accepted, hook_evs = [EvWebhook sheetData accepted])
    /\ r = saved env execution
             (doctor_extracted_data (field execution k_extracted_data) extractedInfo
                (clock env (trace w ++ ai_evs
                            ++ [EvAppendCSV sheetData (csv_filename iso) true] ++ hook_evs)))
             (ai_evs ++ [EvAppendCSV sheetData (csv_filename iso) true] ++ hook_evs) w.

(** [client && client.google_authorized && client.google_sheet_id] *)
Definition sheet_connected (client : jsval) : bool :=
  truthy (js_and (js_and client (get_opt client (js "google_authorized")))
                 (get_opt client (js "google_sheet_id"))).

(** The webhook takes the row: its URL is configured, and the answer to
    the request made after the calls [tr] carries the status 'success'. *)
Definition webhook_accepts (env : Env) (tr : list Event) (data : jsobj) : bool :=
  GOOGLE_SCRIPT_URL env
  && match apps_script_post env tr data with
     | Some d => truthy d && is_success (get_opt d (js "status"))
     | None => false
     end.

(** [executionData.id || executionData.execution_id], when the record can
    be read and the id is truthy. *)
Definition remote_id (executionData : jsval) : option jsval :=
  id ← get_prop executionData (js "id");
  let executionId := js_or id (get_opt executionData (js "execution_id")) in
  if truthy executionId then Some executionId else None.

(** The document [findOneAndUpdate] stores for a record, in a world whose
    collection is [store] and whose calls so far are [tr]. *)
Definition reconciled (env : Env) (agentId executionId executionData : jsval)
    (store : gmap jsstring jsobj) (tr : list Event) : jsobj :=
  let existing := store !! execution_key env executionId in
  let executionDoc := executionDoc_of env agentId executionId executionData existing in
  match existing with
  | Some previous => executionDoc ∪ previous
  | None => <[js "_id" := ObjectId env tr]> executionDoc
  end.

(** [execution.transcript && execution.transcript.trim().length > 0],
    when it does not throw. *)
Definition has_transcript (execution : jsobj) : bool :=
  match field execution k_transcript with
  | JStr text => negb (Nat.eqb (length (trim text)) 0)
  | _ => false
  end.

Definition with_execution (env : Env) (executionId : jsval) (doc : jsobj) (w : World)
    : World :=
  {| executions := <[execution_key env executionId := doc]> (executions w);
     trace := trace w |}.

(** The guard of the step, on a compartment. *)
Definition compartment_processed (compartment : jsval) : bool :=
  truthy (js_and compartment (get_opt compartment k_processed)).

(** The step saved a processed compartment that keeps every key of the
    former one. *)
Definition step_saved (env : Env) (execution : jsobj) (w : World)
    (r : Res jsobj * World) : Prop :=
  exists compartment evs,
    already_processed execution = false
    /\ r = saved env execution compartment evs w
    /\ compartment !! k_processed = Some (JBool true)
    /\ dom (spread (field execution k_extracted_data)) ⊆ dom compartment
    /\ Forall (fun ev => is_sync ev = false) evs.

Definition step_quiet (execution : jsobj) (w : World) (r : Res jsobj * World) : Prop :=
  exists evs,
    r = (Ok execution, add_events evs w) /\ Forall (fun ev => is_sync ev = false) evs.

(** The first truthy value of a list, or a default. *)
Fixpoint first_truthy (candidates : list jsval) (default : jsval) : jsval :=
  match candidates with
  | [] => default
  | c :: cs => if truthy c then c else first_truthy cs default
  end.

(** The remote field names the duration is read from, in order. *)
Definition duration_candidates : list jsstring :=
  [js "conversation_duration"; js "conversation_time"; js "duration";
   js "call_duration"; js "call_duration_seconds"; js "billable_duration"].

(** The records of a page: [response.data || []], as [for...of] visits it. *)
Definition page_records (response : jsval) : option (list jsval) :=
  data ← get_prop response (js "data");
  iterate (js_or data (JArr [])).

(** A string without unpaired surrogates. *)
Fixpoint well_formed (s : jsstring) : bool :=
  match s with
  | [] => true
  | c :: s' =>
      if is_high_surrogate c then
        match s' with
        | d :: s'' => is_low_surrogate d && well_formed s''
        | [] => false
        end
      else negb (is_low_surrogate c) && (c <? 65536) && well_formed s'
  end.

Definition is_scalar (cp : N) : bool := (cp <=? 1114111) && negb (is_surrogate cp).

(** What the service relies on from aes-256-gcm: with a 32-byte key and a
    16-byte iv, encryption succeeds and decryption under the same key, iv
    and tag gives the plaintext back. *)
Definition gcm_law
    (gcm_encrypt : bytes -> bytes -> bytes -> option (bytes * bytes))
    (gcm_decrypt : bytes -> bytes -> bytes -> bytes -> option bytes) : Prop :=
  forall key iv plaintext,
    length key = 32%nat -> length iv = 16%nat ->
    exists encrypted authTag,
      gcm_encrypt key iv plaintext = Some (encrypted, authTag)
      /\ gcm_decrypt key iv authTag encrypted = Some plaintext.

(** A value that is no ciphertext of the service: not a string, or a
    string that does not consist of three parts separated by colons, or one
    whose third part does not have two characters for each byte. *)
Definition malformed (encryptedText : jsval) : Prop :=
  match encryptedText with
  | JStr t =>
      match split 58 t with
      | [_; _; encrypted] => Nat.odd (length encrypted) = true
      | _ => True
      end
  | _ => True
  end.

(** A tail that does not start with a double quote. *)
Definition closes (tail : jsstring) : Prop :=
  match tail with c :: _ => (c =? 34) = false | [] => True end.

(** The keys of a row, in column order. *)
Definition row_keys : list jsstring :=
  [js "doctor_name"; js "clinic_hospital_name"; js "phone_number"; js "email_id";
   js "city"; js "call_date"; js "call_time"; js "execution_id"].

(** A value that a line of a CSV file can carry: a string without unpaired
    surrogates and without line feed and, where the column is written
    unescaped, without comma and double quote. *)
Definition plain_text (escaped : bool) (v : jsval) : bool :=
  match v with
  | JStr s =>
      well_formed s && negb (Csv.includes 10 s)
      && (escaped || negb (Csv.includes 44 s || Csv.includes 34 s))
  | _ => false
  end.

Definition exportable (data : jsobj) : bool :=
  forallb (fun k => plain_text true (field data k)) (take 5 row_keys)
  && forallb (fun k => plain_text false (field data k)) (drop 5 row_keys).

Definition text_of (v : jsval) : jsstring :=
  match v with JStr s => s | _ => [] end.

(** The record [readCSV] is expected to give for [data]: under each
    header, the value of its column, trimmed. *)
Definition record_read (data : jsobj) : jsobj :=
  list_to_map
    (zip Csv.headers (map (fun k => JStr (trim (text_of (field data k)))) row_keys)).

(** The files after the rows of [datas] have been appended, in order. *)
Fixpoint append_all (path_join : jsstring -> jsstring) (env : Env) (datas : list jsval)
    (filename : jsstring) (files : Csv.Files) : Csv.Files :=
  match datas with
  | [] => files
  | data :: rest =>
      append_all path_join env rest filename
        (snd (Csv.appendToCSV path_join env data filename files))
  end.

(** The values of a row, and the line written for them when each one is
    escaped. *)
Definition texts (data : jsobj) : list jsstring :=
  map (fun k => text_of (field data k)) row_keys.

Definition line_of (env : Env) (data : jsobj) : jsstring :=
  Csv.join [44] (map (fun s => Csv.escapeCSV env (JStr s)) (texts data)).

(** A line [readCSV] keeps. *)
Definition readable (line : jsstring) : Prop :=
  well_formed line = true /\ Csv.includes 10 line = false
  /\ truthy (JStr (trim line)) = true.

(** The first line of a file. *)
Definition header_line : jsstring := Csv.join [44] Csv.headers.

(** The value the language model's answer for the doctor fields decodes
    to, when the request, the reading of the body and the decoding all
    succeed. *)
Definition doctor_reply (env : Env) (text : jsstring) (tr : list Event) : option jsval :=
  data ← openai_doctor env tr text;
  content ← response_content data;
  parse_reply env content.

(** [value] has no text for the extractor: it is not a string, or it is
    the empty string. *)
Definition no_text (value : jsval) : Prop :=
  forall s, value = JStr s -> s = [].

(** A record that can be read and carries no usable id: the reconciler
    skips it. *)
Definition skipped (executionData : jsval) : bool :=
  match get_prop executionData (js "id") with
  | Some id => negb (truthy (js_or id (get_opt executionData (js "execution_id"))))
  | None => false
  end.

(** A transcript the reconciler does not hand to the extraction step: a
    string of white space, or a falsy value. *)
Definition blank (transcript : jsval) : Prop :=
  match transcript with
  | JStr s => trim s = []
  | other => truthy other = false
  end.

(** Every execution that is processed in [store] is still there and still
    processed in [store'], with every key of its extracted_data compartment
    unchanged. *)
Definition keeps_processed (store store' : gmap jsstring jsobj) : Prop :=
  forall key d,
    store !! key = Some d -> already_processed d = true ->
    exists d',
      store' !! key = Some d' /\ already_processed d' = true
      /\ spread (field d k_extracted_data) ⊆ spread (field d' k_extracted_data).

(** Every document of [store] is stored under the key of its own remote
    id. *)
Definition well_keyed (env : Env) (store : gmap jsstring jsobj) : Prop :=
  forall key d,
    store !! key = Some d -> execution_key env (field d k_bolna_execution_id) = key.

Definition keeps_keys (env : Env) (store store' : gmap jsstring jsobj) : Prop :=
  well_keyed env store -> well_keyed env store'.

(** A computation whose collection afterwards is related by [R] to the
    one it started from, whatever the world it starts from and however it
    ends. *)
Definition respects (R : gmap jsstring jsobj -> gmap jsstring jsobj -> Prop)
    {A} (c : M A) : Prop :=
  forall w, R (executions w) (executions (snd (c w))).

(** A record the sync counts: it can be read, and its transcript is a
    string or a falsy value. *)
Definition countable (executionData : jsval) : bool :=
  match get_prop executionData (js "id") with
  | None => false
  | Some _ =>
      match get_opt executionData k_transcript with
      | JStr _ => true
      | other => negb (truthy other)
      end
  end.

(** The fetches and the entries of the reconciler for [pages], the first
    of which has the number [pageNumber]. *)
Fixpoint pages_events (bolnaAgentId : jsval) (pageNumber : N) (pages : list (list jsval))
    : list Event :=
  match pages with
  | [] => []
  | records :: rest =>
      EvFetchExecutions bolnaAgentId pageNumber
      :: map EvReconcile records ++ pages_events bolnaAgentId (pageNumber + 1) rest
  end.

(** Every response but the last announces more. *)
Fixpoint announces (responses : list jsval) : Prop :=
  match responses with
  | [] => False
  | response :: rest =>
      match rest with
      | [] => truthy (get_opt response (js "has_more")) = false
      | _ :: _ => truthy (get_opt response (js "has_more")) = true /\ announces rest
      end
  end.

(** A hexadecimal digit, of either case. *)
Definition is_hex (c : N) : bool :=
  match hex_value c with Some _ => true | None => false end.

(** The names of the four columns that follow the fields. *)
Definition metadata_columns : list jsstring :=
  [js "Call_Date"; js "Call_Time"; js "Execution_ID"; js "Agent_Name"].

(* ===================================================================== *)
(** * Properties *)
(* ===================================================================== *)

(** ** Vocabulary *)

Lemma add_events_nil (w : World) : add_events [] w = w.
Proof. destruct w. unfold add_events. simpl. rewrite app_nil_r. reflexivity. Qed.

Lemma add_events_app (a b : list Event) (w : World) :
  add_events b (add_events a w) = add_events (a ++ b) w.
Proof. unfold add_events. simpl. rewrite app_assoc. reflexivity. Qed.

(** ** Strings *)

Lemma trimStart_clean (s : jsstring) : starts_clean (trimStart s).
Proof.
  induction s as [|c s IH]; simpl; [exact I|].
  destruct (is_white_space c) eqn:E; [exact IH|]. simpl. exact E.
Qed.

Lemma trimStart_of_clean (s : jsstring) : starts_clean s -> trimStart s = s.
Proof. destruct s as [|c s]; simpl; [reflexivity|]. intros ->. reflexivity. Qed.

Lemma trimStart_suffix (s : jsstring) : exists p, s = p ++ trimStart s.
Proof.
  induction s as [|c s [p IH]]; simpl.
  - exists []. reflexivity.
  - destruct (is_white_space c).
    + exists (c :: p). simpl. f_equal. exact IH.
    + exists []. reflexivity.
Qed.

Lemma trimEnd_prefix (s : jsstring) : exists q, s = trimEnd s ++ q.
Proof.
  unfold trimEnd. destruct (trimStart_suffix (rev s)) as [p Hp].
  exists (rev p). rewrite <- rev_app_distr, <- Hp, rev_involutive. reflexivity.
Qed.

Lemma starts_clean_prefix (a q : jsstring) : starts_clean (a ++ q) -> starts_clean a.
Proof. destruct a; simpl; auto. Qed.

Lemma trimEnd_of_clean (s : jsstring) : starts_clean (rev s) -> trimEnd s = s.
Proof.
  intros H. unfold trimEnd. rewrite trimStart_of_clean by exact H.
  apply rev_involutive.
Qed.

Lemma trim_starts_clean (s : jsstring) : starts_clean (trim s).
Proof.
  unfold trim. destruct (trimEnd_prefix (trimStart s)) as [q Hq].
  apply (starts_clean_prefix _ q). rewrite <- Hq. apply trimStart_clean.
Qed.

Lemma trim_ends_clean (s : jsstring) : starts_clean (rev (trim s)).
Proof. unfold trim, trimEnd. rewrite rev_involutive. apply trimStart_clean. Qed.

(** Trimming a trimmed string changes nothing. *)
Lemma trim_idempotent (s : jsstring) : trim (trim s) = trim s.
Proof.
  unfold trim at 1. rewrite (trimStart_of_clean (trim s)) by apply trim_starts_clean.
  apply trimEnd_of_clean, trim_ends_clean.
Qed.

(** ** The custom-fields extractor *)

Lemma getEmptyCustomFieldsData_fill (customFields : list CustomField) :
  getEmptyCustomFieldsData customFields = fill (fun _ => not_found) customFields ∅.
Proof. reflexivity. Qed.

Lemma sanitize_each_fill (extractedData : jsval) (customFields : list CustomField) :
  forall result result',
    sanitize_each extractedData customFields result = Some result' ->
    result' = fill (answered extractedData) customFields result.
Proof.
  induction customFields as [|f fs IH]; simpl; intros result result' H.
  - congruence.
  - destruct (get_computed extractedData (field_name f)) as [value|] eqn:E; [|discriminate].
    apply IH in H. rewrite H. unfold fill. cbn [foldl]. unfold answered. rewrite E.
    reflexivity.
Qed.

(** An assignment creates the key it names, except under [__proto__]. *)
Lemma set_text_dom (o : jsobj) (k s : jsstring) :
  dom (set_text o k s) = ({[k]} ∖ {[proto_key]}) ∪ dom o.
Proof.
  unfold set_text. destruct (decide (k = proto_key)) as [->|NE].
  - destruct (o !! proto_key) eqn:E.
    + rewrite dom_insert_L. apply elem_of_dom_2 in E. set_solver.
    + set_solver.
  - rewrite dom_insert_L. set_solver.
Qed.

Lemma set_text_lookup_ne (o : jsobj) (k k' s : jsstring) :
  k <> k' -> set_text o k s !! k' = o !! k'.
Proof.
  intros NE. unfold set_text. destruct (decide (k = proto_key)).
  - destruct (o !! k); [apply lookup_insert_ne; exact NE|reflexivity].
  - apply lookup_insert_ne. exact NE.
Qed.

Lemma set_text_lookup_eq (o : jsobj) (k s : jsstring) :
  k <> proto_key -> set_text o k s !! k = Some (JStr s).
Proof.
  intros NE. unfold set_text. destruct (decide (k = proto_key)); [contradiction|].
  apply lookup_insert_eq.
Qed.

Lemma set_text_lookup_inv (o : jsobj) (k k' s : jsstring) (v : jsval) :
  set_text o k s !! k' = Some v -> v = JStr s \/ o !! k' = Some v.
Proof.
  unfold set_text. destruct (decide (k = k')) as [<-|NE].
  - destruct (decide (k = proto_key)); [destruct (o !! k) eqn:E|].
    + rewrite lookup_insert_eq. intros [= <-]. left. reflexivity.
    + rewrite E. discriminate.
    + rewrite lookup_insert_eq. intros [= <-]. left. reflexivity.
  - destruct (decide (k = proto_key)); [destruct (o !! k)|];
      rewrite ?lookup_insert_ne by exact NE; intros H; right; exact H.
Qed.

(** Under [__proto__] an object that was built by assignments of strings
    has no property. *)
Lemma set_text_lookup_proto (o : jsobj) (k s : jsstring) :
  o !! proto_key = None -> set_text o k s !! proto_key = None.
Proof.
  intros Ho. unfold set_text. destruct (decide (k = proto_key)) as [->|NE].
  - rewrite Ho. exact Ho.
  - rewrite lookup_insert_ne by exact NE. exact Ho.
Qed.

Lemma fill_dom (g : CustomField -> jsstring) (customFields : list CustomField) :
  forall result : jsobj,
    dom (fill g customFields result)
    = (list_to_set (map field_name customFields) ∖ {[proto_key]}) ∪ dom result.
Proof.
  induction customFields as [|f fs IH]; intros result; simpl.
  - set_solver.
  - unfold fill in *. simpl. rewrite IH, set_text_dom. set_solver.
Qed.

Lemma fill_lookup (g : CustomField -> jsstring) (customFields : list CustomField) :
  forall (result : jsobj) (f : CustomField),
    In f customFields ->
    field_name f <> proto_key ->
    exists f', In f' customFields /\ field_name f' = field_name f /\
               fill g customFields result !! field_name f = Some (JStr (g f')).
Proof.
  induction customFields as [|f0 fs IH] using rev_ind; intros result f Hin Hname.
  - destruct Hin.
  - unfold fill in *. rewrite foldl_app. simpl.
    destruct (decide (field_name f0 = field_name f)) as [E|NE].
    + exists f0. split; [apply in_or_app; right; left; reflexivity|].
      split; [exact E|]. rewrite E. apply set_text_lookup_eq. exact Hname.
    + apply in_app_or in Hin. destruct Hin as [Hin|[->|[]]]; [|congruence].
      destruct (IH result f Hin Hname) as [f' [Hf' [Hn Hl]]].
      exists f'. split; [apply in_or_app; left; exact Hf'|]. split; [exact Hn|].
      rewrite set_text_lookup_ne by exact NE. exact Hl.
Qed.

Lemma fill_lookup_proto (g : CustomField -> jsstring) (customFields : list CustomField) :
  forall result : jsobj,
    result !! proto_key = None -> fill g customFields result !! proto_key = None.
Proof.
  induction customFields as [|f fs IH]; intros result Hresult; [exact Hresult|].
  unfold fill in *. cbn [foldl]. apply IH, set_text_lookup_proto, Hresult.
Qed.

Lemma fill_size (g : CustomField -> jsstring) (customFields : list CustomField) :
  NoDup (map field_name customFields) ->
  proto_key ∉ map field_name customFields ->
  size (fill g customFields ∅) = length customFields.
Proof.
  intros Hnd Hproto. rewrite <- size_dom, fill_dom, dom_empty_L, (right_id_L ∅ (∪)).
  replace (list_to_set (map field_name customFields) ∖ {[proto_key]} : gset jsstring)
    with (list_to_set (map field_name customFields) : gset jsstring) by set_solver.
  rewrite size_list_to_set by exact Hnd. apply length_map.
Qed.

Lemma sanitizeCustomValue_shape (value : jsval) :
  sentinel_or_trimmed (sanitizeCustomValue value).
Proof.
  unfold sanitizeCustomValue, sentinel_or_trimmed.
  destruct (negb (truthy value) || negb (is_string value)); [left; reflexivity|].
  destruct value; try (left; reflexivity).
  simpl. destruct (trim s) as [|c t] eqn:E; [left; reflexivity|].
  right. split; [discriminate|]. rewrite <- E. apply trim_idempotent.
Qed.

Lemma getEmpty_run (customFields : list CustomField) (evs : list Event) (w : World) :
  Forall (fun ev => is_openai ev = true) evs ->
  extractor_run customFields w
    (ret (getEmptyCustomFieldsData customFields) (add_events evs w)).
Proof.
  intros Hevs. exists (fun _ => not_found), evs.
  split; [reflexivity|]. split; [|exact Hevs]. intros _. left. reflexivity.
Qed.

Lemma extract_ai_branch (env : Env) (text : jsstring) (customFields : list CustomField)
    (w : World) :
  extractor_run customFields w
    ((if useAI env then
        try_catch (extractWithCustomFieldsAI env text customFields)
                  (fun _ => ret (getEmptyCustomFieldsData customFields))
      else ret (getEmptyCustomFieldsData customFields)) w).
Proof.
  destruct (useAI env).
  2:{ rewrite <- (add_events_nil w) at 2. apply getEmpty_run. constructor. }
  unfold try_catch at 1, extractWithCustomFieldsAI, try_catch, bind, call.
  unfold must.
  destruct (openai_custom env (trace w) text customFields) as [data|];
    [|apply getEmpty_run; repeat constructor].
  unfold ret at 1.
  destruct (response_content data) as [content|];
    [|apply getEmpty_run; repeat constructor].
  unfold ret at 1.
  destruct (parse_reply env content) as [extractedData|];
    [|apply getEmpty_run; repeat constructor].
  unfold ret at 1.
  destruct (sanitize_each extractedData customFields ∅) as [result|] eqn:E.
  - apply sanitize_each_fill in E. subst result.
    eexists _, _. split; [reflexivity|].
    split; [intros f; apply sanitizeCustomValue_shape|repeat constructor].
  - apply getEmpty_run. repeat constructor.
Qed.

(** The extractor never throws, whatever the transcript and the backend. *)
Lemma extractWithCustomFields_runs (env : Env) (transcript : jsval)
    (customFields : list CustomField) (w : World) :
  extractor_run customFields w (extractWithCustomFields env transcript customFields w).
Proof.
  unfold extractWithCustomFields.
  destruct (negb (truthy transcript) || negb (is_string transcript)) eqn:Eguard.
  { rewrite <- (add_events_nil w) at 2. apply getEmpty_run. constructor. }
  destruct transcript as [| | | |text| | |];
    try (rewrite orb_true_r in Eguard; discriminate Eguard).
  destruct customFields as [|f0 fs].
  - exists (fun _ => not_found), []. rewrite add_events_nil.
    split; [reflexivity|]. split; [|constructor]. intros _. left. reflexivity.
  - apply (extract_ai_branch env text (f0 :: fs) w).
Qed.

(** C5 (as amended). For every list of field descriptors with pairwise
    distinct names, none of which is [__proto__], every transcript value and
    every backend, the custom-fields extractor returns (it never throws) a
    mapping with exactly one key per descriptor, each value being the
    sentinel "Not Found" or a non-empty string without white space at either
    end. *)
Theorem sentinel_completeness (env : Env) (transcript : jsval)
    (customFields : list CustomField) (w : World) :
  NoDup (map field_name customFields) ->
  proto_key ∉ map field_name customFields ->
  exists result w',
    extractWithCustomFields env transcript customFields w = (Ok result, w')
    /\ size result = length customFields
    /\ dom result = list_to_set (map field_name customFields)
    /\ forall f, In f customFields ->
         exists v, result !! field_name f = Some (JStr v) /\ sentinel_or_trimmed v.
Proof.
  intros Hnd Hproto.
  destruct (extractWithCustomFields_runs env transcript customFields w)
    as [g [evs [Hrun [Hg _]]]].
  exists (fill g customFields ∅), (add_events evs w). split; [exact Hrun|].
  split; [apply fill_size; assumption|].
  split; [rewrite fill_dom, dom_empty_L; set_solver|].
  intros f Hin.
  assert (Hname : field_name f <> proto_key).
  { intros E. apply Hproto. rewrite <- E. apply list_elem_of_In, in_map, Hin. }
  destruct (fill_lookup g customFields ∅ f Hin Hname) as [f' [_ [_ Hl]]].
  exists (g f'). split; [exact Hl|apply Hg].
Qed.

Lemma sentinel_completeness_witness :
  let env := Samples.studio (fun _ => true) "  Pune " true in
  let customFields := [Samples.fld "f1"; Samples.fld "f2"] in
  exists result w',
    extractWithCustomFields env (JStr (js "Dr. Rao, Pune")) customFields
      Samples.empty_world = (Ok result, w')
    /\ size result = length customFields
    /\ dom result = list_to_set (map field_name customFields)
    /\ forall f, In f customFields ->
         exists v, result !! field_name f = Some (JStr v) /\ sentinel_or_trimmed v.
Proof.
  intros env customFields.
  apply (sentinel_completeness env (JStr (js "Dr. Rao, Pune")) customFields
           Samples.empty_world).
  - apply (bool_decide_unpack _). vm_compute. reflexivity.
  - apply (bool_decide_unpack _). vm_compute. reflexivity.
Defined.

(** C5 (as stated) fails when two descriptors share a name: the two
    descriptors named "f" yield a mapping with one key. *)
Lemma sentinel_completeness_duplicate_names :
  let customFields := [Samples.fld "f"; Samples.fld "f"] in
  exists result,
    extractWithCustomFields Samples.offline (JStr []) customFields Samples.empty_world
      = (Ok result, Samples.empty_world)
    /\ size result = 1%nat /\ length customFields = 2%nat.
Proof.
  eexists. split; [reflexivity|]. split; [vm_compute|]; reflexivity.
Qed.

(** On a transcript that is empty or not a string, the extractor assigns
    the sentinel under each name and leaves the world as it is: no call is
    recorded, and the result does not depend on the collaborators. *)
Lemma extractWithCustomFields_no_transcript (env : Env) (transcript : jsval)
    (customFields : list CustomField) (w : World) :
  negb (truthy transcript) || negb (is_string transcript) = true ->
  extractWithCustomFields env transcript customFields w
  = (Ok (fill (fun _ => not_found) customFields ∅), w).
Proof. intros H. unfold extractWithCustomFields. rewrite H. reflexivity. Qed.

(** On the empty transcript, three descriptors none of which is named
    [__proto__] get the sentinel each, and no call is made. *)
Lemma empty_transcript_ordinary_names (env : Env) (f1 f2 f3 : CustomField) (w : World) :
  proto_key ∉ map field_name [f1; f2; f3] ->
  extractWithCustomFields env (JStr []) [f1; f2; f3] w
  = (Ok (<[field_name f3 := JStr not_found]>
         (<[field_name f2 := JStr not_found]>
         (<[field_name f1 := JStr not_found]> ∅))), w).
Proof.
  intros Hproto. rewrite extractWithCustomFields_no_transcript by reflexivity.
  unfold fill. cbn [foldl]. unfold set_text.
  destruct (decide (field_name f1 = proto_key)) as [E|_]; [exfalso; set_solver|].
  destruct (decide (field_name f2 = proto_key)) as [E|_]; [exfalso; set_solver|].
  destruct (decide (field_name f3 = proto_key)) as [E|_]; [exfalso; set_solver|].
  reflexivity.
Qed.

(** C9. At a descriptor named [__proto__], a name the validator of the
    ExtractionField model admits, the claim fails: on the empty transcript
    the extractor makes no call, whatever the collaborators are, but the
    mapping it returns has a key for the two other descriptors only. *)
Theorem empty_transcript_proto_field (env : Env) (w : World) :
  let customFields := [Samples.fld "__proto__"; Samples.fld "f2"; Samples.fld "f3"] in
  exists result,
    extractWithCustomFields env (JStr []) customFields w = (Ok result, w)
    /\ result = Samples.obj [("f2"%string, Samples.str "Not Found");
                             ("f3"%string, Samples.str "Not Found")]
    /\ result !! js "__proto__" = None
    /\ size result = 2%nat.
Proof.
  intros customFields. eexists. split; [reflexivity|].
  split; [|split]; vm_compute; reflexivity.
Qed.

(** ** The extraction-and-delivery step *)

(** C1. An execution whose extracted_data carries
    [_extraction_processed = true] goes through the extraction-and-delivery
    step, in either version, unchanged: the step returns normally, the
    document is the one it was given, nothing is written to the collection
    and no collaborator is called, whatever the transcript is. *)
Theorem processed_execution_is_left_alone (v : Version) (env : Env)
    (execution compartment : jsobj) (w : World) :
  execution !! k_extracted_data = Some (JObj compartment) ->
  compartment !! k_processed = Some (JBool true) ->
  processTranscriptForExtraction v env execution w = (Ok execution, w).
Proof.
  intros Hed Hflag.
  assert (Hguard : already_processed execution = true).
  { unfold already_processed, field. rewrite Hed. simpl.
    unfold get_opt. simpl. rewrite Hflag. reflexivity. }
  destruct v; simpl;
    unfold processTranscriptForExtraction_doctor, processTranscriptForExtraction_custom,
           try_catch;
    rewrite Hguard; reflexivity.
Qed.

Lemma processed_execution_is_left_alone_witness :
  processTranscriptForExtraction CustomFieldsMode (Samples.studio (fun _ => true) "Pune" true)
    Samples.processed_execution Samples.empty_world
  = (Ok Samples.processed_execution, Samples.empty_world).
Proof.
  apply (processed_execution_is_left_alone CustomFieldsMode _ _
           (Samples.obj [("a"%string, JNum 1); ("_extraction_processed"%string, JBool true)])).
  - vm_compute. reflexivity.
  - vm_compute. reflexivity.
Defined.

(** *** What a run of the step can leave behind *)

Lemma fieldsForAI_id (extractionFields : list CustomField) :
  map (fun f => {| field_name := field_name f; description := description f |})
      extractionFields = extractionFields.
Proof.
  induction extractionFields as [|[n d] fs IH]; simpl; [reflexivity|].
  rewrite IH. reflexivity.
Qed.

Lemma deliver_custom_runs (env : Env) (client : jsval) (extractionFields : list CustomField)
    (extractedData metadata : jsobj) (w : World) :
  exists evs,
    deliver_custom env client extractionFields extractedData metadata w
      = (Ok tt, add_events evs w)
    /\ (evs = [] \/
        evs = [EvAppendRow client (custom_row extractionFields extractedData metadata)
                 (sheets_append env (trace w) client
                    (custom_row extractionFields extractedData metadata))]).
Proof.
  unfold deliver_custom.
  destruct (truthy _).
  - unfold try_catch, bind, appendRow, call, bind.
    destruct (sheets_append env (trace w) client _) eqn:E;
      (eexists; split; [reflexivity|right; reflexivity]).
  - exists []. rewrite add_events_nil. split; [reflexivity|left; reflexivity].
Qed.

Lemma sendToGoogleAppsScript_runs (env : Env) (data : jsobj) (w : World) :
  exists accepted evs,
    sendToGoogleAppsScript env data w = (Ok accepted, add_events evs w)
    /\ ((evs = [] /\ accepted = false) \/ evs = [EvWebhook data accepted]).
Proof.
  unfold sendToGoogleAppsScript, try_catch.
  destruct (GOOGLE_SCRIPT_URL env); simpl.
  - unfold bind, call. destruct (apps_script_post env (trace w) data) as [d|].
    + destruct (truthy d && is_success (get_opt d (js "status"))) eqn:E;
        simpl; rewrite ?E;
        (eexists _, _; split; [reflexivity|right; reflexivity]).
    + simpl. eexists _, _. split; [reflexivity|right; reflexivity].
  - exists false, []. rewrite add_events_nil. split; [reflexivity|left; split; reflexivity].
Qed.

Lemma extractDoctorInfo_runs (env : Env) (transcript : jsval) (w : World) :
  exists info evs,
    extractDoctorInfo env transcript w = (Ok info, add_events evs w)
    /\ Forall (fun ev => is_openai ev = true) evs.
Proof.
  assert (Hquiet : forall info : DoctorInfo, exists info' evs,
            ret info w = (Ok info', add_events evs w)
            /\ Forall (fun ev => is_openai ev = true) evs).
  { intros info. exists info, []. rewrite add_events_nil. split; [reflexivity|constructor]. }
  unfold extractDoctorInfo.
  destruct (negb (truthy transcript) || negb (is_string transcript)); [apply Hquiet|].
  destruct transcript; try apply Hquiet.
  destruct (useAI env); [|apply Hquiet].
  unfold try_catch at 1, extractWithAI, try_catch, bind, call.
  unfold must.
  destruct (openai_doctor env (trace w) s) as [data|];
    [|eexists _, _; split; [reflexivity|repeat constructor]].
  unfold ret at 1.
  destruct (response_content data) as [content|];
    [|eexists _, _; split; [reflexivity|repeat constructor]].
  unfold ret at 1.
  destruct (parse_reply env content) as [extractedData|];
    [|eexists _, _; split; [reflexivity|repeat constructor]].
  unfold ret at 1.
  destruct (get_prop extractedData (js "doctor_name")); simpl;
    [|eexists _, _; split; [reflexivity|repeat constructor]].
  destruct (get_prop extractedData (js "clinic_hospital_name")); simpl;
    [|eexists _, _; split; [reflexivity|repeat constructor]].
  destruct (get_prop extractedData (js "phone_number")); simpl;
    [|eexists _, _; split; [reflexivity|repeat constructor]].
  destruct (get_prop extractedData (js "email_id")); simpl;
    [|eexists _, _; split; [reflexivity|repeat constructor]].
  destruct (get_prop extractedData (js "city")); simpl;
    eexists _, _; (split; [reflexivity|repeat constructor]).
Qed.

Lemma left_alone_quiet (execution : jsobj) (w : World) :
  left_alone execution w (Ok execution, w).
Proof. exists []. rewrite add_events_nil. split; [reflexivity|constructor]. Qed.

Lemma openai_is_background (evs : list Event) :
  Forall (fun ev => is_openai ev = true) evs ->
  Forall (fun ev => is_background ev = true) evs.
Proof.
  intros H. induction H as [|ev evs Hev _ IH]; constructor; [|exact IH].
  destruct ev; simpl in *; congruence.
Qed.

Lemma field_insert_ne (doc : jsobj) (k k' : jsstring) (v : jsval) :
  k <> k' -> field (<[k := v]> doc) k' = field doc k'.
Proof. intros H. unfold field. rewrite lookup_insert_ne by exact H. reflexivity. Qed.

Lemma field_insert_eq (doc : jsobj) (k : jsstring) (v : jsval) :
  field (<[k := v]> doc) k = v.
Proof. unfold field. rewrite lookup_insert_eq. reflexivity. Qed.

Lemma custom_step_cases (env : Env) (execution : jsobj) (w : World)
    (r : Res jsobj * World) :
  processTranscriptForExtraction_custom env execution w = r ->
  left_alone execution w r \/ custom_persisted env execution w r.
Proof.
  intros Hstep. unfold processTranscriptForExtraction_custom in Hstep.
  destruct (already_processed execution) eqn:Hguard;
    [left; rewrite <- Hstep; apply left_alone_quiet|].
  fold (agent_of env execution) in Hstep.
  destruct (negb (truthy (agent_of env execution))
            || negb (truthy (get_opt (agent_of env execution) (js "client_id"))));
    [left; rewrite <- Hstep; apply left_alone_quiet|].
  fold (fields_of env execution) in Hstep.
  destruct (Nat.eqb (length (fields_of env execution)) 0);
    [left; rewrite <- Hstep; apply left_alone_quiet|].
  rewrite fieldsForAI_id in Hstep.
  destruct (extractWithCustomFields_runs env (field execution k_transcript)
              (fields_of env execution) w) as [g [ai_evs [Hrun [_ Hai]]]].
  unfold try_catch, bind at 1 in Hstep. rewrite Hrun in Hstep.
  destruct (some_found (fill g (fields_of env execution) ∅) || SAVE_EMPTY_EXTRACTIONS env)
    eqn:Hvalid.
  2:{ left. exists ai_evs. split; [symmetry; exact Hstep|apply openai_is_background, Hai]. }
  unfold bind at 1 in Hstep.
  destruct (custom_metadata env (agent_of env execution) execution) as [metadata|] eqn:Hmeta.
  2:{ left. exists ai_evs. split; [symmetry; exact Hstep|apply openai_is_background, Hai]. }
  simpl must in Hstep. unfold ret at 1 in Hstep. fold (client_of env execution) in Hstep.
  destruct (deliver_custom_runs env (client_of env execution) (fields_of env execution)
              (fill g (fields_of env execution) ∅) metadata (add_events ai_evs w))
    as [row_evs [Hdeliver Hrow]].
  unfold bind at 1 in Hstep. rewrite Hdeliver in Hstep.
  right. exists (fill g (fields_of env execution) ∅), metadata, ai_evs, row_evs.
  split; [exact Hguard|]. split; [exact Hrun|]. split; [exact Hai|].
  split; [exact Hvalid|]. split; [exact Hmeta|].
  split.
  { destruct Hrow as [-> | ->]; [left; reflexivity|right; eexists; reflexivity]. }
  rewrite <- Hstep.
  unfold bind, now, ask, save, ret, saved. simpl.
  rewrite field_insert_ne by (vm_compute; discriminate).
  rewrite <- !app_assoc. reflexivity.
Qed.

Lemma doctor_step_cases (env : Env) (execution : jsobj) (w : World)
    (r : Res jsobj * World) :
  processTranscriptForExtraction_doctor env execution w = r ->
  left_alone execution w r \/ doctor_persisted env execution w r.
Proof.
  intros Hstep. unfold processTranscriptForExtraction_doctor in Hstep.
  destruct (already_processed execution) eqn:Hguard;
    [left; rewrite <- Hstep; apply left_alone_quiet|].
  destruct (extractDoctorInfo_runs env (field execution k_transcript) w)
    as [info [ai_evs [Hrun Hai]]].
  unfold try_catch, bind at 1 in Hstep. rewrite Hrun in Hstep.
  destruct (hasValidData info) eqn:Hvalid.
  2:{ left. exists ai_evs. split; [symmetry; exact Hstep|apply openai_is_background, Hai]. }
  unfold bind at 1 in Hstep.
  destruct (doctor_sheetData env execution info) as [sheetData|] eqn:Hrow.
  2:{ left. exists ai_evs. split; [symmetry; exact Hstep|apply openai_is_background, Hai]. }
  simpl must in Hstep. unfold ret at 1 in Hstep.
  unfold bind at 1, now, ask in Hstep. unfold bind at 1 in Hstep.
  simpl trace in Hstep.
  destruct (toISOString env (clock env (trace w ++ ai_evs))) as [iso|] eqn:Hiso.
  2:{ left. exists ai_evs. split; [symmetry; exact Hstep|apply openai_is_background, Hai]. }
  simpl must in Hstep. unfold ret at 1 in Hstep.
  unfold bind at 1, appendToCSV, bind at 1, call in Hstep.
  change (trace (add_events ai_evs w)) with (trace w ++ ai_evs) in Hstep.
  destruct (fs_append env (trace w ++ ai_evs) sheetData (csv_filename iso)) eqn:Hcsv.
  2:{ left. exists (ai_evs ++ [EvAppendCSV sheetData (csv_filename iso) false]).
      rewrite <- add_events_app. split; [symmetry; exact Hstep|].
      apply Forall_app. split; [apply openai_is_background, Hai|repeat constructor]. }
  unfold ret at 1 in Hstep.
  destruct (sendToGoogleAppsScript_runs env sheetData
              (add_events [EvAppendCSV sheetData (csv_filename iso) true]
                 (add_events ai_evs w))) as [accepted [hook_evs [Hhook Hevs]]].
  unfold bind at 1 in Hstep. rewrite Hhook in Hstep.
  right. exists info, sheetData, iso, ai_evs, hook_evs.
  split; [exact Hguard|]. split; [exact Hrun|]. split; [exact Hai|].
  split; [exact Hvalid|]. split; [exact Hrow|]. split; [exact Hiso|].
  split.
  { destruct Hevs as [[-> _] | ->]; [left; reflexivity|right; eexists; reflexivity]. }
  rewrite <- Hstep.
  unfold bind, now, ask, save, ret, saved. simpl.
  rewrite field_insert_ne by (vm_compute; discriminate).
  rewrite <- !app_assoc. reflexivity.
Qed.

Ltac distinct_keys := vm_compute; discriminate.

Lemma custom_extracted_data_processed (previous : jsval) (extractedData metadata : jsobj)
    (date : float) :
  let c := custom_extracted_data previous extractedData metadata date in
  c !! k_processed = Some (JBool true)
  /\ c !! k_extraction_date = Some (JDate date)
  /\ c !! js "metadata" = Some (JObj metadata)
  /\ c !! js "custom_fields" = Some (JObj extractedData).
Proof.
  unfold custom_extracted_data. simpl.
  repeat split.
  - rewrite lookup_insert_ne by distinct_keys. apply lookup_insert_eq.
  - apply lookup_insert_eq.
  - do 2 rewrite lookup_insert_ne by distinct_keys. apply lookup_insert_eq.
  - do 3 rewrite lookup_insert_ne by distinct_keys. apply lookup_insert_eq.
Qed.

Lemma doctor_extracted_data_processed (previous : jsval) (extractedInfo : DoctorInfo)
    (date : float) :
  let c := doctor_extracted_data previous extractedInfo date in
  c !! k_processed = Some (JBool true)
  /\ c !! k_extraction_date = Some (JDate date)
  /\ c !! js "doctor_info" = Some (JObj (doctor_obj extractedInfo)).
Proof.
  unfold doctor_extracted_data. simpl.
  repeat split.
  - rewrite lookup_insert_ne by distinct_keys. apply lookup_insert_eq.
  - apply lookup_insert_eq.
  - do 2 rewrite lookup_insert_ne by distinct_keys. apply lookup_insert_eq.
Qed.

(** The step absorbs every exception: it always returns normally. *)
Lemma step_never_throws (v : Version) (env : Env) (execution : jsobj) (w : World) :
  exists execution' w', processTranscriptForExtraction v env execution w = (Ok execution', w').
Proof.
  destruct (processTranscriptForExtraction v env execution w) as [r w'] eqn:Hstep.
  destruct v; simpl in Hstep.
  - apply doctor_step_cases in Hstep. destruct Hstep as [[evs [Heq _]]|Hsaved].
    + injection Heq as -> ->. eauto.
    + destruct Hsaved as (? & ? & ? & ? & ? & _ & _ & _ & _ & _ & _ & _ & Heq).
      unfold saved in Heq. injection Heq as -> ->. eauto.
  - apply custom_step_cases in Hstep. destruct Hstep as [[evs [Heq _]]|Hsaved].
    + injection Heq as -> ->. eauto.
    + destruct Hsaved as (? & ? & ? & ? & _ & _ & _ & _ & _ & _ & Heq).
      unfold saved in Heq. injection Heq as -> ->. eauto.
Qed.

Lemma custom_step_delivers (env : Env) (execution : jsobj) (w w1 : World)
    (extractedData metadata : jsobj) :
  already_processed execution = false ->
  truthy (agent_of env execution) = true ->
  truthy (get_opt (agent_of env execution) (js "client_id")) = true ->
  fields_of env execution <> [] ->
  extractWithCustomFields env (field execution k_transcript) (fields_of env execution) w
    = (Ok extractedData, w1) ->
  some_found extractedData || SAVE_EMPTY_EXTRACTIONS env = true ->
  custom_metadata env (agent_of env execution) execution = Some metadata ->
  sheet_connected (client_of env execution) = true ->
  let row := custom_row (fields_of env execution) extractedData metadata in
  let offered :=
    [EvAppendRow (client_of env execution) row
       (sheets_append env (trace w1) (client_of env execution) row)] in
  processTranscriptForExtraction_custom env execution w
  = saved env execution
      (custom_extracted_data (field execution k_extracted_data) extractedData metadata
         (clock env (trace w1 ++ offered)))
      offered w1.
Proof.
  intros Hguard Hagent Hclient Hfields Hrun Hvalid Hmeta Hconn row offered.
  destruct (extractWithCustomFields_runs env (field execution k_transcript)
              (fields_of env execution) w) as [g [ai_evs [Hrun' _]]].
  rewrite Hrun in Hrun'. injection Hrun' as -> ->.
  unfold processTranscriptForExtraction_custom.
  rewrite Hguard.
  fold (agent_of env execution). rewrite Hagent, Hclient.
  simpl orb. cbv iota.
  fold (fields_of env execution).
  destruct (Nat.eqb (length (fields_of env execution)) 0) eqn:Hlen.
  { destruct (fields_of env execution); [congruence|discriminate Hlen]. }
  rewrite fieldsForAI_id.
  unfold try_catch at 1, bind at 1. rewrite Hrun, Hvalid.
  unfold bind at 1. rewrite Hmeta.
  simpl must. unfold ret at 1. fold (client_of env execution).
  unfold bind at 1, deliver_custom.
  change (truthy (js_and (js_and (client_of env execution)
                            (get_opt (client_of env execution) (js "google_authorized")))
                    (get_opt (client_of env execution) (js "google_sheet_id"))))
    with (sheet_connected (client_of env execution)).
  rewrite Hconn.
  unfold try_catch, bind at 1, appendRow, bind at 1, call.
  fold row.
  change (trace (add_events ai_evs w)) with (trace w ++ ai_evs).
  unfold offered.
  change (trace (add_events ai_evs w)) with (trace w ++ ai_evs).
  destruct (sheets_append env (trace w ++ ai_evs) (client_of env execution) row);
    unfold bind, now, ask, save, ret, saved; simpl;
    rewrite field_insert_ne by (vm_compute; discriminate); reflexivity.
Qed.

Lemma doctor_step_delivers (env : Env) (execution : jsobj) (w w1 : World)
    (extractedInfo : DoctorInfo) (sheetData : jsobj) (iso : jsstring) :
  already_processed execution = false ->
  extractDoctorInfo env (field execution k_transcript) w = (Ok extractedInfo, w1) ->
  hasValidData extractedInfo = true ->
  doctor_sheetData env execution extractedInfo = Some sheetData ->
  toISOString env (clock env (trace w1)) = Some iso ->
  fs_append env (trace w1) sheetData (csv_filename iso) = true ->
  let appended := EvAppendCSV sheetData (csv_filename iso) true in
  let offered :=
    if GOOGLE_SCRIPT_URL env
    then [EvWebhook sheetData (webhook_accepts env (trace w1 ++ [appended]) sheetData)]
    else [] in
  processTranscriptForExtraction_doctor env execution w
  = saved env execution
      (doctor_extracted_data (field execution k_extracted_data) extractedInfo
         (clock env (trace w1 ++ appended :: offered)))
      (appended :: offered) w1.
Proof.
  intros Hguard Hrun Hvalid Hrow Hiso Hcsv appended offered.
  destruct (extractDoctorInfo_runs env (field execution k_transcript) w)
    as [info [ai_evs [Hrun' _]]].
  rewrite Hrun in Hrun'. injection Hrun' as -> ->.
  unfold processTranscriptForExtraction_doctor.
  rewrite Hguard.
  unfold try_catch at 1, bind at 1. rewrite Hrun, Hvalid.
  unfold bind at 1. rewrite Hrow.
  simpl must. unfold ret at 1.
  unfold bind at 1, now, ask. unfold bind at 1.
  rewrite Hiso.
  simpl must. unfold ret at 1.
  unfold bind at 1, appendToCSV, bind at 1, call.
  rewrite Hcsv. unfold ret at 1. fold appended.
  unfold bind at 1, sendToGoogleAppsScript, try_catch.
  unfold offered, webhook_accepts.
  change (trace (add_events ai_evs w)) with (trace w ++ ai_evs).
  destruct (GOOGLE_SCRIPT_URL env); cbn [negb andb].
  - unfold bind at 1, call.
    change (trace (add_events [appended] (add_events ai_evs w)))
      with ((trace w ++ ai_evs) ++ [appended]).
    destruct (apps_script_post env ((trace w ++ ai_evs) ++ [appended]) sheetData) as [d|].
    + destruct (truthy d && is_success (get_opt d (js "status")));
        unfold bind, now, ask, save, ret, saved, throw; simpl;
        rewrite field_insert_ne by (vm_compute; discriminate);
        rewrite <- !app_assoc; reflexivity.
    + unfold bind, now, ask, save, ret, saved, throw; simpl;
        rewrite field_insert_ne by (vm_compute; discriminate);
        rewrite <- !app_assoc; reflexivity.
  - unfold bind, now, ask, save, ret, saved; simpl;
      rewrite field_insert_ne by (vm_compute; discriminate);
      rewrite <- !app_assoc; reflexivity.
Qed.

(** C6. On an execution that is not yet processed, no exception leaves
    the extraction-and-delivery step, in either version. And when the
    delivery of the row fails -- in the custom-fields version the append to
    the connected Google Sheet throws, in the doctor-info version the
    webhook reports failure (it is not configured, the request fails, or the
    answer is not a success) -- the step still returns the execution marked
    processed, with the values the extractor returned, and this is the
    document it has stored; the refused row is the last call it made. The
    conditions are those under which the step reaches the delivery at all:
    the extractor found something (or the override is set), the row could be
    assembled and, in the doctor-info version, the CSV file was written. *)
Theorem delivery_failure_is_absorbed (env : Env) (execution : jsobj) (w : World) :
  already_processed execution = false ->
  (forall v, exists execution' w',
     processTranscriptForExtraction v env execution w = (Ok execution', w'))
  /\
  (forall extractedData metadata w1,
     truthy (agent_of env execution) = true ->
     truthy (get_opt (agent_of env execution) (js "client_id")) = true ->
     fields_of env execution <> [] ->
     extractWithCustomFields env (field execution k_transcript) (fields_of env execution) w
       = (Ok extractedData, w1) ->
     some_found extractedData || SAVE_EMPTY_EXTRACTIONS env = true ->
     custom_metadata env (agent_of env execution) execution = Some metadata ->
     sheet_connected (client_of env execution) = true ->
     sheets_append env (trace w1) (client_of env execution)
       (custom_row (fields_of env execution) extractedData metadata) = false ->
     exists execution' compartment w',
       processTranscriptForExtraction CustomFieldsMode env execution w = (Ok execution', w')
       /\ trace w'
          = trace w1 ++ [EvAppendRow (client_of env execution)
                           (custom_row (fields_of env execution) extractedData metadata)
                           false]
       /\ executions w' !! execution_key env (field execution k_bolna_execution_id)
          = Some execution'
       /\ execution' !! k_extracted_data = Some (JObj compartment)
       /\ compartment !! js "custom_fields" = Some (JObj extractedData)
       /\ compartment !! k_processed = Some (JBool true))
  /\
  (forall extractedInfo sheetData iso w1,
     extractDoctorInfo env (field execution k_transcript) w = (Ok extractedInfo, w1) ->
     hasValidData extractedInfo = true ->
     doctor_sheetData env execution extractedInfo = Some sheetData ->
     toISOString env (clock env (trace w1)) = Some iso ->
     fs_append env (trace w1) sheetData (csv_filename iso) = true ->
     webhook_accepts env (trace w1 ++ [EvAppendCSV sheetData (csv_filename iso) true])
       sheetData = false ->
     exists execution' compartment w',
       processTranscriptForExtraction DoctorInfoMode env execution w = (Ok execution', w')
       /\ trace w'
          = trace w1 ++ EvAppendCSV sheetData (csv_filename iso) true
              :: (if GOOGLE_SCRIPT_URL env then [EvWebhook sheetData false] else [])
       /\ executions w' !! execution_key env (field execution k_bolna_execution_id)
          = Some execution'
       /\ execution' !! k_extracted_data = Some (JObj compartment)
       /\ compartment !! js "doctor_info" = Some (JObj (doctor_obj extractedInfo))
       /\ compartment !! k_processed = Some (JBool true)).
Proof.
  intros Hguard. split; [|split].
  - intros v. apply step_never_throws.
  - intros extractedData metadata w1 Hagent Hclient Hfields Hrun Hvalid Hmeta Hconn Hrefused.
    pose proof (custom_step_delivers env execution w w1 extractedData metadata
                  Hguard Hagent Hclient Hfields Hrun Hvalid Hmeta Hconn) as Hstep.
    cbv zeta in Hstep. rewrite Hrefused in Hstep.
    destruct (custom_extracted_data_processed (field execution k_extracted_data)
                extractedData metadata
                (clock env (trace w1 ++
                   [EvAppendRow (client_of env execution)
                      (custom_row (fields_of env execution) extractedData metadata) false])))
      as (Hp & _ & _ & Hc).
    eexists _, _, _. split; [exact Hstep|]. simpl.
    split; [reflexivity|].
    split; [apply lookup_insert_eq|]. split; [apply lookup_insert_eq|].
    split; assumption.
  - intros extractedInfo sheetData iso w1 Hrun Hvalid Hrow Hiso Hcsv Hrefused.
    pose proof (doctor_step_delivers env execution w w1 extractedInfo sheetData iso
                  Hguard Hrun Hvalid Hrow Hiso Hcsv) as Hstep.
    cbv zeta in Hstep. rewrite Hrefused in Hstep.
    destruct (doctor_extracted_data_processed (field execution k_extracted_data)
                extractedInfo
                (clock env (trace w1 ++ EvAppendCSV sheetData (csv_filename iso) true
                              :: (if GOOGLE_SCRIPT_URL env
                                  then [EvWebhook sheetData false] else []))))
      as (Hp & _ & Hd).
    eexists _, _, _. split; [exact Hstep|]. simpl.
    split; [reflexivity|].
    split; [apply lookup_insert_eq|]. split; [apply lookup_insert_eq|].
    split; assumption.
Qed.

(** Runs of both versions against a sheet and a webhook that refuse the
    row. *)
Lemma delivery_failure_is_absorbed_witness :
  let env := Samples.studio (fun _ => true) "  Pune " false in
  let execution := Samples.fresh_execution in
  let text := js "I am Dr. Rao from Pune" in
  let extractedData := Samples.obj [("f1"%string, Samples.str "Pune")] in
  let metadata := Samples.obj [("Call_Date"%string, Samples.str "2023-11-14");
                               ("Call_Time"%string, Samples.str "22:13:20");
                               ("Execution_ID"%string, Samples.str "E1");
                               ("Agent_Name"%string, Samples.str "Front desk")] in
  let extractedInfo := {| doctor_name := js "Pune"; clinic_hospital_name := [];
                          phone_number := []; email_id := []; city := [] |} in
  let sheetData := Samples.obj [("doctor_name"%string, Samples.str "Pune");
                                ("clinic_hospital_name"%string, Samples.str "");
                                ("phone_number"%string, Samples.str "");
                                ("email_id"%string, Samples.str "");
                                ("city"%string, Samples.str "");
                                ("call_date"%string, Samples.str "2023-11-14");
                                ("call_time"%string, Samples.str "2023-11-14T22:13:20.000Z");
                                ("execution_id"%string, Samples.str "E1")] in
  let iso := js "2023-11-14T22:13:20.000Z" in
  let w1 := add_events [EvOpenAICustom text (fields_of env execution)] Samples.empty_world in
  let w2 := add_events [EvOpenAIDoctor text] Samples.empty_world in
  (exists execution' compartment w',
     processTranscriptForExtraction CustomFieldsMode env execution Samples.empty_world
       = (Ok execution', w')
     /\ trace w'
        = trace w1 ++ [EvAppendRow (client_of env execution)
                         (custom_row (fields_of env execution) extractedData metadata)
                         false]
     /\ executions w' !! execution_key env (field execution k_bolna_execution_id)
        = Some execution'
     /\ execution' !! k_extracted_data = Some (JObj compartment)
     /\ compartment !! js "custom_fields" = Some (JObj extractedData)
     /\ compartment !! k_processed = Some (JBool true))
  /\
  (exists execution' compartment w',
     processTranscriptForExtraction DoctorInfoMode env execution Samples.empty_world
       = (Ok execution', w')
     /\ trace w'
        = trace w2 ++ EvAppendCSV sheetData (csv_filename iso) true
            :: (if GOOGLE_SCRIPT_URL env then [EvWebhook sheetData false] else [])
     /\ executions w' !! execution_key env (field execution k_bolna_execution_id)
        = Some execution'
     /\ execution' !! k_extracted_data = Some (JObj compartment)
     /\ compartment !! js "doctor_info" = Some (JObj (doctor_obj extractedInfo))
     /\ compartment !! k_processed = Some (JBool true)).
Proof.
  intros env execution text extractedData metadata extractedInfo sheetData iso w1 w2.
  destruct (delivery_failure_is_absorbed env execution Samples.empty_world eq_refl)
    as (_ & Hcustom & Hdoctor).
  split.
  - apply (Hcustom extractedData metadata w1).
    + reflexivity.
    + reflexivity.
    + discriminate.
    + vm_compute. reflexivity.
    + vm_compute. reflexivity.
    + vm_compute. reflexivity.
    + reflexivity.
    + reflexivity.
  - apply (Hdoctor extractedInfo sheetData iso w2).
    + vm_compute. reflexivity.
    + vm_compute. reflexivity.
    + vm_compute. reflexivity.
    + reflexivity.
    + reflexivity.
    + reflexivity.
Defined.

Lemma custom_step_saves (env : Env) (execution : jsobj) (w w1 : World)
    (extractedData metadata : jsobj) :
  already_processed execution = false ->
  truthy (agent_of env execution) = true ->
  truthy (get_opt (agent_of env execution) (js "client_id")) = true ->
  fields_of env execution <> [] ->
  extractWithCustomFields env (field execution k_transcript) (fields_of env execution) w
    = (Ok extractedData, w1) ->
  some_found extractedData || SAVE_EMPTY_EXTRACTIONS env = true ->
  custom_metadata env (agent_of env execution) execution = Some metadata ->
  exists date evs,
    processTranscriptForExtraction_custom env execution w
    = saved env execution
        (custom_extracted_data (field execution k_extracted_data) extractedData metadata date)
        evs w.
Proof.
  intros Hguard Hagent Hclient Hfields Hrun Hvalid Hmeta.
  destruct (processTranscriptForExtraction_custom env execution w) as [r w'] eqn:Hstep.
  unfold processTranscriptForExtraction_custom in Hstep.
  rewrite Hguard in Hstep.
  fold (agent_of env execution) in Hstep. rewrite Hagent, Hclient in Hstep.
  simpl orb in Hstep. cbv iota in Hstep.
  fold (fields_of env execution) in Hstep.
  destruct (Nat.eqb (length (fields_of env execution)) 0) eqn:Hlen.
  { destruct (fields_of env execution); [congruence|discriminate Hlen]. }
  rewrite fieldsForAI_id in Hstep.
  destruct (extractWithCustomFields_runs env (field execution k_transcript)
              (fields_of env execution) w) as [g [ai_evs [Hrun' _]]].
  rewrite Hrun in Hrun'. injection Hrun' as -> ->.
  unfold try_catch, bind at 1 in Hstep. rewrite Hrun, Hvalid in Hstep.
  unfold bind at 1 in Hstep. rewrite Hmeta in Hstep.
  simpl must in Hstep. unfold ret at 1 in Hstep. fold (client_of env execution) in Hstep.
  destruct (deliver_custom_runs env (client_of env execution) (fields_of env execution)
              (fill g (fields_of env execution) ∅) metadata (add_events ai_evs w))
    as [row_evs [Hdeliver _]].
  unfold bind at 1 in Hstep. rewrite Hdeliver in Hstep.
  exists (clock env (trace w ++ ai_evs ++ row_evs)), (ai_evs ++ row_evs).
  rewrite <- Hstep.
  unfold bind, now, ask, save, ret, saved. simpl.
  rewrite field_insert_ne by distinct_keys.
  rewrite <- !app_assoc. reflexivity.
Qed.

Lemma doctor_step_saves (env : Env) (execution : jsobj) (w w1 : World)
    (extractedInfo : DoctorInfo) (sheetData : jsobj) (iso : jsstring) :
  already_processed execution = false ->
  extractDoctorInfo env (field execution k_transcript) w = (Ok extractedInfo, w1) ->
  hasValidData extractedInfo = true ->
  doctor_sheetData env execution extractedInfo = Some sheetData ->
  toISOString env (clock env (trace w1)) = Some iso ->
  fs_append env (trace w1) sheetData (csv_filename iso) = true ->
  exists date evs,
    processTranscriptForExtraction_doctor env execution w
    = saved env execution
        (doctor_extracted_data (field execution k_extracted_data) extractedInfo date)
        evs w.
Proof.
  intros Hguard Hrun Hvalid Hrow Hiso Hcsv.
  destruct (processTranscriptForExtraction_doctor env execution w) as [r w'] eqn:Hstep.
  unfold processTranscriptForExtraction_doctor in Hstep.
  rewrite Hguard in Hstep.
  destruct (extractDoctorInfo_runs env (field execution k_transcript) w)
    as [info [ai_evs [Hrun' _]]].
  rewrite Hrun in Hrun'. injection Hrun' as -> ->.
  unfold try_catch, bind at 1 in Hstep. rewrite Hrun, Hvalid in Hstep.
  unfold bind at 1 in Hstep. rewrite Hrow in Hstep.
  simpl must in Hstep. unfold ret at 1 in Hstep.
  unfold bind at 1, now, ask in Hstep. unfold bind at 1 in Hstep.
  rewrite Hiso in Hstep.
  simpl must in Hstep. unfold ret at 1 in Hstep.
  unfold bind at 1, appendToCSV, bind at 1, call in Hstep.
  rewrite Hcsv in Hstep.
  unfold ret at 1 in Hstep.
  destruct (sendToGoogleAppsScript_runs env sheetData
              (add_events [EvAppendCSV sheetData (csv_filename iso) true]
                 (add_events ai_evs w))) as [accepted [hook_evs [Hhook _]]].
  unfold bind at 1 in Hstep. rewrite Hhook in Hstep.
  eexists _, (ai_evs ++ [EvAppendCSV sheetData (csv_filename iso) true] ++ hook_evs).
  rewrite <- Hstep.
  unfold bind, now, ask, save, ret, saved. simpl.
  rewrite field_insert_ne by distinct_keys.
  rewrite <- !app_assoc. reflexivity.
Qed.

(** C3 (as amended). On an execution not yet marked processed, when the
    extractor has returned and its result is meaningful (or, for custom
    fields, the save-empty override is set) and the row for the sheet could
    be assembled, the step stores on the execution the extracted values,
    [_extraction_processed = true] and a timestamp -- and, in the
    custom-fields version, the metadata block -- whatever the sheet or the
    webhook answers. The doctor-info version first needs the append to the
    CSV file to succeed. *)
Theorem meaningful_extraction_is_persisted (env : Env) (execution : jsobj) (w : World) :
  already_processed execution = false ->
  (forall extractedData metadata w1,
     truthy (agent_of env execution) = true ->
     truthy (get_opt (agent_of env execution) (js "client_id")) = true ->
     fields_of env execution <> [] ->
     extractWithCustomFields env (field execution k_transcript) (fields_of env execution) w
       = (Ok extractedData, w1) ->
     some_found extractedData || SAVE_EMPTY_EXTRACTIONS env = true ->
     custom_metadata env (agent_of env execution) execution = Some metadata ->
     exists execution' compartment date w',
       processTranscriptForExtraction CustomFieldsMode env execution w = (Ok execution', w')
       /\ executions w' !! execution_key env (field execution k_bolna_execution_id)
          = Some execution'
       /\ execution' !! k_extracted_data = Some (JObj compartment)
       /\ compartment !! js "custom_fields" = Some (JObj extractedData)
       /\ compartment !! js "metadata" = Some (JObj metadata)
       /\ compartment !! k_processed = Some (JBool true)
       /\ compartment !! k_extraction_date = Some (JDate date))
  /\
  (forall extractedInfo sheetData iso w1,
     extractDoctorInfo env (field execution k_transcript) w = (Ok extractedInfo, w1) ->
     hasValidData extractedInfo = true ->
     doctor_sheetData env execution extractedInfo = Some sheetData ->
     toISOString env (clock env (trace w1)) = Some iso ->
     fs_append env (trace w1) sheetData (csv_filename iso) = true ->
     exists execution' compartment date w',
       processTranscriptForExtraction DoctorInfoMode env execution w = (Ok execution', w')
       /\ executions w' !! execution_key env (field execution k_bolna_execution_id)
          = Some execution'
       /\ execution' !! k_extracted_data = Some (JObj compartment)
       /\ compartment !! js "doctor_info" = Some (JObj (doctor_obj extractedInfo))
       /\ compartment !! k_processed = Some (JBool true)
       /\ compartment !! k_extraction_date = Some (JDate date)).
Proof.
  intros Hguard. split.
  - intros extractedData metadata w1 Hagent Hclient Hfields Hrun Hvalid Hmeta.
    destruct (custom_step_saves env execution w w1 extractedData metadata
                Hguard Hagent Hclient Hfields Hrun Hvalid Hmeta) as [date [evs Hstep]].
    destruct (custom_extracted_data_processed (field execution k_extracted_data)
                extractedData metadata date) as (Hp & Hd & Hm & Hc).
    eexists _, _, date, _. split; [exact Hstep|]. simpl.
    split; [apply lookup_insert_eq|]. split; [apply lookup_insert_eq|].
    repeat split; assumption.
  - intros extractedInfo sheetData iso w1 Hrun Hvalid Hrow Hiso Hcsv.
    destruct (doctor_step_saves env execution w w1 extractedInfo sheetData iso
                Hguard Hrun Hvalid Hrow Hiso Hcsv) as [date [evs Hstep]].
    destruct (doctor_extracted_data_processed (field execution k_extracted_data)
                extractedInfo date) as (Hp & Hd & Hi).
    eexists _, _, date, _. split; [exact Hstep|]. simpl.
    split; [apply lookup_insert_eq|]. split; [apply lookup_insert_eq|].
    repeat split; assumption.
Qed.

Lemma meaningful_extraction_is_persisted_witness :
  let env := Samples.studio (fun _ => true) "  Pune " false in
  exists execution' compartment date w',
    processTranscriptForExtraction CustomFieldsMode env Samples.fresh_execution
      Samples.empty_world = (Ok execution', w')
    /\ executions w' !! js "E1" = Some execution'
    /\ execution' !! k_extracted_data = Some (JObj compartment)
    /\ compartment !! js "custom_fields" = Some (JObj (Samples.obj [("f1"%string, Samples.str "Pune")]))
    /\ compartment !! js "metadata"
       = Some (JObj (Samples.obj [("Call_Date"%string, Samples.str "2023-11-14");
                                  ("Call_Time"%string, Samples.str "22:13:20");
                                  ("Execution_ID"%string, Samples.str "E1");
                                  ("Agent_Name"%string, Samples.str "Front desk")]))
    /\ compartment !! k_processed = Some (JBool true)
    /\ compartment !! k_extraction_date = Some (JDate date).
Proof.
  intros env.
  assert (Hguard : already_processed Samples.fresh_execution = false) by reflexivity.
  destruct (meaningful_extraction_is_persisted env Samples.fresh_execution
              Samples.empty_world Hguard) as [Hcustom _].
  apply (Hcustom _ _
           (add_events [EvOpenAICustom (js "I am Dr. Rao from Pune")
                          (fields_of env Samples.fresh_execution)] Samples.empty_world)).
  - reflexivity.
  - reflexivity.
  - discriminate.
  - vm_compute. reflexivity.
  - vm_compute. reflexivity.
  - vm_compute. reflexivity.
Defined.

(** C3 (as stated) fails when the extractor returns but finds nothing:
    the language model answers "Not Found" for the only field, the
    override is off, and the execution is left unprocessed. *)
Lemma extraction_without_data_is_not_persisted :
  let env := Samples.studio (fun _ => true) "Not Found" true in
  let w1 := add_events [EvOpenAICustom (js "I am Dr. Rao from Pune")
                          (fields_of env Samples.fresh_execution)] Samples.empty_world in
  already_processed Samples.fresh_execution = false
  /\ extractWithCustomFields env (field Samples.fresh_execution k_transcript)
       (fields_of env Samples.fresh_execution) Samples.empty_world
     = (Ok (Samples.obj [("f1"%string, Samples.str "Not Found")]), w1)
  /\ processTranscriptForExtraction CustomFieldsMode env Samples.fresh_execution
       Samples.empty_world
     = (Ok Samples.fresh_execution, w1)
  /\ executions w1 = ∅.
Proof.
  intros env w1. repeat split; vm_compute; reflexivity.
Qed.

(** ** The reconciler *)

Lemma try_rethrow {A} (c : M A) (w : World) :
  try_catch c (fun error => throw error) w = c w.
Proof. unfold try_catch, throw. destruct (c w) as [[a|msg|] w']; reflexivity. Qed.

(** The reconciler, for a record with an id: store the reconciled
    document, then run the step when there is a transcript. *)
Lemma upsertExecution_with_id (v : Version) (env : Env) (agentId executionData : jsval)
    (w : World) (executionId : jsval) :
  remote_id executionData = Some executionId ->
  let w0 := add_events [EvReconcile executionData] w in
  let doc := reconciled env agentId executionId executionData (executions w0) (trace w0) in
  let w1 := with_execution env executionId doc w0 in
  upsertExecution v env agentId executionData w =
    if has_transcript doc then
      (let* execution' := processTranscriptForExtraction v env doc in ret (JObj execution')) w1
    else if truthy (field doc k_transcript) && negb (is_string (field doc k_transcript))
    then (Throw "TypeError", w1)
    else (Ok (JObj doc), w1).
Proof.
  intros Hid w0 doc w1. unfold remote_id in Hid.
  destruct (get_prop executionData (js "id")) as [id|] eqn:Hget; [|discriminate].
  simpl in Hid.
  destruct (truthy (js_or id (get_opt executionData (js "execution_id")))) eqn:Htruthy;
    [|discriminate].
  injection Hid as <-.
  unfold upsertExecution, bind at 1, emit.
  rewrite try_rethrow. unfold bind at 1. rewrite Hget. simpl must. unfold ret at 1.
  rewrite Htruthy. change (negb true) with false. cbv iota.
  subst w1 doc. unfold has_transcript, reconciled, with_execution.
  unfold bind at 1, findOne. unfold bind at 1, findOneAndUpdate. cbv beta.
  fold w0.
  set (executionId := js_or id (get_opt executionData (js "execution_id"))).
  set (doc := match executions w0 !! execution_key env executionId with
              | Some existing => _ ∪ existing
              | None => _
              end).
  destruct (field doc k_transcript) as [| |b|x|text|t|l|o]; try reflexivity.
  - destruct b; reflexivity.
  - simpl. destruct (PrimFloat.eqb x 0 || is_nan x); reflexivity.
  - destruct text as [|c text]; [reflexivity|].
    simpl truthy. cbv iota.
    destruct (negb (Nat.eqb (length (trim (c :: text))) 0)); reflexivity.
Qed.

Section ExecutionDoc.
Variables (env : Env) (agentId executionId executionData : jsval).
Variable existing : option jsobj.

Let executionDoc := executionDoc_of env agentId executionId executionData existing.

Lemma executionDoc_id : executionDoc !! k_bolna_execution_id = Some executionId.
Proof. reflexivity. Qed.

Lemma executionDoc_conversation_time :
  executionDoc !! js "conversation_time" = Some (conversationTime_of executionData).
Proof. reflexivity. Qed.

Lemma executionDoc_extracted_data :
  executionDoc !! k_extracted_data = Some (finalExtractedData_of executionData existing).
Proof. reflexivity. Qed.

Lemma executionDoc_transcript :
  executionDoc !! k_transcript
  = Some (js_or (get_opt executionData k_transcript) (JStr [])).
Proof. reflexivity. Qed.

Lemma executionDoc_no_object_id : executionDoc !! js "_id" = None.
Proof. reflexivity. Qed.
End ExecutionDoc.

Lemma already_processed_field (execution : jsobj) :
  already_processed execution = compartment_processed (field execution k_extracted_data).
Proof. reflexivity. Qed.

Lemma index_key_not_processed (i : nat) : index_key i <> k_processed.
Proof.
  unfold index_key. destruct (Nat.to_uint i); vm_compute; discriminate.
Qed.

Lemma lookup_index_processed {A} (l : list A) (i : nat) :
  lookup_index k_processed i l = None.
Proof.
  revert i. induction l as [|x l IH]; intros i; simpl; [reflexivity|].
  destruct (decide (index_key i = k_processed)) as [E|_]; [|apply IH].
  destruct (index_key_not_processed i E).
Qed.

(** Only an object that carries a truthy flag counts as processed. *)
Lemma compartment_processed_inv (compartment : jsval) :
  compartment_processed compartment = true ->
  exists o flag, compartment = JObj o /\ o !! k_processed = Some flag /\ truthy flag = true.
Proof.
  unfold compartment_processed, js_and. intros H.
  destruct (truthy compartment) eqn:T; [|congruence].
  unfold get_opt in H.
  destruct compartment as [| |b|x|s|t|l|o]; simpl in H; try discriminate H.
  - rewrite lookup_index_processed in H.
    destruct (decide (k_processed = length_key)) as [E|_]; [discriminate E|discriminate H].
  - rewrite lookup_index_processed in H.
    destruct (decide (k_processed = length_key)) as [E|_]; [discriminate E|discriminate H].
  - destruct (o !! k_processed) as [flag|] eqn:E; simpl in H; [|discriminate H].
    exists o, flag. auto.
Qed.

Lemma compartment_processed_object (o : jsobj) (flag : jsval) :
  o !! k_processed = Some flag -> truthy flag = true ->
  compartment_processed (JObj o) = true.
Proof.
  intros Ho Hflag. unfold compartment_processed, js_and, get_opt. simpl.
  rewrite Ho. exact Hflag.
Qed.

(** A processed execution goes through the step unchanged. *)
Lemma step_processed_noop (v : Version) (env : Env) (execution : jsobj) (w : World) :
  already_processed execution = true ->
  processTranscriptForExtraction v env execution w = (Ok execution, w).
Proof.
  intros Hguard.
  destruct v; simpl;
    unfold processTranscriptForExtraction_doctor, processTranscriptForExtraction_custom,
           try_catch;
    rewrite Hguard; reflexivity.
Qed.

Lemma background_not_sync (evs : list Event) :
  Forall (fun ev => is_background ev = true) evs ->
  Forall (fun ev => is_sync ev = false) evs.
Proof.
  intros H. induction H as [|ev evs Hev _ IH]; constructor; [|exact IH].
  destruct ev; simpl in *; congruence.
Qed.

Lemma step_cases (v : Version) (env : Env) (execution : jsobj) (w : World)
    (r : Res jsobj * World) :
  processTranscriptForExtraction v env execution w = r ->
  step_quiet execution w r \/ step_saved env execution w r.
Proof.
  intros Hstep. destruct v; simpl in Hstep.
  - apply doctor_step_cases in Hstep. destruct Hstep as [[evs [-> Hevs]]|Hsaved].
    + left. exists evs. split; [reflexivity|apply background_not_sync, Hevs].
    + right.
      destruct Hsaved as (info & sheetData & iso & ai_evs & hook_evs
                          & Hguard & _ & Hai & _ & _ & _ & Hhook & ->).
      eexists _, _. split; [exact Hguard|]. split; [reflexivity|].
      split; [apply doctor_extracted_data_processed|].
      split.
      { unfold doctor_extracted_data. rewrite !dom_insert_L. set_solver. }
      apply Forall_app. split.
      { apply background_not_sync, openai_is_background, Hai. }
      constructor; [reflexivity|].
      destruct Hhook as [-> | [accepted ->]]; repeat constructor.
  - apply custom_step_cases in Hstep. destruct Hstep as [[evs [-> Hevs]]|Hsaved].
    + left. exists evs. split; [reflexivity|apply background_not_sync, Hevs].
    + right.
      destruct Hsaved as (extractedData & metadata & ai_evs & row_evs
                          & Hguard & _ & Hai & _ & _ & Hrow & ->).
      eexists _, _. split; [exact Hguard|]. split; [reflexivity|].
      split; [apply custom_extracted_data_processed|].
      split.
      { unfold custom_extracted_data. rewrite !dom_insert_L. set_solver. }
      apply Forall_app. split.
      { apply background_not_sync, openai_is_background, Hai. }
      destruct Hrow as [-> | [ok ->]]; repeat constructor.
Qed.

Lemma reconciled_lookup (env : Env) (agentId executionId executionData : jsval)
    (store : gmap jsstring jsobj) (tr : list Event) (k : jsstring) (x : jsval) :
  executionDoc_of env agentId executionId executionData
    (store !! execution_key env executionId) !! k = Some x ->
  reconciled env agentId executionId executionData store tr !! k = Some x.
Proof.
  intros H. unfold reconciled.
  destruct (store !! execution_key env executionId) as [previous|].
  - apply lookup_union_Some_l. exact H.
  - rewrite lookup_insert_ne; [exact H|].
    intros <-. rewrite executionDoc_no_object_id in H. discriminate H.
Qed.

Lemma reconciled_id (env : Env) (agentId executionId executionData : jsval)
    (store : gmap jsstring jsobj) (tr : list Event) :
  field (reconciled env agentId executionId executionData store tr) k_bolna_execution_id
  = executionId.
Proof.
  unfold field. rewrite (reconciled_lookup _ _ _ _ _ _ _ executionId); [reflexivity|].
  apply executionDoc_id.
Qed.

Lemma upsert_without_id (v : Version) (env : Env) (agentId executionData : jsval)
    (w : World) :
  remote_id executionData = None ->
  exists r,
    upsertExecution v env agentId executionData w
      = (r, add_events [EvReconcile executionData] w)
    /\ r <> OutOfFuel.
Proof.
  intros Hid. unfold remote_id in Hid.
  unfold upsertExecution, bind at 1, emit. rewrite try_rethrow. unfold bind at 1.
  destruct (get_prop executionData (js "id")) as [id|]; simpl in *.
  - destruct (truthy (js_or id (get_opt executionData (js "execution_id"))));
      [discriminate Hid|].
    simpl. eexists. split; [reflexivity|discriminate].
  - eexists. split; [reflexivity|discriminate].
Qed.

(** What the reconciler leaves in the collection for a record with an id:
    the reconciled document, or that document with the compartment the
    step has saved. *)
Lemma upsert_outcome (v : Version) (env : Env) (agentId executionData : jsval)
    (w : World) (executionId : jsval) :
  remote_id executionData = Some executionId ->
  let key := execution_key env executionId in
  let doc := reconciled env agentId executionId executionData (executions w)
               (trace w ++ [EvReconcile executionData]) in
  exists r w' evs,
    upsertExecution v env agentId executionData w = (r, w')
    /\ trace w' = trace w ++ EvReconcile executionData :: evs
    /\ Forall (fun ev => is_sync ev = false) evs
    /\ r <> OutOfFuel
    /\ (executions w' = <[key := doc]> (executions w)
        \/ (has_transcript doc = true
            /\ already_processed doc = false
            /\ exists compartment,
                 executions w' = <[key := <[k_extracted_data := JObj compartment]> doc]>
                                   (executions w)
                 /\ compartment !! k_processed = Some (JBool true)
                 /\ dom (spread (field doc k_extracted_data)) ⊆ dom compartment)).
Proof.
  intros Hid key doc.
  rewrite (upsertExecution_with_id v env agentId executionData w executionId Hid).
  cbv zeta. change (executions (add_events [EvReconcile executionData] w)) with (executions w).
  change (trace (add_events [EvReconcile executionData] w))
    with (trace w ++ [EvReconcile executionData]).
  fold doc.
  set (w1 := with_execution env executionId doc (add_events [EvReconcile executionData] w)).
  assert (Hquiet : forall r : Res jsval, r <> OutOfFuel -> exists r' w' evs,
            (r, w1) = (r', w')
            /\ trace w' = trace w ++ EvReconcile executionData :: evs
            /\ Forall (fun ev => is_sync ev = false) evs
            /\ r' <> OutOfFuel
            /\ (executions w' = <[key := doc]> (executions w)
                \/ (has_transcript doc = true
                    /\ already_processed doc = false
                    /\ exists compartment,
                         executions w' = <[key := <[k_extracted_data := JObj compartment]> doc]>
                                           (executions w)
                         /\ compartment !! k_processed = Some (JBool true)
                         /\ dom (spread (field doc k_extracted_data)) ⊆ dom compartment))).
  { intros r Hr. exists r, w1, []. split; [reflexivity|]. split; [reflexivity|].
    split; [constructor|]. split; [exact Hr|]. left. reflexivity. }
  destruct (has_transcript doc) eqn:Htranscript.
  2:{ destruct (truthy (field doc k_transcript) && negb (is_string (field doc k_transcript)));
        apply Hquiet; discriminate. }
  unfold bind.
  destruct (processTranscriptForExtraction v env doc w1) as [r w'] eqn:Hstep.
  apply step_cases in Hstep. destruct Hstep as [[evs [Heq Hevs]]|Hsaved].
  - injection Heq as -> ->. eexists _, _, evs. split; [reflexivity|].
    split; [simpl; rewrite <- app_assoc; reflexivity|].
    split; [exact Hevs|]. split; [discriminate|]. left. reflexivity.
  - destruct Hsaved as (compartment & evs & Hguard & Heq & Hflag & Hdom & Hevs).
    unfold saved in Heq. injection Heq as -> ->.
    eexists _, _, evs. split; [reflexivity|].
    split; [simpl; rewrite <- app_assoc; reflexivity|].
    split; [exact Hevs|]. split; [discriminate|].
    right. split; [reflexivity|]. split; [exact Hguard|].
    exists compartment. split; [|split; assumption].
    simpl. unfold doc at 1. rewrite reconciled_id. fold key.
    apply insert_insert_eq.
Qed.

Lemma js_or_first_truthy (a b : jsval) (cs : list jsval) (d : jsval) :
  first_truthy (js_or a b :: cs) d = first_truthy (a :: b :: cs) d.
Proof. unfold js_or. simpl. destruct (truthy a) eqn:E; [rewrite E|]; reflexivity. Qed.

Lemma conversationTime_first_truthy (executionData : jsval) :
  conversationTime_of executionData
  = first_truthy (map (get_opt executionData) duration_candidates) (JNum 0%float).
Proof.
  unfold conversationTime_of, duration_candidates. simpl map.
  change (js_or ?x (JNum 0%float)) with (first_truthy [x] (JNum 0%float)).
  rewrite !js_or_first_truthy. reflexivity.
Qed.

Lemma stored_lookup (env : Env) (agentId executionId executionData : jsval)
    (store store' : gmap jsstring jsobj) (tr : list Event) (k : jsstring) (x : jsval) :
  let key := execution_key env executionId in
  let doc := reconciled env agentId executionId executionData store tr in
  k <> k_extracted_data ->
  executionDoc_of env agentId executionId executionData (store !! key) !! k = Some x ->
  (store' = <[key := doc]> store
   \/ exists compartment, store' = <[key := <[k_extracted_data := JObj compartment]> doc]> store) ->
  exists stored, store' !! key = Some stored /\ stored !! k = Some x.
Proof.
  intros key doc Hk Hdoc [-> | [compartment ->]]; eexists;
    (split; [apply lookup_insert_eq|]).
  - apply reconciled_lookup, Hdoc.
  - rewrite lookup_insert_ne by congruence. apply reconciled_lookup, Hdoc.
Qed.

(** C8 (as amended). For every remote record with an id, the reconciler
    stores as conversation_time the first truthy value among the fields
    conversation_duration, conversation_time, duration, call_duration,
    call_duration_seconds, billable_duration, in this order, and 0 when none
    is truthy: a field that is absent, null, 0, NaN, false or the empty
    string is passed over. *)
Theorem duration_is_first_truthy_candidate (v : Version) (env : Env)
    (agentId executionData executionId : jsval) (w : World) :
  remote_id executionData = Some executionId ->
  exists r w' stored,
    upsertExecution v env agentId executionData w = (r, w')
    /\ executions w' !! execution_key env executionId = Some stored
    /\ stored !! js "conversation_time"
       = Some (first_truthy (map (get_opt executionData) duration_candidates)
                 (JNum 0%float)).
Proof.
  intros Hid.
  destruct (upsert_outcome v env agentId executionData w executionId Hid)
    as (r & w' & evs & Hrun & _ & _ & _ & Hstore).
  destruct (stored_lookup env agentId executionId executionData (executions w)
              (executions w') (trace w ++ [EvReconcile executionData])
              (js "conversation_time") (conversationTime_of executionData))
    as [stored [Hstored Htime]].
  - distinct_keys.
  - apply executionDoc_conversation_time.
  - destruct Hstore as [H|(_ & _ & compartment & H & _)]; [left; exact H|right; eauto].
  - exists r, w', stored. rewrite <- conversationTime_first_truthy. auto.
Qed.

Lemma duration_is_first_truthy_candidate_witness :
  exists r w' stored,
    upsertExecution CustomFieldsMode (Samples.studio (fun _ => true) "Pune" true)
      (Samples.str "a1") Samples.E1 Samples.empty_world = (r, w')
    /\ executions w' !! js "E1" = Some stored
    /\ stored !! js "conversation_time" = Some (JNum 42%float).
Proof.
  apply (duration_is_first_truthy_candidate CustomFieldsMode
           (Samples.studio (fun _ => true) "Pune" true) (Samples.str "a1")
           Samples.E1 (Samples.str "E1") Samples.empty_world).
  reflexivity.
Defined.

(** C8 (as stated) fails on a present zero: with conversation_duration = 0
    and duration = 42 the stored conversation_time is 42. *)
Lemma zero_duration_is_passed_over :
  let executionData :=
    JObj (Samples.obj [("id"%string, Samples.str "E9");
                       ("conversation_duration"%string, JNum 0);
                       ("duration"%string, JNum 42)]) in
  let w' := snd (upsertExecution CustomFieldsMode Samples.offline (Samples.str "a1")
                   executionData Samples.empty_world) in
  get_prop executionData (js "conversation_duration") = Some (JNum 0%float)
  /\ (executions w' !! js "E9") ≫= (fun stored => stored !! js "conversation_time")
     = Some (JNum 42%float).
Proof.
  split; vm_compute; reflexivity.
Qed.

Lemma processed_field (execution o : jsobj) (flag : jsval) :
  execution !! k_extracted_data = Some (JObj o) ->
  o !! k_processed = Some flag -> truthy flag = true ->
  already_processed execution = true.
Proof.
  intros He Ho Hflag. rewrite already_processed_field. unfold field. rewrite He.
  apply (compartment_processed_object o flag Ho Hflag).
Qed.

(** C2. When the stored execution of a remote id has a compartment with
    [_extraction_processed = true], reconciling a re-fetched record of that
    id stores the remote compartment (the empty one when the remote gives
    none) with the stored compartment laid over it: on every key the stored
    value wins, the remote value shows through where the stored compartment
    has no such key. *)
Theorem merge_keeps_processed_compartment (v : Version) (env : Env)
    (agentId executionData executionId : jsval) (w : World) (previous stored_compartment : jsobj) :
  remote_id executionData = Some executionId ->
  executions w !! execution_key env executionId = Some previous ->
  previous !! k_extracted_data = Some (JObj stored_compartment) ->
  stored_compartment !! k_processed = Some (JBool true) ->
  let remote_compartment :=
    spread (js_or (get_opt executionData k_extracted_data) (JObj ∅)) in
  exists r w' stored merged,
    upsertExecution v env agentId executionData w = (r, w')
    /\ executions w' !! execution_key env executionId = Some stored
    /\ stored !! k_extracted_data = Some (JObj merged)
    /\ merged = stored_compartment ∪ remote_compartment
    /\ forall k, merged !! k = match stored_compartment !! k with
                               | Some x => Some x
                               | None => remote_compartment !! k
                               end.
Proof.
  intros Hid Hprev Hed Hflag remote_compartment.
  assert (Hguard : already_processed previous = true)
    by exact (processed_field previous stored_compartment (JBool true) Hed Hflag eq_refl).
  destruct (upsert_outcome v env agentId executionData w executionId Hid)
    as (r & w' & evs & Hrun & _ & _ & _ & Hstore).
  set (doc := reconciled env agentId executionId executionData (executions w)
                (trace w ++ [EvReconcile executionData])) in *.
  assert (Hdoc : doc !! k_extracted_data
                 = Some (JObj (stored_compartment ∪ remote_compartment))).
  { apply reconciled_lookup. rewrite executionDoc_extracted_data, Hprev.
    unfold finalExtractedData_of. rewrite Hguard. unfold field. rewrite Hed. reflexivity. }
  assert (Hdone : already_processed doc = true).
  { apply (processed_field doc _ (JBool true) Hdoc); [|reflexivity].
    apply lookup_union_Some_l. exact Hflag. }
  destruct Hstore as [Hstore|(_ & Hnot & _)]; [|congruence].
  exists r, w', doc, (stored_compartment ∪ remote_compartment).
  split; [exact Hrun|]. split; [rewrite Hstore; apply lookup_insert_eq|].
  split; [exact Hdoc|]. split; [reflexivity|].
  intros k. rewrite lookup_union.
  destruct (stored_compartment !! k), (remote_compartment !! k); reflexivity.
Qed.

(** The merge of the spec's example: stored {a: 1, _extraction_processed:
    true}, remote {b: 2}. *)
Lemma merge_keeps_processed_compartment_witness :
  let env := Samples.studio (fun _ => true) "Pune" true in
  let w := {| executions := {[ js "E1" := Samples.processed_execution ]}; trace := [] |} in
  let executionData :=
    JObj (Samples.obj [("id"%string, Samples.str "E1");
                       ("transcript"%string, Samples.str "I am Dr. Rao from Pune");
                       ("extracted_data"%string, JObj (Samples.obj [("b"%string, JNum 2)]))]) in
  exists r w' stored,
    upsertExecution CustomFieldsMode env (Samples.str "a1") executionData w = (r, w')
    /\ executions w' !! js "E1" = Some stored
    /\ stored !! k_extracted_data
       = Some (JObj (Samples.obj [("b"%string, JNum 2); ("a"%string, JNum 1);
                                  ("_extraction_processed"%string, JBool true)])).
Proof.
  intros env w executionData.
  destruct (merge_keeps_processed_compartment CustomFieldsMode env (Samples.str "a1")
              executionData (Samples.str "E1") w Samples.processed_execution
              (Samples.obj [("a"%string, JNum 1); ("_extraction_processed"%string, JBool true)]))
    as (r & w' & stored & merged & Hrun & Hstored & Hed & -> & _).
  - reflexivity.
  - reflexivity.
  - reflexivity.
  - reflexivity.
  - exists r, w', stored. split; [exact Hrun|]. split; [exact Hstored|].
    rewrite Hed. reflexivity.
Defined.

(** *** Reconciling the same record again *)

Lemma executionDoc_split (env : Env) (agentId executionId executionData : jsval)
    (existing : option jsobj) :
  executionDoc_of env agentId executionId executionData existing
  = <[k_extracted_data := finalExtractedData_of executionData existing]>
      (executionDoc_of env agentId executionId executionData None).
Proof. reflexivity. Qed.

Lemma executionDoc_other (env : Env) (agentId executionId executionData : jsval)
    (existing existing' : option jsobj) (k : jsstring) :
  k <> k_extracted_data ->
  executionDoc_of env agentId executionId executionData existing !! k
  = executionDoc_of env agentId executionId executionData existing' !! k.
Proof.
  intros Hk. rewrite (executionDoc_split _ _ _ _ existing), (executionDoc_split _ _ _ _ existing').
  rewrite !lookup_insert_ne by congruence. reflexivity.
Qed.

Lemma union_absorbs (o remote : jsobj) : dom remote ⊆ dom o -> o ∪ remote = o.
Proof.
  intros Hdom. apply map_eq. intros k. rewrite lookup_union.
  destruct (o !! k) as [x|] eqn:Ho.
  - destruct (remote !! k); reflexivity.
  - assert (Hk : remote !! k = None).
    { apply not_elem_of_dom. intros Hin. apply Hdom in Hin.
      apply elem_of_dom in Hin. rewrite Ho in Hin. destruct Hin as [? Hin]. discriminate Hin. }
    rewrite Hk. reflexivity.
Qed.

(** The compartment to persist contains every key of the remote one. *)
Lemma finalExtractedData_dom (executionData : jsval) (existing : option jsobj) :
  dom (spread (js_or (get_opt executionData k_extracted_data) (JObj ∅)))
  ⊆ dom (spread (finalExtractedData_of executionData existing)).
Proof.
  unfold finalExtractedData_of. destruct existing as [previous|]; [|reflexivity].
  destruct (already_processed previous); [|reflexivity].
  simpl. rewrite dom_union_L. set_solver.
Qed.

Lemma finalExtractedData_processed (executionData : jsval) (previous : jsobj) :
  already_processed previous = true ->
  compartment_processed (finalExtractedData_of executionData (Some previous)) = true.
Proof.
  intros Hguard. unfold finalExtractedData_of. rewrite Hguard.
  rewrite already_processed_field in Hguard.
  destruct (compartment_processed_inv _ Hguard) as (o & flag & -> & Ho & Hflag).
  apply (compartment_processed_object _ flag); [|exact Hflag].
  apply lookup_union_Some_l. exact Ho.
Qed.

Lemma finalExtractedData_unprocessed (executionData : jsval) (existing : option jsobj) :
  compartment_processed (finalExtractedData_of executionData existing) = false ->
  finalExtractedData_of executionData existing
  = js_or (get_opt executionData k_extracted_data) (JObj ∅).
Proof.
  intros Hnot. destruct existing as [previous|]; [|reflexivity].
  destruct (already_processed previous) eqn:Hguard.
  - rewrite (finalExtractedData_processed executionData previous Hguard) in Hnot.
    discriminate Hnot.
  - unfold finalExtractedData_of. rewrite Hguard. reflexivity.
Qed.

(** Reconciling a record over a document that already holds what the
    record gives, and whose compartment is the one to persist, changes
    nothing. *)
Lemma reconcile_again (env : Env) (agentId executionId executionData : jsval)
    (stored : jsobj) :
  (forall k x, k <> k_extracted_data ->
     executionDoc_of env agentId executionId executionData None !! k = Some x ->
     stored !! k = Some x) ->
  stored !! k_extracted_data = Some (finalExtractedData_of executionData (Some stored)) ->
  executionDoc_of env agentId executionId executionData (Some stored) ∪ stored = stored.
Proof.
  intros Hagree Hed. apply map_eq. intros k. rewrite lookup_union.
  destruct (decide (k = k_extracted_data)) as [->|Hk].
  - rewrite executionDoc_extracted_data, Hed. reflexivity.
  - rewrite (executionDoc_other _ _ _ _ (Some stored) None k Hk).
    destruct (executionDoc_of env agentId executionId executionData None !! k) as [x|] eqn:E.
    + rewrite (Hagree k x Hk E). reflexivity.
    + destruct (stored !! k); reflexivity.
Qed.

(** The document a first reconciliation leaves is a fixed point of the
    reconciliation of the same record. *)
Lemma first_run_shape (v : Version) (env : Env) (agentId executionData executionId : jsval)
    (w w1 : World) (r1 : Res jsval) :
  remote_id executionData = Some executionId ->
  upsertExecution v env agentId executionData w = (r1, w1) ->
  exists stored,
    executions w1 !! execution_key env executionId = Some stored
    /\ executionDoc_of env agentId executionId executionData (Some stored) ∪ stored = stored.
Proof.
  intros Hid Hrun.
  destruct (upsert_outcome v env agentId executionData w executionId Hid)
    as (r & w' & evs & Hrun' & _ & _ & _ & Hstore).
  rewrite Hrun in Hrun'. injection Hrun' as <- <-.
  set (key := execution_key env executionId) in *.
  set (doc := reconciled env agentId executionId executionData (executions w)
                (trace w ++ [EvReconcile executionData])) in *.
  set (remote := js_or (get_opt executionData k_extracted_data) (JObj ∅)).
  assert (Hagree : forall k x, k <> k_extracted_data ->
            executionDoc_of env agentId executionId executionData None !! k = Some x ->
            doc !! k = Some x).
  { intros k x Hk Hx. apply reconciled_lookup.
    rewrite (executionDoc_other _ _ _ _ _ None k Hk). exact Hx. }
  assert (Hdoc : doc !! k_extracted_data
                 = Some (finalExtractedData_of executionData (executions w !! key))).
  { apply reconciled_lookup, executionDoc_extracted_data. }
  assert (Hshape : exists stored compartment,
            executions w1 !! key = Some stored
            /\ (forall k x, k <> k_extracted_data ->
                  executionDoc_of env agentId executionId executionData None !! k = Some x ->
                  stored !! k = Some x)
            /\ stored !! k_extracted_data = Some compartment
            /\ dom (spread remote) ⊆ dom (spread compartment)
            /\ (compartment_processed compartment = false -> compartment = remote)).
  { destruct Hstore as [Hstore|(_ & _ & compartment & Hstore & Hflag & Hdom)].
    - exists doc, (finalExtractedData_of executionData (executions w !! key)).
      split; [rewrite Hstore; apply lookup_insert_eq|]. split; [exact Hagree|].
      split; [exact Hdoc|]. split; [apply finalExtractedData_dom|].
      apply finalExtractedData_unprocessed.
    - exists (<[k_extracted_data := JObj compartment]> doc), (JObj compartment).
      split; [rewrite Hstore; apply lookup_insert_eq|].
      split.
      { intros k x Hk Hx. rewrite lookup_insert_ne by congruence. apply Hagree; assumption. }
      split; [apply lookup_insert_eq|].
      split.
      { etransitivity; [apply (finalExtractedData_dom executionData (executions w !! key))|].
        unfold field in Hdom. rewrite Hdoc in Hdom. exact Hdom. }
      rewrite (compartment_processed_object compartment (JBool true) Hflag eq_refl).
      discriminate. }
  destruct Hshape as (stored & compartment & Hstored & Hsame & Hed & Hdom & Hfresh).
  exists stored. split; [exact Hstored|].
  apply reconcile_again; [exact Hsame|].
  rewrite Hed. f_equal. unfold finalExtractedData_of.
  rewrite already_processed_field. unfold field. rewrite Hed. simpl.
  fold remote.
  destruct (compartment_processed compartment) eqn:Hguard.
  - destruct (compartment_processed_inv _ Hguard) as (o & flag & -> & _ & _).
    simpl in *. rewrite (union_absorbs o (spread remote) Hdom). reflexivity.
  - apply Hfresh. reflexivity.
Qed.

(** C4 (as amended). Reconciling the same remote record a second time,
    with nothing else touching the collection in between, leaves the
    collection as the first reconciliation left it, provided the first one
    left the execution processed or the execution has no transcript to
    extract from (a record without id is never stored). When the first
    extraction did not complete, the second reconciliation runs it again. *)
Theorem reconcile_twice_same_state (v : Version) (env : Env) (agentId executionData : jsval)
    (w w1 w2 : World) (r1 r2 : Res jsval) :
  upsertExecution v env agentId executionData w = (r1, w1) ->
  upsertExecution v env agentId executionData w1 = (r2, w2) ->
  (forall executionId stored,
     remote_id executionData = Some executionId ->
     executions w1 !! execution_key env executionId = Some stored ->
     already_processed stored = true \/ has_transcript stored = false) ->
  executions w2 = executions w1.
Proof.
  intros Hrun1 Hrun2 Hsettled.
  destruct (remote_id executionData) as [executionId|] eqn:Hid.
  2:{ destruct (upsert_without_id v env agentId executionData w1 Hid) as [r [Hrun _]].
      rewrite Hrun2 in Hrun. injection Hrun as _ ->. reflexivity. }
  destruct (first_run_shape v env agentId executionData executionId w w1 r1 Hid Hrun1)
    as (stored & Hstored & Hfixed).
  specialize (Hsettled executionId stored eq_refl Hstored).
  rewrite (upsertExecution_with_id v env agentId executionData w1 executionId Hid) in Hrun2.
  cbv zeta in Hrun2.
  change (executions (add_events [EvReconcile executionData] w1))
    with (executions w1) in Hrun2.
  unfold reconciled in Hrun2. rewrite Hstored, Hfixed in Hrun2.
  assert (Hsame : executions (with_execution env executionId stored
                                (add_events [EvReconcile executionData] w1))
                  = executions w1).
  { simpl. apply insert_id. exact Hstored. }
  destruct (has_transcript stored) eqn:Htranscript.
  - destruct Hsettled as [Hguard|Hnone]; [|discriminate Hnone].
    unfold bind in Hrun2. rewrite (step_processed_noop v env stored _ Hguard) in Hrun2.
    injection Hrun2 as _ <-. exact Hsame.
  - destruct (truthy (field stored k_transcript) && negb (is_string (field stored k_transcript)));
      injection Hrun2 as _ <-; exact Hsame.
Qed.

Lemma reconcile_twice_same_state_witness :
  let env := Samples.studio (fun _ => true) "Pune" true in
  let run1 := upsertExecution CustomFieldsMode env (Samples.str "a1") Samples.E1
                Samples.empty_world in
  let run2 := upsertExecution CustomFieldsMode env (Samples.str "a1") Samples.E1
                (snd run1) in
  executions (snd run2) = executions (snd run1).
Proof.
  intros env run1 run2.
  apply (reconcile_twice_same_state CustomFieldsMode env (Samples.str "a1") Samples.E1
           Samples.empty_world (snd run1) (snd run2) (fst run1) (fst run2)).
  - exact (surjective_pairing run1).
  - exact (surjective_pairing run2).
  - intros executionId stored Hid Hstored.
    vm_compute in Hid. injection Hid as <-.
    change (executions (snd run1) !! js "E1" = Some stored) in Hstored.
    assert (Hdone : (executions (snd run1) !! js "E1")
                    ≫= (fun d => Some (already_processed d)) = Some true)
      by (vm_compute; reflexivity).
    rewrite Hstored in Hdone. simpl in Hdone. injection Hdone as Hdone.
    left. exact Hdone.
Defined.

(** C4 (as stated) fails when the first extraction did not complete: the
    language model fails on its first call and answers on the second, so
    the first reconciliation stores the execution unprocessed and the
    second one, of the same record, stores it processed. *)
Lemma reconcile_twice_retries_extraction :
  let env := Samples.studio (fun tr => existsb is_openai tr) "Pune" true in
  let run1 := upsertExecution CustomFieldsMode env (Samples.str "a1") Samples.E1
                Samples.empty_world in
  let run2 := upsertExecution CustomFieldsMode env (Samples.str "a1") Samples.E1
                (snd run1) in
  (executions (snd run1) !! js "E1") ≫= (fun stored => Some (already_processed stored))
    = Some false
  /\ (executions (snd run2) !! js "E1") ≫= (fun stored => Some (already_processed stored))
    = Some true
  /\ executions (snd run2) <> executions (snd run1).
Proof.
  intros env run1 run2.
  assert (H1 : (executions (snd run1) !! js "E1")
               ≫= (fun stored => Some (already_processed stored)) = Some false)
    by (vm_compute; reflexivity).
  assert (H2 : (executions (snd run2) !! js "E1")
               ≫= (fun stored => Some (already_processed stored)) = Some true)
    by (vm_compute; reflexivity).
  split; [exact H1|]. split; [exact H2|].
  intros Heq. rewrite Heq, H1 in H2. discriminate H2.
Qed.

(** ** The sync orchestrator *)

Lemma upsert_trace (v : Version) (env : Env) (agentId executionData : jsval) (w : World) :
  exists r w' evs,
    upsertExecution v env agentId executionData w = (r, w')
    /\ trace w' = trace w ++ EvReconcile executionData :: evs
    /\ Forall (fun ev => is_sync ev = false) evs
    /\ r <> OutOfFuel.
Proof.
  destruct (remote_id executionData) as [executionId|] eqn:Hid.
  - destruct (upsert_outcome v env agentId executionData w executionId Hid)
      as (r & w' & evs & Hrun & Htrace & Hevs & Hr & _).
    exists r, w', evs. auto.
  - destruct (upsert_without_id v env agentId executionData w Hid) as (r & Hrun & Hr).
    exists r, (add_events [EvReconcile executionData] w), [].
    split; [exact Hrun|]. split; [reflexivity|]. split; [constructor|exact Hr].
Qed.

Lemma filter_not_sync (evs : list Event) :
  Forall (fun ev => is_sync ev = false) evs -> List.filter is_sync evs = [].
Proof.
  intros H. induction H as [|ev evs Hev _ IH]; simpl; [reflexivity|].
  rewrite Hev. exact IH.
Qed.

(** The inner loop visits the records in order, once each, and goes on
    after a record that fails. *)
Lemma upsert_each_trace (v : Version) (env : Env) (agentId : jsval) (items : list jsval) :
  forall (totalSynced : N) (w : World),
  exists totalSynced' w' evs,
    upsert_each v env agentId items totalSynced w = (Ok totalSynced', w')
    /\ trace w' = trace w ++ evs
    /\ List.filter is_sync evs = map EvReconcile items.
Proof.
  induction items as [|executionData rest IH]; intros totalSynced w.
  - exists totalSynced, w, []. rewrite app_nil_r. auto.
  - destruct (upsert_trace v env agentId executionData w)
      as (r & w1 & evs1 & Hrun & Htrace1 & Hevs1 & Hr).
    assert (Hone : exists n,
              try_catch (let* _ := upsertExecution v env agentId executionData in
                         ret (totalSynced + 1))
                        (fun _ => ret totalSynced) w = (Ok n, w1)).
    { unfold try_catch, bind. rewrite Hrun.
      destruct r as [x|msg|]; [eexists; reflexivity|eexists; reflexivity|congruence]. }
    destruct Hone as [n Hone].
    destruct (IH n w1) as (n' & w' & evs & Hrest & Htrace & Hevs).
    exists n', w', (EvReconcile executionData :: evs1 ++ evs).
    split.
    { simpl. unfold bind at 1. rewrite Hone. exact Hrest. }
    split.
    { rewrite Htrace, Htrace1, <- app_assoc. reflexivity. }
    simpl. rewrite List.filter_app, (filter_not_sync evs1 Hevs1), Hevs. reflexivity.
Qed.

Lemma fetches_app (a b : list Event) : fetches (a ++ b) = (fetches a + fetches b)%nat.
Proof. unfold fetches. rewrite List.filter_app, length_app. reflexivity. Qed.

Lemma fetches_of_sync (evs : list Event) :
  fetches evs = fetches (List.filter is_sync evs).
Proof.
  unfold fetches. induction evs as [|ev evs IH]; simpl; [reflexivity|].
  destruct ev; simpl; rewrite ?IH; reflexivity.
Qed.

Lemma fetches_reconcile (items : list jsval) : fetches (map EvReconcile items) = 0%nat.
Proof. induction items; simpl; auto. Qed.

(** One turn of the [while] loop on a page that can be read. *)
Lemma sync_page_turn (fuel : nat) (v : Version) (env : Env) (bolnaAgentId agentId : jsval)
    (pageNumber totalSynced : N) (w : World) (response : jsval) (records : list jsval) :
  bolna_executions env (trace w) bolnaAgentId pageNumber = Some response ->
  page_records response = Some records ->
  exists totalSynced' w1 evs,
    sync_pages (S fuel) v env bolnaAgentId agentId pageNumber totalSynced w
    = (if truthy (js_or (get_opt response (js "has_more")) (JBool false))
       then sync_pages fuel v env bolnaAgentId agentId (pageNumber + 1) totalSynced' w1
       else (Ok totalSynced', w1))
    /\ trace w1 = trace w ++ EvFetchExecutions bolnaAgentId pageNumber :: evs
    /\ List.filter is_sync evs = map EvReconcile records.
Proof.
  intros Hfetch Hrecords. unfold page_records in Hrecords.
  destruct (get_prop response (js "data")) as [data|] eqn:Hdata; [|discriminate].
  simpl in Hrecords.
  destruct (upsert_each_trace v env agentId records totalSynced
              (add_events [EvFetchExecutions bolnaAgentId pageNumber] w))
    as (n' & w1 & evs & Heach & Htrace & Hevs).
  exists n', w1, evs. split.
  - simpl sync_pages. unfold bind at 1, fetchExecutionsForAgent.
    rewrite try_rethrow. unfold bind at 1, call. rewrite Hfetch. unfold ret at 1.
    unfold bind at 1. rewrite Hdata. simpl must. unfold ret at 1.
    unfold bind at 1. rewrite Hrecords. simpl must. unfold ret at 1.
    unfold bind at 1. rewrite Heach.
    destruct (truthy (js_or (get_opt response (js "has_more")) (JBool false))); reflexivity.
  - split; [|exact Hevs]. rewrite Htrace. simpl. rewrite <- app_assoc. reflexivity.
Qed.

Lemma fetches_after_page (tr evs : list Event) (bolnaAgentId : jsval) (pageNumber : N)
    (records : list jsval) :
  List.filter is_sync evs = map EvReconcile records ->
  fetches (tr ++ EvFetchExecutions bolnaAgentId pageNumber :: evs) = S (fetches tr).
Proof.
  intros Hevs. rewrite fetches_app.
  change (EvFetchExecutions bolnaAgentId pageNumber :: evs)
    with ([EvFetchExecutions bolnaAgentId pageNumber] ++ evs).
  rewrite fetches_app, (fetches_of_sync evs), Hevs, fetches_reconcile. simpl. lia.
Qed.

(** C7. When the remote answers the first three fetches of an agent's
    sync with pages whose has_more is true, true and false, the
    orchestrator returns after exactly three fetches, for the pages 1, 2 and
    3 in this order, and hands every record of every page to the reconciler
    exactly once: the records of a page in the order received, and all of
    them before the next page is fetched. *)
Theorem three_pages_in_order (v : Version) (env : Env) (bolnaAgentId : jsval)
    (page1 page2 page3 : jsval) (records1 records2 records3 : list jsval)
    (w : World) (fuel : nat) :
  truthy (Agent_findOne env bolnaAgentId) = true ->
  (forall tr pageNumber, fetches tr = fetches (trace w) ->
     bolna_executions env tr bolnaAgentId pageNumber = Some page1) ->
  (forall tr pageNumber, fetches tr = S (fetches (trace w)) ->
     bolna_executions env tr bolnaAgentId pageNumber = Some page2) ->
  (forall tr pageNumber, fetches tr = S (S (fetches (trace w))) ->
     bolna_executions env tr bolnaAgentId pageNumber = Some page3) ->
  get_opt page1 (js "has_more") = JBool true ->
  get_opt page2 (js "has_more") = JBool true ->
  get_opt page3 (js "has_more") = JBool false ->
  page_records page1 = Some records1 ->
  page_records page2 = Some records2 ->
  page_records page3 = Some records3 ->
  (3 <= fuel)%nat ->
  exists totalSynced w' evs,
    syncExecutionsForAgent fuel v env bolnaAgentId w = (Ok totalSynced, w')
    /\ trace w' = trace w ++ evs
    /\ List.filter is_sync evs
       = EvFetchExecutions bolnaAgentId 1 :: map EvReconcile records1
         ++ EvFetchExecutions bolnaAgentId 2 :: map EvReconcile records2
         ++ EvFetchExecutions bolnaAgentId 3 :: map EvReconcile records3.
Proof.
  intros Hagent Hfirst Hsecond Hthird Hmore1 Hmore2 Hmore3 Hr1 Hr2 Hr3 Hfuel.
  destruct fuel as [|[|[|fuel]]]; try lia.
  set (agentId := get_opt (Agent_findOne env bolnaAgentId) (js "_id")).
  destruct (sync_page_turn (S (S fuel)) v env bolnaAgentId agentId 1 0 w page1 records1
              (Hfirst _ _ eq_refl) Hr1) as (n1 & w1 & evs1 & Hturn1 & Htrace1 & Hevs1).
  rewrite Hmore1 in Hturn1.
  change (truthy (js_or (JBool true) (JBool false))) with true in Hturn1.
  cbv iota in Hturn1. change (1 + 1) with 2 in Hturn1.
  assert (Hcount1 : fetches (trace w1) = S (fetches (trace w))).
  { rewrite Htrace1. apply (fetches_after_page _ _ _ _ records1 Hevs1). }
  destruct (sync_page_turn (S fuel) v env bolnaAgentId agentId 2 n1 w1 page2 records2
              (Hsecond _ _ Hcount1) Hr2) as (n2 & w2 & evs2 & Hturn2 & Htrace2 & Hevs2).
  rewrite Hmore2 in Hturn2.
  change (truthy (js_or (JBool true) (JBool false))) with true in Hturn2.
  cbv iota in Hturn2. change (2 + 1) with 3 in Hturn2.
  assert (Hcount2 : fetches (trace w2) = S (S (fetches (trace w)))).
  { rewrite Htrace2, (fetches_after_page _ _ _ _ records2 Hevs2), Hcount1. reflexivity. }
  destruct (sync_page_turn fuel v env bolnaAgentId agentId 3 n2 w2 page3 records3
              (Hthird _ _ Hcount2) Hr3) as (n3 & w3 & evs3 & Hturn3 & Htrace3 & Hevs3).
  rewrite Hmore3 in Hturn3.
  change (truthy (js_or (JBool false) (JBool false))) with false in Hturn3.
  cbv iota in Hturn3.
  exists n3, w3,
    (EvFetchExecutions bolnaAgentId 1 :: evs1
     ++ EvFetchExecutions bolnaAgentId 2 :: evs2
     ++ EvFetchExecutions bolnaAgentId 3 :: evs3).
  split.
  { unfold syncExecutionsForAgent, try_catch. rewrite Hagent.
    change (negb true) with false. cbv match. fold agentId. rewrite Hturn1, Hturn2, Hturn3. reflexivity. }
  split.
  { rewrite Htrace3, Htrace2, Htrace1. rewrite <- !app_assoc. reflexivity. }
  simpl. rewrite List.filter_app. simpl. rewrite List.filter_app. simpl.
  rewrite Hevs1, Hevs2, Hevs3. reflexivity.
Qed.

Lemma three_pages_in_order_witness :
  let env := Samples.studio (fun _ => true) "Pune" true in
  exists totalSynced w' evs,
    syncExecutionsForAgent 5 CustomFieldsMode env (Samples.str "agent-1")
      Samples.empty_world = (Ok totalSynced, w')
    /\ trace w' = evs
    /\ List.filter is_sync evs
       = [EvFetchExecutions (Samples.str "agent-1") 1; EvReconcile Samples.E1;
          EvFetchExecutions (Samples.str "agent-1") 2; EvReconcile Samples.E2;
          EvReconcile Samples.E3;
          EvFetchExecutions (Samples.str "agent-1") 3; EvReconcile Samples.E4].
Proof.
  intros env.
  apply (three_pages_in_order CustomFieldsMode env (Samples.str "agent-1")
           (JObj (Samples.obj [("data"%string, JArr [Samples.E1]);
                               ("has_more"%string, JBool true)]))
           (JObj (Samples.obj [("data"%string, JArr [Samples.E2; Samples.E3]);
                               ("has_more"%string, JBool true)]))
           (JObj (Samples.obj [("data"%string, JArr [Samples.E4]);
                               ("has_more"%string, JBool false)]))
           [Samples.E1] [Samples.E2; Samples.E3] [Samples.E4]
           Samples.empty_world 5%nat).
  - reflexivity.
  - intros tr pageNumber H. simpl. rewrite H. reflexivity.
  - intros tr pageNumber H. simpl. rewrite H. reflexivity.
  - intros tr pageNumber H. simpl. rewrite H. reflexivity.
  - reflexivity.
  - reflexivity.
  - reflexivity.
  - reflexivity.
  - reflexivity.
  - reflexivity.
  - lia.
Defined.

(** ** The token encryption service *)

Ltac euclid := zify; Z.to_euclidean_division_equations; lia.

Lemma hex_value_digit (n : N) : n < 16 -> hex_value (hex_digit n) = Some n.
Proof.
  intros Hn. unfold hex_value, hex_digit.
  destruct (N.ltb_spec n 10).
  - replace ((48 <=? 48 + n) && (48 + n <=? 57)) with true
      by (symmetry; apply andb_true_intro; split; apply N.leb_le; lia).
    f_equal. lia.
  - replace ((48 <=? 87 + n) && (87 + n <=? 57)) with false
      by (symmetry; apply andb_false_intro2; apply N.leb_gt; lia).
    replace ((97 <=? 87 + n) && (87 + n <=? 102)) with true
      by (symmetry; apply andb_true_intro; split; apply N.leb_le; lia).
    f_equal. lia.
Qed.

Lemma hex_digit_no_colon (n : N) : hex_digit n <> 58.
Proof. unfold hex_digit. destruct (N.ltb_spec n 10); lia. Qed.

Lemma hex_of_byte_decodes (b : Byte.byte) (rest : jsstring) :
  Buffer_from_hex (hex_of_byte b ++ rest) = b :: Buffer_from_hex rest.
Proof.
  pose proof (Byte.to_N_bounded b) as Hb.
  unfold hex_of_byte. cbn [app Buffer_from_hex].
  rewrite !hex_value_digit by euclid.
  f_equal. unfold byte_of_N.
  replace (16 * (Byte.to_N b / 16) + Byte.to_N b mod 16) with (Byte.to_N b) by euclid.
  rewrite Byte.of_to_N. reflexivity.
Qed.

Lemma Buffer_from_hex_toString (buf : bytes) : Buffer_from_hex (toString_hex buf) = buf.
Proof.
  induction buf as [|b buf IH]; [reflexivity|].
  unfold toString_hex in *. cbn [flat_map]. rewrite hex_of_byte_decodes, IH. reflexivity.
Qed.

Lemma toString_hex_no_colon (buf : bytes) : Forall (fun c => c <> 58) (toString_hex buf).
Proof.
  induction buf as [|b buf IH]; [constructor|].
  unfold toString_hex in *. cbn [flat_map]. apply Forall_app.
  split; [|exact IH].
  unfold hex_of_byte. repeat constructor; apply hex_digit_no_colon.
Qed.

Lemma split_whole (sep : N) (s : jsstring) :
  Forall (fun c => c <> sep) s -> split sep s = [s].
Proof.
  induction 1 as [|c s Hc _ IH]; [reflexivity|].
  simpl. destruct (N.eqb_spec c sep); [contradiction|]. rewrite IH. reflexivity.
Qed.

Lemma split_at_first (sep : N) (a b : jsstring) :
  Forall (fun c => c <> sep) a -> split sep (a ++ sep :: b) = a :: split sep b.
Proof.
  induction 1 as [|c a Hc _ IH]; simpl.
  - rewrite N.eqb_refl. reflexivity.
  - destruct (N.eqb_spec c sep); [contradiction|]. rewrite IH. reflexivity.
Qed.

Lemma byte_of_N_to_N (n : N) : n <= 255 -> Byte.to_N (byte_of_N n) = n.
Proof.
  intros Hn. unfold byte_of_N. destruct (Byte.of_N n) as [b|] eqn:E.
  - apply Byte.to_of_N. exact E.
  - apply Byte.of_N_None_iff in E. lia.
Qed.

Lemma encode_code_point_bytes (cp : N) :
  cp <= 1114111 -> Forall (fun b => b <= 255) (encode_code_point cp).
Proof.
  intros Hcp. unfold encode_code_point.
  destruct (N.ltb_spec cp 128); [repeat constructor; lia|].
  destruct (N.ltb_spec cp 2048); [repeat constructor; euclid|].
  destruct (N.ltb_spec cp 65536); repeat constructor; euclid.
Qed.

Lemma decode_encode_code_point (cp : N) (rest : list N) :
  is_scalar cp = true ->
  decode_code_points (encode_code_point cp ++ rest) = cp :: decode_code_points rest.
Proof.
  unfold is_scalar. intros H.
  apply andb_prop in H. destruct H as [Hmax Hsur].
  apply N.leb_le in Hmax.
  apply negb_true_iff in Hsur. unfold is_surrogate in Hsur.
  apply andb_false_iff in Hsur. rewrite !N.leb_gt in Hsur.
  unfold encode_code_point.
  destruct (N.ltb_spec cp 128) as [H1|H1].
  { simpl. destruct (N.ltb_spec cp 128); [reflexivity|lia]. }
  destruct (N.ltb_spec cp 2048) as [H2|H2].
  { cbn [app decode_code_points].
    destruct (N.ltb_spec (192 + cp / 64) 128); [euclid|].
    replace ((194 <=? 192 + cp / 64) && (192 + cp / 64 <=? 223)) with true
      by (symmetry; apply andb_true_intro; split; apply N.leb_le; euclid).
    unfold is_continuation.
    replace ((128 <=? 128 + cp mod 64) && (128 + cp mod 64 <=? 191)) with true
      by (symmetry; apply andb_true_intro; split; apply N.leb_le; euclid).
    f_equal. euclid. }
  destruct (N.ltb_spec cp 65536) as [H3|H3].
  { cbn [app decode_code_points].
    destruct (N.ltb_spec (224 + cp / 4096) 128); [euclid|].
    replace ((194 <=? 224 + cp / 4096) && (224 + cp / 4096 <=? 223)) with false
      by (symmetry; apply andb_false_intro2; apply N.leb_gt; euclid).
    replace ((224 <=? 224 + cp / 4096) && (224 + cp / 4096 <=? 239)) with true
      by (symmetry; apply andb_true_intro; split; apply N.leb_le; euclid).
    replace (is_second (224 + cp / 4096) (128 + (cp / 64) mod 64)) with true.
    2:{ symmetry. unfold is_second. apply andb_true_intro.
        destruct (N.eqb_spec (224 + cp / 4096) 224);
          destruct (N.eqb_spec (224 + cp / 4096) 237);
          destruct (N.eqb_spec (224 + cp / 4096) 240);
          destruct (N.eqb_spec (224 + cp / 4096) 244);
          split; apply N.leb_le; euclid. }
    unfold is_continuation.
    replace ((128 <=? 128 + cp mod 64) && (128 + cp mod 64 <=? 191)) with true
      by (symmetry; apply andb_true_intro; split; apply N.leb_le; euclid).
    f_equal. euclid. }
  cbn [app decode_code_points].
  destruct (N.ltb_spec (240 + cp / 262144) 128); [euclid|].
  replace ((194 <=? 240 + cp / 262144) && (240 + cp / 262144 <=? 223)) with false
    by (symmetry; apply andb_false_intro2; apply N.leb_gt; euclid).
  replace ((224 <=? 240 + cp / 262144) && (240 + cp / 262144 <=? 239)) with false
    by (symmetry; apply andb_false_intro2; apply N.leb_gt; euclid).
  replace ((240 <=? 240 + cp / 262144) && (240 + cp / 262144 <=? 244)) with true
    by (symmetry; apply andb_true_intro; split; apply N.leb_le; euclid).
  replace (is_second (240 + cp / 262144) (128 + (cp / 4096) mod 64)) with true.
  2:{ symmetry. unfold is_second. apply andb_true_intro.
      destruct (N.eqb_spec (240 + cp / 262144) 224);
        destruct (N.eqb_spec (240 + cp / 262144) 237);
        destruct (N.eqb_spec (240 + cp / 262144) 240);
        destruct (N.eqb_spec (240 + cp / 262144) 244);
        split; apply N.leb_le; euclid. }
  unfold is_continuation.
  replace ((128 <=? 128 + (cp / 64) mod 64) && (128 + (cp / 64) mod 64 <=? 191)) with true
    by (symmetry; apply andb_true_intro; split; apply N.leb_le; euclid).
  replace ((128 <=? 128 + cp mod 64) && (128 + cp mod 64 <=? 191)) with true
    by (symmetry; apply andb_true_intro; split; apply N.leb_le; euclid).
  f_equal. euclid.
Qed.

Lemma in_range_spec (lo hi c : N) :
  (lo <=? c) && (c <=? hi) = true <-> lo <= c <= hi.
Proof. rewrite andb_true_iff, !N.leb_le. tauto. Qed.

Lemma out_of_range_spec (lo hi c : N) :
  (lo <=? c) && (c <=? hi) = false <-> c < lo \/ hi < c.
Proof. rewrite andb_false_iff, !N.leb_gt. tauto. Qed.

Lemma pair_round_trip (c d : N) (rest : list N) :
  is_high_surrogate c = true -> is_low_surrogate d = true ->
  let cp := 65536 + (c - 55296) * 1024 + (d - 56320) in
  is_scalar cp = true /\ from_code_point cp = [c; d].
Proof.
  unfold is_high_surrogate, is_low_surrogate. intros Hc Hd.
  set (cp := 65536 + (c - 55296) * 1024 + (d - 56320)).
  apply in_range_spec in Hc. apply in_range_spec in Hd.
  assert (Hlo : 65536 <= cp) by (unfold cp; lia).
  assert (Hhi : cp <= 1114111) by (unfold cp; lia).
  split.
  - unfold is_scalar, is_surrogate. apply andb_true_intro. split; [apply N.leb_le; exact Hhi|].
    apply negb_true_iff, out_of_range_spec. lia.
  - unfold from_code_point. destruct (N.ltb_spec cp 65536); [lia|].
    f_equal; [|f_equal]; unfold cp; euclid.
Qed.

Lemma unit_round_trip (c : N) :
  is_high_surrogate c = false -> is_low_surrogate c = false -> c < 65536 ->
  is_scalar c = true /\ from_code_point c = [c].
Proof.
  unfold is_high_surrogate, is_low_surrogate. intros Hh Hl Hc.
  apply out_of_range_spec in Hh. apply out_of_range_spec in Hl.
  split.
  - unfold is_scalar, is_surrogate. apply andb_true_intro. split; [apply N.leb_le; lia|].
    apply negb_true_iff, out_of_range_spec. lia.
  - unfold from_code_point. destruct (N.ltb_spec c 65536); [reflexivity|lia].
Qed.

Lemma is_scalar_bound (cp : N) : is_scalar cp = true -> cp <= 1114111.
Proof. unfold is_scalar. intros H. apply andb_prop in H. apply N.leb_le, H. Qed.

(** Encoding a well-formed string to UTF-8 and decoding the bytes gives
    the string back. *)
Lemma code_points_round_trip (n : nat) :
  forall s : jsstring,
    (length s <= n)%nat ->
    well_formed s = true ->
    Forall (fun b => b <= 255) (flat_map encode_code_point (code_points s))
    /\ flat_map from_code_point
         (decode_code_points (flat_map encode_code_point (code_points s))) = s.
Proof.
  induction n as [|n IH]; intros s Hlen Hwf.
  { destruct s; [split; [constructor|reflexivity]|simpl in Hlen; lia]. }
  destruct s as [|c s']; [split; [constructor|reflexivity]|].
  simpl in Hwf. cbn [code_points].
  destruct (is_high_surrogate c) eqn:Hhigh.
  - destruct s' as [|d s'']; [discriminate Hwf|].
    apply andb_prop in Hwf. destruct Hwf as [Hlow Hwf].
    rewrite Hlow.
    destruct (pair_round_trip c d [] Hhigh Hlow) as [Hscalar Hunits].
    destruct (IH s'' ltac:(simpl in Hlen; lia) Hwf) as [Hbytes Hrest].
    cbn [flat_map]. split.
    + apply Forall_app. split; [|exact Hbytes].
      apply encode_code_point_bytes, is_scalar_bound, Hscalar.
    + rewrite (decode_encode_code_point _ _ Hscalar). cbn [flat_map].
      rewrite Hunits, Hrest. reflexivity.
  - apply andb_prop in Hwf. destruct Hwf as [Hwf Hrest'].
    apply andb_prop in Hwf. destruct Hwf as [Hlow Hc].
    apply negb_true_iff in Hlow. apply N.ltb_lt in Hc. rewrite Hlow.
    destruct (unit_round_trip c Hhigh Hlow Hc) as [Hscalar Hunits].
    destruct (IH s' ltac:(simpl in Hlen; lia) Hrest') as [Hbytes Hrest].
    cbn [flat_map]. split.
    + apply Forall_app. split; [|exact Hbytes].
      apply encode_code_point_bytes, is_scalar_bound, Hscalar.
    + rewrite (decode_encode_code_point _ _ Hscalar). cbn [flat_map].
      rewrite Hunits, Hrest. reflexivity.
Qed.

Lemma to_N_byte_of_N (l : list N) :
  Forall (fun b => b <= 255) l -> map Byte.to_N (map byte_of_N l) = l.
Proof.
  induction 1 as [|b l Hb _ IH]; [reflexivity|].
  simpl. rewrite (byte_of_N_to_N b Hb), IH. reflexivity.
Qed.

Lemma utf8_round_trip (s : jsstring) :
  well_formed s = true -> utf8_decode (utf8_encode s) = s.
Proof.
  intros Hwf. destruct (code_points_round_trip (length s) s (le_n _) Hwf) as [Hbytes Hs].
  unfold utf8_decode, utf8_encode. rewrite (to_N_byte_of_N _ Hbytes). exact Hs.
Qed.

Lemma toy_gcm_law : gcm_law Samples.toy_encrypt Samples.toy_decrypt.
Proof.
  intros key iv plaintext Hkey Hiv. exists (rev plaintext), iv.
  unfold Samples.toy_encrypt, Samples.toy_decrypt. rewrite Hkey, Hiv. simpl.
  rewrite rev_involutive. auto.
Qed.

Lemma truthy_nonempty (a b : jsstring) (c : N) : truthy (JStr (a ++ [c] ++ b)) = true.
Proof. destruct a; reflexivity. Qed.

Lemma split_ciphertext (iv authTag encrypted : bytes) :
  split 58 (toString_hex iv ++ [58] ++ toString_hex authTag ++ [58] ++ toString_hex encrypted)
  = [toString_hex iv; toString_hex authTag; toString_hex encrypted].
Proof.
  simpl app. rewrite (split_at_first 58 _ _ (toString_hex_no_colon iv)).
  rewrite (split_at_first 58 _ _ (toString_hex_no_colon authTag)).
  rewrite (split_whole 58 _ (toString_hex_no_colon encrypted)). reflexivity.
Qed.

Lemma toString_hex_even (buf : bytes) : Nat.odd (length (toString_hex buf)) = false.
Proof.
  induction buf as [|b buf IH]; [reflexivity|].
  unfold toString_hex in *. cbn [flat_map hex_of_byte app length].
  rewrite Nat.odd_succ, Nat.even_succ. exact IH.
Qed.

Lemma decrypt_encrypt
    (gcm_encrypt : bytes -> bytes -> bytes -> option (bytes * bytes))
    (gcm_decrypt : bytes -> bytes -> bytes -> bytes -> option bytes)
    (key iv : bytes) (s : jsstring) :
  gcm_law gcm_encrypt gcm_decrypt ->
  length key = 32%nat -> length iv = 16%nat ->
  s <> [] -> well_formed s = true ->
  exists c, encrypt gcm_encrypt key iv (JStr s) = Some (JStr c)
            /\ decrypt gcm_decrypt key (JStr c) = JStr s.
Proof.
  intros Hlaw Hkey Hiv Hs Hwf.
  destruct (Hlaw key iv (utf8_encode s) Hkey Hiv) as (encrypted & authTag & Henc & Hdec).
  eexists. split.
  - unfold encrypt. destruct s as [|c s]; [congruence|]. simpl truthy. cbv iota.
    rewrite Henc. reflexivity.
  - unfold decrypt. rewrite truthy_nonempty. simpl negb. cbv iota.
    unfold decrypt_try. rewrite split_ciphertext. cbv zeta.
    rewrite toString_hex_even, !Buffer_from_hex_toString, Hdec. simpl.
    rewrite (utf8_round_trip s Hwf). reflexivity.
Qed.

(** C10 (as amended). Under a 32-byte key and for every 16-byte iv,
    decrypting what [encrypt] returns for a non-empty string without unpaired
    surrogates gives the string back. And [decrypt] is total: it returns
    null on null and on every other falsy input, on a malformed ciphertext
    (not a string, not three parts separated by colons, or a third part
    with an odd number of characters) and on a ciphertext that the cipher
    rejects, and on every input whatsoever it returns null or a string. *)
Theorem token_round_trip
    (gcm_encrypt : bytes -> bytes -> bytes -> option (bytes * bytes))
    (gcm_decrypt : bytes -> bytes -> bytes -> bytes -> option bytes)
    (key iv : bytes) (s : jsstring) :
  gcm_law gcm_encrypt gcm_decrypt ->
  length key = 32%nat -> length iv = 16%nat ->
  s <> [] -> well_formed s = true ->
  (exists c, encrypt gcm_encrypt key iv (JStr s) = Some (JStr c)
             /\ decrypt gcm_decrypt key (JStr c) = JStr s)
  /\ (forall v, truthy v = false -> decrypt gcm_decrypt key v = JNull)
  /\ (forall v, malformed v -> decrypt gcm_decrypt key v = JNull)
  /\ (forall t p0 p1 p2,
        split 58 t = [p0; p1; p2] ->
        gcm_decrypt key (Buffer_from_hex p0) (Buffer_from_hex p1) (Buffer_from_hex p2)
          = None ->
        decrypt gcm_decrypt key (JStr t) = JNull)
  /\ (forall v, decrypt gcm_decrypt key v = JNull
                \/ exists t, decrypt gcm_decrypt key v = JStr t).
Proof.
  intros Hlaw Hkey Hiv Hs Hwf. split; [|split; [|split; [|split]]].
  - apply (decrypt_encrypt gcm_encrypt gcm_decrypt key iv s Hlaw Hkey Hiv Hs Hwf).
  - intros v Hfalsy. unfold decrypt. rewrite Hfalsy. reflexivity.
  - intros v Hbad. unfold decrypt. destruct (negb (truthy v)); [reflexivity|].
    destruct v as [| |b|x|t|d|l|o]; try reflexivity.
    unfold decrypt_try. simpl in Hbad.
    destruct (split 58 t) as [|p0 [|p1 [|p2 [|p3 ps]]]]; try reflexivity.
    cbv zeta. rewrite Hbad. reflexivity.
  - intros t p0 p1 p2 Hparts Hrejected. unfold decrypt.
    destruct (negb (truthy (JStr t))); [reflexivity|].
    unfold decrypt_try. rewrite Hparts. cbv zeta. rewrite Hrejected.
    destruct (Nat.odd (length p2)); reflexivity.
  - intros v. unfold decrypt. destruct (negb (truthy v)); [left; reflexivity|].
    destruct (decrypt_try gcm_decrypt key v) as [t|]; [right; exists t|left]; reflexivity.
Qed.

Lemma token_round_trip_witness :
  (exists c, encrypt Samples.toy_encrypt Samples.toy_key Samples.toy_iv (JStr (js "ya29.a0Af"))
             = Some (JStr c)
             /\ decrypt Samples.toy_decrypt Samples.toy_key (JStr c) = JStr (js "ya29.a0Af"))
  /\ (forall v, truthy v = false -> decrypt Samples.toy_decrypt Samples.toy_key v = JNull)
  /\ (forall v, malformed v -> decrypt Samples.toy_decrypt Samples.toy_key v = JNull)
  /\ (forall t p0 p1 p2,
        split 58 t = [p0; p1; p2] ->
        Samples.toy_decrypt Samples.toy_key (Buffer_from_hex p0) (Buffer_from_hex p1)
          (Buffer_from_hex p2) = None ->
        decrypt Samples.toy_decrypt Samples.toy_key (JStr t) = JNull)
  /\ (forall v, decrypt Samples.toy_decrypt Samples.toy_key v = JNull
                \/ exists t, decrypt Samples.toy_decrypt Samples.toy_key v = JStr t).
Proof.
  apply (token_round_trip Samples.toy_encrypt Samples.toy_decrypt Samples.toy_key
           Samples.toy_iv (js "ya29.a0Af") toy_gcm_law).
  - reflexivity.
  - reflexivity.
  - discriminate.
  - reflexivity.
Defined.

(** C10 (as stated) fails on a string with an unpaired surrogate: the
    string made of the code unit D800 is encrypted, under any cipher, key
    and iv, exactly as the string made of U+FFFD is, and decrypts to the
    latter. *)
Lemma lone_surrogate_is_not_restored :
  well_formed [55296] = false
  /\ (forall gcm_encrypt key iv,
        encrypt gcm_encrypt key iv (JStr [55296]) = encrypt gcm_encrypt key iv (JStr [65533]))
  /\ (exists c,
        encrypt Samples.toy_encrypt Samples.toy_key Samples.toy_iv (JStr [55296])
          = Some (JStr c)
        /\ decrypt Samples.toy_decrypt Samples.toy_key (JStr c) = JStr [65533]).
Proof.
  split; [reflexivity|]. split; [intros; reflexivity|].
  apply (decrypt_encrypt Samples.toy_encrypt Samples.toy_decrypt Samples.toy_key
           Samples.toy_iv [65533] toy_gcm_law); [reflexivity|reflexivity|discriminate|reflexivity].
Qed.

(* ===================================================================== *)
(** * Further properties *)
(* ===================================================================== *)

Import Csv.

(** ** The CSV files *)

Lemma parse_open_quote (rest current : jsstring) (values : list jsstring) :
  parse_from (34 :: rest) current false values = parse_from rest current true values.
Proof. destruct rest; reflexivity. Qed.

Lemma includes_cons (c x : N) (s : jsstring) :
  includes c (x :: s) = (x =? c) || includes c s.
Proof. unfold includes. cbn [existsb]. rewrite (N.eqb_sym c x). reflexivity. Qed.

Lemma parse_plain_run (a : jsstring) :
  forall (rest current : jsstring) (values : list jsstring),
    includes 34 a = false -> includes 44 a = false ->
    parse_from (a ++ rest) current false values = parse_from rest (current ++ a) false values.
Proof.
  induction a as [|c a IH]; intros rest current values Hq Hc.
  - rewrite app_nil_r. reflexivity.
  - rewrite includes_cons in Hq, Hc.
    apply orb_false_iff in Hq as [Hq1 Hq]. apply orb_false_iff in Hc as [Hc1 Hc].
    change ((c :: a) ++ rest) with (c :: (a ++ rest)).
    cbn [parse_from]. rewrite Hq1, Hc1. cbn [andb].
    rewrite (IH rest (current ++ [c]) values Hq Hc).
    rewrite <- app_assoc. reflexivity.
Qed.

Lemma parse_quoted_run (a : jsstring) :
  forall (tail current : jsstring) (values : list jsstring),
    closes tail ->
    parse_from (double_quotes a ++ 34 :: tail) current true values
    = parse_from tail (current ++ a) false values.
Proof.
  induction a as [|c a IH]; intros tail current values Htail.
  - rewrite app_nil_r. cbn [double_quotes flat_map app].
    destruct tail as [|next tail']; [reflexivity|].
    cbn [parse_from]. change (34 =? 34) with true. cbv iota.
    simpl in Htail. rewrite Htail. reflexivity.
  - unfold double_quotes. cbn [flat_map]. fold (double_quotes a).
    destruct (c =? 34) eqn:Ec.
    + apply N.eqb_eq in Ec. subst c.
      change (([34; 34] ++ double_quotes a) ++ 34 :: tail)
        with (34 :: 34 :: (double_quotes a ++ 34 :: tail)).
      cbn [parse_from]. change (34 =? 34) with true. cbn [andb]. cbv iota.
      rewrite (IH tail (current ++ [34]) values Htail).
      rewrite <- app_assoc. reflexivity.
    + change (([c] ++ double_quotes a) ++ 34 :: tail)
        with (c :: (double_quotes a ++ 34 :: tail)).
      cbn [parse_from]. rewrite Ec. cbn [negb andb]. rewrite andb_false_r.
      rewrite (IH tail (current ++ [c]) values Htail).
      rewrite <- app_assoc. reflexivity.
Qed.

Lemma parse_escaped_cell (env : Env) (s tail current : jsstring) (values : list jsstring) :
  closes tail ->
  parse_from (escapeCSV env (JStr s) ++ tail) current false values
  = parse_from tail (current ++ s) false values.
Proof.
  intros Htail. unfold escapeCSV.
  destruct s as [|c s]; [rewrite app_nil_r; reflexivity|].
  change (negb (truthy (JStr (c :: s)))) with false. cbv iota.
  unfold String_of.
  destruct (includes 44 (c :: s) || includes 34 (c :: s) || includes 10 (c :: s)) eqn:E.
  - change (([34] ++ double_quotes (c :: s) ++ [34]) ++ tail)
      with (34 :: ((double_quotes (c :: s) ++ [34]) ++ tail)).
    rewrite parse_open_quote. rewrite <- app_assoc.
    apply (parse_quoted_run (c :: s) tail current values Htail).
  - apply orb_false_iff in E as [E _]. apply orb_false_iff in E as [Ec Eq].
    apply parse_plain_run; assumption.
Qed.

Lemma parse_escaped_row (env : Env) (vs : list jsstring) :
  forall (v : jsstring) (values : list jsstring),
    parse_from (join [44] (map (fun s => escapeCSV env (JStr s)) (v :: vs))) [] false values
    = values ++ map trim (v :: vs).
Proof.
  induction vs as [|v' vs IH]; intros v values.
  - cbn [map join].
    rewrite <- (app_nil_r (escapeCSV env (JStr v))).
    rewrite parse_escaped_cell by exact I. reflexivity.
  - change (join [44] (map (fun s => escapeCSV env (JStr s)) (v :: v' :: vs)))
      with (escapeCSV env (JStr v)
            ++ 44 :: join [44] (map (fun s => escapeCSV env (JStr s)) (v' :: vs))).
    rewrite parse_escaped_cell by reflexivity.
    cbn [parse_from]. change (44 =? 34) with false. change (44 =? 44) with true.
    cbn [negb andb]. cbv iota.
    rewrite (IH v' (values ++ [trim ([] ++ v)])).
    rewrite <- app_assoc. reflexivity.
Qed.

Lemma escaped_row_parse (env : Env) (v : jsstring) (vs : list jsstring) :
  parseCSVLine (join [44] (map (fun s => escapeCSV env (JStr s)) (v :: vs)))
  = map trim (v :: vs).
Proof. unfold parseCSVLine. apply (parse_escaped_row env vs v []). Qed.

(** X1. A row of escaped values is parsed back: whatever the values
    contain (commas, double quotes, line feeds), [parseCSVLine] applied to
    the comma-joined [escapeCSV] of each gives the values back, trimmed. *)
Theorem escaped_row_is_parsed_back (env : Env) (v : jsstring) (vs : list jsstring) :
  parseCSVLine (join [44] (map (fun s => escapeCSV env (JStr s)) (v :: vs)))
  = map trim (v :: vs).
Proof. unfold parseCSVLine. apply (parse_escaped_row env vs v []). Qed.

Lemma split_cons (sep : N) (s : jsstring) : exists p ps, split sep s = p :: ps.
Proof.
  induction s as [|c s [p [ps IH]]]; [exists [], []; reflexivity|].
  simpl. destruct (c =? sep); [eexists _, _; reflexivity|].
  rewrite IH. eexists _, _; reflexivity.
Qed.

Lemma parse_unquoted (line : jsstring) :
  forall (current : jsstring) (values : list jsstring),
    includes 34 line = false ->
    parse_from line current false values
    = values ++ map trim (match split 44 line with
                          | p :: ps => (current ++ p) :: ps
                          | [] => [current]
                          end).
Proof.
  induction line as [|c line IH]; intros current values Hq.
  - simpl. rewrite app_nil_r. reflexivity.
  - rewrite includes_cons in Hq. apply orb_false_iff in Hq as [Hq1 Hq].
    cbn [parse_from split]. rewrite Hq1. cbn [negb]. rewrite andb_true_r.
    destruct (c =? 44) eqn:Ec.
    + rewrite (IH [] (values ++ [trim current]) Hq).
      destruct (split_cons 44 line) as [p [ps ->]].
      rewrite app_nil_r. rewrite <- app_assoc. reflexivity.
    + rewrite (IH (current ++ [c]) values Hq).
      destruct (split_cons 44 line) as [p [ps ->]].
      rewrite <- app_assoc. reflexivity.
Qed.

(** X2. On a line without double quotes [parseCSVLine] is the split at
    the commas, each part trimmed. *)
Theorem unquoted_line_is_split (line : jsstring) :
  includes 34 line = false ->
  parseCSVLine line = map trim (split 44 line).
Proof.
  intros Hq. unfold parseCSVLine. rewrite (parse_unquoted line [] [] Hq).
  destruct (split_cons 44 line) as [p [ps ->]]. reflexivity.
Qed.

Lemma unquoted_line_is_split_witness :
  includes 34 (js " Rao, Pune ,,x") = false
  /\ parseCSVLine (js " Rao, Pune ,,x") = [js "Rao"; js "Pune"; []; js "x"].
Proof.
  split; [reflexivity|].
  rewrite (unquoted_line_is_split (js " Rao, Pune ,,x")); reflexivity.
Defined.

(** *** Strings without unpaired surrogates *)

Lemma well_formed_ind (P : jsstring -> Prop) :
  P [] ->
  (forall c d s, is_high_surrogate c = true -> is_low_surrogate d = true ->
     well_formed s = true -> P s -> P (c :: d :: s)) ->
  (forall c s, is_high_surrogate c = false -> is_low_surrogate c = false ->
     (c <? 65536) = true -> well_formed s = true -> P s -> P (c :: s)) ->
  forall s, well_formed s = true -> P s.
Proof.
  intros Hnil Hpair Hunit s.
  remember (length s) as n eqn:Hn.
  revert s Hn. induction n as [n IH] using lt_wf_ind. intros s Hn Hwf.
  destruct s as [|c s]; [exact Hnil|].
  cbn [well_formed] in Hwf.
  destruct (is_high_surrogate c) eqn:Hh.
  - destruct s as [|d s]; [discriminate|].
    apply andb_prop in Hwf as [Hd Hwf].
    apply Hpair; try assumption.
    apply (IH (length s)); [subst n; simpl; lia|reflexivity|exact Hwf].
  - apply andb_prop in Hwf as [Hwf1 Hwf]. apply andb_prop in Hwf1 as [Hl Hlt].
    apply negb_true_iff in Hl.
    apply Hunit; try assumption.
    apply (IH (length s)); [subst n; simpl; lia|reflexivity|exact Hwf].
Qed.

Lemma well_formed_pair (c d : N) (s : jsstring) :
  is_high_surrogate c = true -> is_low_surrogate d = true ->
  well_formed (c :: d :: s) = well_formed s.
Proof. intros Hc Hd. cbn [well_formed]. rewrite Hc, Hd. reflexivity. Qed.

Lemma well_formed_unit (c : N) (s : jsstring) :
  is_high_surrogate c = false -> is_low_surrogate c = false -> (c <? 65536) = true ->
  well_formed (c :: s) = well_formed s.
Proof. intros Hh Hl Hlt. cbn [well_formed]. rewrite Hh, Hl, Hlt. reflexivity. Qed.

Lemma well_formed_app (a b : jsstring) :
  well_formed a = true -> well_formed (a ++ b) = well_formed b.
Proof.
  intros Ha. revert a Ha. apply well_formed_ind.
  - reflexivity.
  - intros c d s Hc Hd _ IH.
    change ((c :: d :: s) ++ b) with (c :: d :: (s ++ b)).
    rewrite well_formed_pair by assumption. exact IH.
  - intros c s Hh Hl Hlt _ IH.
    change ((c :: s) ++ b) with (c :: (s ++ b)).
    rewrite well_formed_unit by assumption. exact IH.
Qed.

Lemma code_points_app (a b : jsstring) :
  well_formed a = true -> code_points (a ++ b) = code_points a ++ code_points b.
Proof.
  intros Ha. revert a Ha. apply well_formed_ind.
  - reflexivity.
  - intros c d s Hc Hd _ IH.
    change ((c :: d :: s) ++ b) with (c :: d :: (s ++ b)).
    cbn [code_points]. rewrite Hc, Hd, IH. reflexivity.
  - intros c s Hh Hl Hlt _ IH.
    change ((c :: s) ++ b) with (c :: (s ++ b)).
    cbn [code_points]. rewrite Hh, Hl, IH. reflexivity.
Qed.

Lemma utf8_encode_app (a b : jsstring) :
  well_formed a = true -> utf8_encode (a ++ b) = utf8_encode a ++ utf8_encode b.
Proof.
  intros Ha. unfold utf8_encode.
  rewrite (code_points_app a b Ha), flat_map_app, map_app. reflexivity.
Qed.

Lemma well_formed_low_unit (c : N) (s : jsstring) :
  c < 55296 -> well_formed (c :: s) = well_formed s.
Proof.
  intros Hc. apply well_formed_unit.
  - unfold is_high_surrogate. apply andb_false_iff. left. apply N.leb_gt. exact Hc.
  - unfold is_low_surrogate. apply andb_false_iff. left. apply N.leb_gt. lia.
  - apply N.ltb_lt. lia.
Qed.

Lemma surrogate_not_quote (c : N) :
  is_high_surrogate c = true -> (c =? 34) = false.
Proof.
  intros Hc. destruct (c =? 34) eqn:E; [|reflexivity].
  apply N.eqb_eq in E. subst c. discriminate Hc.
Qed.

Lemma low_surrogate_not_quote (c : N) :
  is_low_surrogate c = true -> (c =? 34) = false.
Proof.
  intros Hc. destruct (c =? 34) eqn:E; [|reflexivity].
  apply N.eqb_eq in E. subst c. discriminate Hc.
Qed.

Lemma well_formed_double_quotes (s : jsstring) :
  well_formed s = true -> well_formed (double_quotes s) = true.
Proof.
  revert s. apply well_formed_ind.
  - reflexivity.
  - intros c d s Hc Hd _ IH.
    unfold double_quotes. cbn [flat_map]. fold (double_quotes s).
    rewrite (surrogate_not_quote c Hc), (low_surrogate_not_quote d Hd).
    change ([c] ++ [d] ++ double_quotes s) with (c :: d :: double_quotes s).
    rewrite well_formed_pair by assumption. exact IH.
  - intros c s Hh Hl Hlt _ IH.
    unfold double_quotes. cbn [flat_map]. fold (double_quotes s).
    destruct (c =? 34) eqn:E.
    + change ([34; 34] ++ double_quotes s) with (34 :: 34 :: double_quotes s).
      rewrite !well_formed_low_unit by lia. exact IH.
    + change ([c] ++ double_quotes s) with (c :: double_quotes s).
      rewrite well_formed_unit by assumption. exact IH.
Qed.

Lemma includes_app (c : N) (a b : jsstring) :
  includes c (a ++ b) = includes c a || includes c b.
Proof. unfold includes. apply existsb_app. Qed.

Lemma includes_double_quotes (c : N) (s : jsstring) :
  includes c s = false -> c <> 34 -> includes c (double_quotes s) = false.
Proof.
  intros Hs Hc. induction s as [|x s IH]; [reflexivity|].
  rewrite includes_cons in Hs. apply orb_false_iff in Hs as [Hx Hs].
  unfold double_quotes. cbn [flat_map]. fold (double_quotes s).
  rewrite includes_app, (IH Hs), orb_false_r.
  destruct (x =? 34) eqn:E.
  - apply N.eqb_eq in E. subst x. rewrite !includes_cons, Hx. reflexivity.
  - rewrite includes_cons, Hx. reflexivity.
Qed.

Lemma includes_Forall (c : N) (s : jsstring) :
  includes c s = false -> Forall (fun x => x <> c) s.
Proof.
  induction s as [|x s IH]; intros H; constructor.
  - rewrite includes_cons in H. apply orb_false_iff in H as [H _].
    apply N.eqb_neq. exact H.
  - apply IH. rewrite includes_cons in H. apply orb_false_iff in H as [_ H]. exact H.
Qed.

(** *** Cells and lines *)

Lemma escapeCSV_well_formed (env : Env) (s : jsstring) :
  well_formed s = true -> well_formed (escapeCSV env (JStr s)) = true.
Proof.
  intros Hs. unfold escapeCSV, String_of.
  destruct (negb (truthy (JStr s))); [reflexivity|].
  destruct (includes 44 s || includes 34 s || includes 10 s); [|exact Hs].
  change ([34] ++ double_quotes s ++ [34]) with (34 :: (double_quotes s ++ [34])).
  rewrite well_formed_low_unit by lia.
  rewrite well_formed_app by (apply well_formed_double_quotes; exact Hs).
  reflexivity.
Qed.

Lemma escapeCSV_one_line (env : Env) (s : jsstring) :
  includes 10 s = false -> includes 10 (escapeCSV env (JStr s)) = false.
Proof.
  intros Hs. unfold escapeCSV, String_of.
  destruct (negb (truthy (JStr s))); [reflexivity|].
  destruct (includes 44 s || includes 34 s || includes 10 s); [|exact Hs].
  change ([34] ++ double_quotes s ++ [34]) with (34 :: (double_quotes s ++ [34])).
  rewrite includes_cons, includes_app.
  rewrite (includes_double_quotes 10 s Hs) by lia. reflexivity.
Qed.

Lemma escapeCSV_plain (env : Env) (s : jsstring) :
  includes 44 s = false -> includes 34 s = false -> includes 10 s = false ->
  escapeCSV env (JStr s) = s.
Proof.
  intros H1 H2 H3. unfold escapeCSV, String_of.
  destruct s as [|c s]; [reflexivity|].
  change (negb (truthy (JStr (c :: s)))) with false. cbv iota.
  rewrite H1, H2, H3. reflexivity.
Qed.

Lemma join_cons (sep p q : jsstring) (rest : list jsstring) :
  join sep (p :: q :: rest) = p ++ sep ++ join sep (q :: rest).
Proof. reflexivity. Qed.

Lemma join_well_formed (sep : jsstring) (parts : list jsstring) :
  well_formed sep = true ->
  Forall (fun p => well_formed p = true) parts ->
  well_formed (join sep parts) = true.
Proof.
  intros Hsep Hparts. induction Hparts as [|p parts Hp Hparts IH]; [reflexivity|].
  destruct parts as [|q rest]; [exact Hp|].
  rewrite join_cons, well_formed_app by exact Hp.
  rewrite well_formed_app by exact Hsep. exact IH.
Qed.

Lemma join_includes (c : N) (sep : jsstring) (parts : list jsstring) :
  includes c sep = false ->
  Forall (fun p => includes c p = false) parts ->
  includes c (join sep parts) = false.
Proof.
  intros Hsep Hparts. induction Hparts as [|p parts Hp Hparts IH]; [reflexivity|].
  destruct parts as [|q rest]; [exact Hp|].
  rewrite join_cons, !includes_app, Hp, Hsep, IH. reflexivity.
Qed.

Lemma join_snoc (sep : jsstring) (parts : list jsstring) (p last : jsstring) :
  join sep ((p :: parts) ++ [last]) = join sep (p :: parts) ++ sep ++ last.
Proof.
  revert p. induction parts as [|q parts IH]; intros p; [reflexivity|].
  change ((p :: q :: parts) ++ [last]) with (p :: ((q :: parts) ++ [last])).
  change ((q :: parts) ++ [last]) with (q :: (parts ++ [last])).
  rewrite join_cons. change (q :: (parts ++ [last])) with ((q :: parts) ++ [last]).
  rewrite IH, join_cons, <- !app_assoc. reflexivity.
Qed.

Lemma split_join (sep : N) (parts : list jsstring) (p : jsstring) :
  Forall (fun q => includes sep q = false) (p :: parts) ->
  split sep (join [sep] (p :: parts)) = p :: parts.
Proof.
  revert p. induction parts as [|q parts IH]; intros p Hparts.
  - apply split_whole. apply includes_Forall.
    apply Forall_inv in Hparts. exact Hparts.
  - rewrite join_cons. change ([sep] ++ join [sep] (q :: parts))
      with (sep :: join [sep] (q :: parts)).
    rewrite split_at_first
      by (apply includes_Forall; apply Forall_inv in Hparts; exact Hparts).
    rewrite IH by (apply Forall_inv_tail in Hparts; exact Hparts).
    reflexivity.
Qed.

Lemma trimStart_keeps (c : N) (s : jsstring) :
  In c s -> is_white_space c = false -> In c (trimStart s).
Proof.
  intros Hin Hc. induction s as [|x s IH]; [destruct Hin|].
  cbn [trimStart]. destruct (is_white_space x) eqn:Ex; [|exact Hin].
  destruct Hin as [-> | Hin]; [congruence|exact (IH Hin)].
Qed.

Lemma trim_keeps (c : N) (s : jsstring) :
  In c s -> is_white_space c = false -> In c (trim s).
Proof.
  intros Hin Hc. unfold trim, trimEnd.
  apply in_rev. rewrite rev_involutive.
  apply trimStart_keeps; [|exact Hc].
  apply in_rev. rewrite rev_involutive.
  apply trimStart_keeps; assumption.
Qed.

Lemma not_blank (s : jsstring) :
  In 44 s -> truthy (JStr (trim s)) = true.
Proof.
  intros Hin. pose proof (trim_keeps 44 s Hin eq_refl) as H.
  destruct (trim s); [destruct H|reflexivity].
Qed.

(** *** Rows *)

Lemma plain_text_inv (escaped : bool) (v : jsval) :
  plain_text escaped v = true ->
  exists s, v = JStr s /\ well_formed s = true /\ includes 10 s = false
            /\ (escaped = false -> includes 44 s = false /\ includes 34 s = false).
Proof.
  destruct v as [| | | |s| | |]; try discriminate. cbn [plain_text].
  intros H. apply andb_prop in H as [H H3]. apply andb_prop in H as [H1 H2].
  apply negb_true_iff in H2.
  exists s. split; [reflexivity|]. split; [exact H1|]. split; [exact H2|].
  intros ->. cbn [orb] in H3. apply negb_true_iff in H3.
  apply orb_false_iff in H3. exact H3.
Qed.

Lemma js_or_text (s : jsstring) : js_or (JStr s) (JStr []) = JStr s.
Proof. destruct s; reflexivity. Qed.

Lemma cell_plain (env : Env) (s : jsstring) :
  includes 44 s = false -> includes 34 s = false -> includes 10 s = false ->
  cell env (js_or (JStr s) (JStr [])) = escapeCSV env (JStr s).
Proof.
  intros H1 H2 H3. rewrite js_or_text, escapeCSV_plain by assumption. reflexivity.
Qed.

Lemma row_of_exportable (env : Env) (data : jsobj) :
  exportable data = true ->
  row_of env (JObj data) = Some (map (fun s => escapeCSV env (JStr s)) (texts data))
  /\ Forall (fun s => well_formed s = true /\ includes 10 s = false) (texts data).
Proof.
  unfold exportable, texts, row_keys. cbn [take drop forallb map].
  intros H. rewrite !andb_true_r in H.
  repeat (apply andb_prop in H as [? H]).
  repeat match goal with
  | Hp : _ && _ = true |- _ => apply andb_prop in Hp as [? ?]
  end.
  repeat match goal with
  | Hp : plain_text _ (field data ?k) = true |- _ =>
      let s := fresh "s" in let E := fresh "E" in
      let Hw := fresh "Hw" in let Hn := fresh "Hn" in let Hp' := fresh "Hplain" in
      apply plain_text_inv in Hp as [s [E [Hw [Hn Hp']]]]
  end.
  unfold row_of.
  repeat match goal with
  | |- context [get_prop (JObj data) ?k] =>
      change (get_prop (JObj data) k) with (Some (field data k))
  end.
  cbn [mbind option_bind].
  repeat match goal with
  | E : field data _ = JStr _ |- _ => rewrite E; clear E
  end.
  cbn [text_of].
  repeat match goal with
  | Hp : false = false -> _ |- _ => specialize (Hp eq_refl); destruct Hp
  end.
  rewrite !cell_plain by assumption.
  rewrite !js_or_text.
  split; [reflexivity|].
  repeat (constructor; [split; assumption|]). constructor.
Qed.

Lemma record_of_headers (v1 v2 v3 v4 v5 v6 v7 v8 : jsstring) :
  record_of headers 0 [v1; v2; v3; v4; v5; v6; v7; v8] ∅
  = list_to_map (zip headers (map JStr [v1; v2; v3; v4; v5; v6; v7; v8])).
Proof.
  vm_cast_no_check
    (eq_refl (list_to_map (zip headers (map JStr [v1; v2; v3; v4; v5; v6; v7; v8]))
              : jsobj)).
Qed.

Lemma line_of_parsed (env : Env) (data : jsobj) :
  record_of headers 0 (parseCSVLine (line_of env data)) ∅ = record_read data.
Proof.
  unfold line_of, texts, row_keys.
  rewrite (map_cons (fun k => text_of (field data k))).
  rewrite escaped_row_parse.
  unfold record_read, row_keys. cbn [map].
  apply record_of_headers.
Qed.

Lemma line_of_readable (env : Env) (data : jsobj) :
  exportable data = true -> readable (line_of env data).
Proof.
  intros H. destruct (row_of_exportable env data H) as [_ Htexts].
  unfold readable, line_of. split; [|split].
  - apply join_well_formed; [reflexivity|].
    apply Forall_map. eapply Forall_impl; [exact Htexts|].
    intros s [Hs _]. apply escapeCSV_well_formed. exact Hs.
  - apply join_includes; [reflexivity|].
    apply Forall_map. eapply Forall_impl; [exact Htexts|].
    intros s [_ Hs]. apply escapeCSV_one_line. exact Hs.
  - apply not_blank. unfold texts, row_keys.
    rewrite (map_cons (fun k => text_of (field data k))).
    rewrite (map_cons (fun k => text_of (field data k))).
    rewrite !(map_cons (fun s => escapeCSV env (JStr s))).
    rewrite join_cons. apply in_or_app. right. left. reflexivity.
Qed.

(** *** Files *)

Lemma header_line_readable : readable header_line.
Proof. repeat split; vm_compute; reflexivity. Qed.

Lemma header_line_names : map header_name (split 44 header_line) = headers.
Proof. vm_compute. reflexivity. Qed.

Lemma filter_all {A} (f : A -> bool) (l : list A) :
  Forall (fun x => f x = true) l -> List.filter f l = l.
Proof.
  induction 1 as [|x l Hx _ IH]; [reflexivity|].
  cbn [List.filter]. rewrite Hx, IH. reflexivity.
Qed.

Lemma lines_well_formed (l0 : jsstring) (lines : list jsstring) :
  Forall readable (l0 :: lines) -> well_formed (join [10] (l0 :: lines)) = true.
Proof.
  intros H. apply join_well_formed; [reflexivity|].
  eapply Forall_impl; [exact H|]. intros l [Hl _]. exact Hl.
Qed.

Lemma read_saved_lines (l0 : jsstring) (lines : list jsstring) :
  Forall readable (l0 :: lines) ->
  List.filter (fun line => truthy (JStr (trim line)))
    (split 10 (utf8_decode (utf8_encode (join [10] (l0 :: lines)))))
  = l0 :: lines.
Proof.
  intros H. rewrite utf8_round_trip by (apply lines_well_formed; exact H).
  rewrite split_join
    by (eapply Forall_impl; [exact H|]; intros l [_ [Hl _]]; exact Hl).
  apply filter_all. eapply Forall_impl; [exact H|]. intros l [_ [_ Hl]]. exact Hl.
Qed.

Lemma read_appended_lines (l0 : jsstring) (lines : list jsstring) :
  Forall readable (l0 :: lines) ->
  List.filter (fun line => truthy (JStr (trim line)))
    (split 10 (utf8_decode (utf8_encode (join [10] (l0 :: lines) ++ [10]))))
  = l0 :: lines.
Proof.
  intros H.
  assert (Hsnoc : join [10] (l0 :: lines) ++ [10] = join [10] ((l0 :: lines) ++ [[]])).
  { rewrite join_snoc. rewrite app_nil_r. reflexivity. }
  rewrite Hsnoc.
  rewrite utf8_round_trip.
  2:{ rewrite <- Hsnoc. rewrite well_formed_app by (apply lines_well_formed; exact H).
      reflexivity. }
  change ((l0 :: lines) ++ [[]]) with (l0 :: (lines ++ [[]])).
  rewrite split_join.
  2:{ change (l0 :: (lines ++ [[]])) with ((l0 :: lines) ++ [[]]).
      apply Forall_app. split.
      - eapply Forall_impl; [exact H|]. intros l [_ [Hl _]]. exact Hl.
      - repeat constructor. }
  change (l0 :: (lines ++ [[]])) with ((l0 :: lines) ++ [[]]).
  rewrite List.filter_app.
  rewrite (filter_all _ (l0 :: lines))
    by (eapply Forall_impl; [exact H|]; intros l [_ [_ Hl]]; exact Hl).
  exact (app_nil_r (l0 :: lines)).
Qed.

Section Directory.

Variable path_join : jsstring -> jsstring.

Lemma append_to_lines (env : Env) (data : jsobj) (filename : jsstring) (files : Files)
    (l0 : jsstring) (lines : list jsstring) :
  exportable data = true ->
  Forall readable (l0 :: lines) ->
  files !! path_join (with_extension filename)
    = Some (utf8_encode (join [10] (l0 :: lines) ++ [10])) ->
  snd (appendToCSV path_join env (JObj data) filename files)
    !! path_join (with_extension filename)
  = Some (utf8_encode (join [10] ((l0 :: lines) ++ [line_of env data]) ++ [10])).
Proof.
  intros Hdata Hlines Hfile. unfold appendToCSV.
  rewrite Hfile. destruct (row_of_exportable env data Hdata) as [-> _].
  cbn [snd]. rewrite lookup_insert_eq. rewrite Hfile. cbn [default id].
  f_equal. rewrite <- utf8_encode_app.
  2:{ rewrite well_formed_app by (apply lines_well_formed; exact Hlines). reflexivity. }
  f_equal. rewrite join_snoc. unfold line_of. rewrite <- !app_assoc. reflexivity.
Qed.

Lemma append_to_absent (env : Env) (data : jsobj) (filename : jsstring) (files : Files) :
  exportable data = true ->
  files !! path_join (with_extension filename) = None ->
  snd (appendToCSV path_join env (JObj data) filename files)
    !! path_join (with_extension filename)
  = Some (utf8_encode (join [10] [header_line; line_of env data] ++ [10])).
Proof.
  intros Hdata Hfile. unfold appendToCSV.
  rewrite Hfile. destruct (row_of_exportable env data Hdata) as [-> _].
  cbn [snd]. rewrite !lookup_insert_eq. cbn [default id].
  rewrite <- utf8_encode_app by reflexivity.
  unfold line_of, header_line. rewrite join_cons. cbn [join].
  rewrite <- !app_assoc. reflexivity.
Qed.

Lemma append_all_lines (env : Env) (filename : jsstring) (datas : list jsobj) :
  forall (files : Files) (l0 : jsstring) (lines : list jsstring),
    Forall (fun d => exportable d = true) datas ->
    Forall readable (l0 :: lines) ->
    files !! path_join (with_extension filename)
      = Some (utf8_encode (join [10] (l0 :: lines) ++ [10])) ->
    append_all path_join env (map JObj datas) filename files
      !! path_join (with_extension filename)
    = Some (utf8_encode (join [10] ((l0 :: lines) ++ map (line_of env) datas) ++ [10])).
Proof.
  induction datas as [|d ds IH]; intros files l0 lines Hdatas Hlines Hfile.
  - cbn [map append_all]. rewrite app_nil_r. exact Hfile.
  - cbn [map append_all].
    pose proof (Forall_inv Hdatas) as Hd. pose proof (Forall_inv_tail Hdatas) as Hds.
    change (l0 :: lines) with ([l0] ++ lines).
    rewrite (IH _ l0 (lines ++ [line_of env d]) Hds).
    + cbn [app]. rewrite <- app_assoc. reflexivity.
    + change (l0 :: lines ++ [line_of env d]) with ((l0 :: lines) ++ [line_of env d]).
      apply Forall_app. split; [exact Hlines|].
      constructor; [apply line_of_readable; exact Hd|constructor].
    + apply (append_to_lines env d filename files l0 lines Hd Hlines Hfile).
Qed.

Lemma read_lines_of (env : Env) (datas : list jsobj) :
  map (fun line => record_of headers 0 (parseCSVLine line) ∅) (map (line_of env) datas)
  = map record_read datas.
Proof.
  rewrite map_map. apply map_ext. intros d. apply line_of_parsed.
Qed.

Lemma lines_readable (env : Env) (datas : list jsobj) :
  Forall (fun d => exportable d = true) datas ->
  Forall readable (header_line :: map (line_of env) datas).
Proof.
  intros H. constructor; [exact header_line_readable|].
  apply Forall_map. eapply Forall_impl; [exact H|].
  intros d Hd. apply line_of_readable. exact Hd.
Qed.

(** X3. Rows appended to a file that did not exist are read back: after
    [appendToCSV] has been called for each of [datas], in order,
    [readCSV] returns one record per row, in the same order, each holding
    under every header the trimmed value of its column. The values may
    contain commas and double quotes where the column is escaped. *)
Theorem appended_rows_are_read_back (env : Env) (datas : list jsobj)
    (filename : jsstring) (files : Files) :
  files !! path_join (with_extension filename) = None ->
  datas <> [] ->
  Forall (fun d => exportable d = true) datas ->
  readCSV path_join filename (append_all path_join env (map JObj datas) filename files)
  = Some (map record_read datas).
Proof.
  intros Hfile Hne Hdatas. destruct datas as [|d ds]; [congruence|].
  pose proof (Forall_inv Hdatas) as Hd. pose proof (Forall_inv_tail Hdatas) as Hds.
  pose proof (lines_readable env (d :: ds) Hdatas) as Hread.
  cbn [map append_all]. unfold readCSV.
  rewrite (append_all_lines env filename ds _ header_line [line_of env d] Hds).
  - cbn [mbind option_bind].
    change ((header_line :: [line_of env d]) ++ map (line_of env) ds)
      with (header_line :: map (line_of env) (d :: ds)).
    rewrite (read_appended_lines _ _ Hread).
    rewrite header_line_names, read_lines_of. reflexivity.
  - constructor; [exact header_line_readable|].
    constructor; [apply line_of_readable; exact Hd|constructor].
  - apply (append_to_absent env d filename files Hd Hfile).
Qed.

Lemma rows_of_exportable (env : Env) (datas : list jsobj) :
  Forall (fun d => exportable d = true) datas ->
  rows_of env (map JObj datas) = Some (map (line_of env) datas).
Proof.
  induction 1 as [|d ds Hd _ IH]; [reflexivity|].
  cbn [map rows_of]. destruct (row_of_exportable env d Hd) as [-> _].
  rewrite IH. reflexivity.
Qed.

(** X4. What [saveToCSV] writes is read back by [readCSV]: one record per
    item, in order, each holding under every header the trimmed value of
    its column; an empty array is rejected and nothing is written. *)
Theorem saved_rows_are_read_back (env : Env) (today : jsstring) (d : jsobj)
    (ds : list jsobj) (filename : jsstring) (files : Files) :
  filename <> [] ->
  Forall (fun d => exportable d = true) (d :: ds) ->
  (exists path files',
     saveToCSV path_join env today (JArr (map JObj (d :: ds))) (JStr filename) files
       = (Some path, files')
     /\ readCSV path_join filename files' = Some (map record_read (d :: ds)))
  /\ saveToCSV path_join env today (JArr []) (JStr filename) files = (None, files).
Proof.
  intros Hname Hdatas. split; [|reflexivity].
  pose proof (lines_readable env (d :: ds) Hdatas) as Hread.
  unfold saveToCSV.
  change (map JObj (d :: ds)) with (JObj d :: map JObj ds).
  cbv iota.
  destruct filename as [|c filename]; [congruence|].
  change (negb (truthy (JStr (c :: filename)))) with false. cbv iota.
  change (JObj d :: map JObj ds) with (map JObj (d :: ds)).
  rewrite (rows_of_exportable env (d :: ds) Hdatas).
  eexists _, _. split; [reflexivity|].
  unfold readCSV. rewrite lookup_insert_eq. cbn [mbind option_bind].
  fold header_line.
  rewrite (read_saved_lines _ _ Hread).
  rewrite header_line_names, read_lines_of. reflexivity.
Qed.

End Directory.

(** What [readCSV] gives for the first sample row: the comma and the
    double quotes are back, the blanks around the clinic name are gone. *)
Lemma record_read_row1 :
  record_read Samples.row1
  = Samples.obj
      [("Doctor Name"%string, JStr (js "Rao, " ++ [34] ++ js "Asha" ++ [34])%list);
       ("Clinic/Hospital Name"%string, Samples.str "City Clinic");
       ("Phone Number"%string, Samples.str "+91 98765 43210");
       ("Email ID"%string, Samples.str "rao@example.org");
       ("City"%string, Samples.str "Pune");
       ("Call Date"%string, Samples.str "2023-11-14");
       ("Call Time"%string, Samples.str "2023-11-14T22:13:20.000Z");
       ("Execution ID"%string, Samples.str "E1")].
Proof. vm_cast_no_check (eq_refl (record_read Samples.row1)). Qed.

Lemma appended_rows_are_read_back_witness :
  readCSV Samples.export_path (js "doctor_data")
    (append_all Samples.export_path Samples.offline
       [JObj Samples.row1; JObj Samples.row2] (js "doctor_data") ∅)
  = Some [record_read Samples.row1; record_read Samples.row2].
Proof.
  apply (appended_rows_are_read_back Samples.export_path Samples.offline
           [Samples.row1; Samples.row2] (js "doctor_data") ∅).
  - reflexivity.
  - discriminate.
  - repeat constructor.
Defined.

Lemma saved_rows_are_read_back_witness :
  (exists path files',
     saveToCSV Samples.export_path Samples.offline (js "2023-11-14T22:13:20.000Z")
       (JArr [JObj Samples.row1; JObj Samples.row2]) (JStr (js "export")) ∅
       = (Some path, files')
     /\ readCSV Samples.export_path (js "export") files'
        = Some [record_read Samples.row1; record_read Samples.row2])
  /\ saveToCSV Samples.export_path Samples.offline (js "2023-11-14T22:13:20.000Z")
       (JArr []) (JStr (js "export")) ∅ = (None, ∅).
Proof.
  apply (saved_rows_are_read_back Samples.export_path Samples.offline
           (js "2023-11-14T22:13:20.000Z") Samples.row1 [Samples.row2] (js "export") ∅).
  - discriminate.
  - repeat constructor.
Defined.

(** ** Further properties of the extractor *)

(** X5. The two sanitizers agree and are idempotent: [sanitizeCustomValue]
    is [sanitizeValue] with the sentinel in place of the empty string, and
    sanitizing a value that has been sanitized changes nothing. *)
Theorem sanitizers_agree_and_are_idempotent (value : jsval) :
  sanitizeCustomValue value
    = match sanitizeValue value with [] => not_found | trimmed => trimmed end
  /\ sanitizeValue (JStr (sanitizeValue value)) = sanitizeValue value
  /\ sanitizeCustomValue (JStr (sanitizeCustomValue value)) = sanitizeCustomValue value.
Proof.
  destruct value as [| |b|x|s|t|l|o];
    try (unfold sanitizeCustomValue, sanitizeValue; cbn [is_string negb];
         rewrite ?orb_true_r; repeat split; reflexivity).
  destruct s as [|c s]; [repeat split; reflexivity|].
  unfold sanitizeCustomValue, sanitizeValue.
  change (negb (truthy (JStr (c :: s))) || negb (is_string (JStr (c :: s)))) with false.
  cbv iota.
  pose proof (trim_idempotent (c :: s)) as Hidem.
  destruct (trim (c :: s)) as [|t ts] eqn:Et.
  - repeat split; reflexivity.
  - change (truthy (JStr (t :: ts))) with true.
    change (negb true || negb (is_string (JStr (t :: ts)))) with false.
    cbv iota. rewrite Hidem. repeat split; reflexivity.
Qed.

Lemma from_first_skips (c : N) (prefix rest : jsstring) :
  Forall (fun x => x <> c) prefix ->
  from_first c (prefix ++ c :: rest) = Some (c :: rest).
Proof.
  induction 1 as [|x prefix Hx _ IH]; cbn [app from_first].
  - rewrite N.eqb_refl. reflexivity.
  - apply N.eqb_neq in Hx. rewrite Hx. exact IH.
Qed.

Lemma from_first_none (c : N) (s : jsstring) :
  Forall (fun x => x <> c) s -> from_first c s = None.
Proof.
  induction 1 as [|x s Hx _ IH]; [reflexivity|].
  cbn [from_first]. apply N.eqb_neq in Hx. rewrite Hx. exact IH.
Qed.

(** X6. The fallback of the reply decoding takes what lies between the
    first opening brace and the last closing brace: text before and after
    a JSON object is dropped, and a reply without an opening brace has no
    match. *)
Theorem outermost_braces_are_matched (prefix inner suffix : jsstring) :
  Forall (fun c => c <> 123) prefix ->
  Forall (fun c => c <> 125) suffix ->
  brace_match (prefix ++ [123] ++ inner ++ [125] ++ suffix) = Some ([123] ++ inner ++ [125])
  /\ brace_match prefix = None
  /\ forall env,
       parse_reply env (JStr (prefix ++ [123] ++ inner ++ [125] ++ suffix))
       = match JSON_parse env (strip_fence (prefix ++ [123] ++ inner ++ [125] ++ suffix)) with
         | Some extractedData => Some extractedData
         | None => JSON_parse env ([123] ++ inner ++ [125])
         end.
Proof.
  intros Hprefix Hsuffix.
  assert (Hmatch : brace_match (prefix ++ [123] ++ inner ++ [125] ++ suffix)
                   = Some ([123] ++ inner ++ [125])).
  { unfold brace_match.
    change (prefix ++ [123] ++ inner ++ [125] ++ suffix)
      with (prefix ++ 123 :: (inner ++ 125 :: suffix)).
    rewrite (from_first_skips 123 prefix _ Hprefix). cbn [mbind option_bind tail].
    rewrite rev_app_distr. cbn [rev]. rewrite <- app_assoc. cbn [app].
    rewrite (from_first_skips 125 (rev suffix) (rev inner)).
    - cbn [mbind option_bind rev]. rewrite rev_involutive. reflexivity.
    - apply List.Forall_rev. exact Hsuffix. }
  split; [exact Hmatch|]. split.
  - unfold brace_match. rewrite (from_first_none 123 prefix Hprefix). reflexivity.
  - intros env. unfold parse_reply. rewrite Hmatch. reflexivity.
Qed.

Lemma outermost_braces_are_matched_witness :
  brace_match (js "Here it is: " ++ [123] ++ js "x:{y}" ++ [125] ++ js " Done.")
    = Some ([123] ++ js "x:{y}" ++ [125])
  /\ brace_match (js "Here it is: ") = None
  /\ forall env,
       parse_reply env (JStr (js "Here it is: " ++ [123] ++ js "x:{y}" ++ [125] ++ js " Done."))
       = match JSON_parse env
                 (strip_fence (js "Here it is: " ++ [123] ++ js "x:{y}" ++ [125]
                               ++ js " Done.")) with
         | Some extractedData => Some extractedData
         | None => JSON_parse env ([123] ++ js "x:{y}" ++ [125])
         end.
Proof.
  apply (outermost_braces_are_matched (js "Here it is: ") (js "x:{y}") (js " Done.")).
  - repeat constructor; discriminate.
  - repeat constructor; discriminate.
Defined.

Lemma trim_of_clean (s : jsstring) :
  starts_clean s -> starts_clean (rev s) -> trim s = s.
Proof.
  intros Hstart Hend. unfold trim.
  rewrite (trimStart_of_clean s Hstart). apply trimEnd_of_clean. exact Hend.
Qed.

Lemma drop_closing_fence_last (s : jsstring) :
  drop_closing_fence (s ++ js "```") = s.
Proof.
  unfold drop_closing_fence, ends_with.
  rewrite (rev_app_distr s).
  change (rev (js "```")) with [96; 96; 96].
  change (rev (js "```" ++ [10])) with [10; 96; 96; 96].
  change (starts_with [10; 96; 96; 96] ([96; 96; 96] ++ rev s)) with false.
  change (starts_with [96; 96; 96] ([96; 96; 96] ++ rev s)) with true.
  cbv iota.
  rewrite length_app. change (length (js "```")) with 3%nat.
  replace (length s + 3 - 3)%nat with (length s) by lia.
  apply take_app_length.
Qed.

(** X7. A reply inside a markdown code fence is unwrapped before it is
    parsed: for every body, the fence that opens the reply (with or
    without the json tag), the line feed after it and the closing fence
    are removed, so that an object written inside a fence is decoded like
    the bare object. *)
Theorem fenced_reply_is_unwrapped (body : jsstring) :
  strip_fence (js "```json" ++ [10] ++ body ++ [10] ++ js "```") = body ++ [10]
  /\ strip_fence (js "```" ++ [10] ++ body ++ [10] ++ js "```") = body ++ [10]
  /\ forall env extractedData,
       JSON_parse env (body ++ [10]) = Some extractedData ->
       parse_reply env (JStr (js "```json" ++ [10] ++ body ++ [10] ++ js "```"))
       = Some extractedData.
Proof.
  assert (Hjson : strip_fence (js "```json" ++ [10] ++ body ++ [10] ++ js "```")
                  = body ++ [10]).
  { unfold strip_fence.
    rewrite trim_of_clean.
    - change (js "```json" ++ [10] ++ body ++ [10] ++ js "```")
        with (96 :: 96 :: 96 :: 106 :: 115 :: 111 :: 110 :: 10
              :: (body ++ [10] ++ js "```")).
      change (starts_with (js "```json")
                (96 :: 96 :: 96 :: 106 :: 115 :: 111 :: 110 :: 10
                 :: (body ++ [10] ++ js "```"))) with true.
      cbv iota. unfold drop_fence. cbn [drop].
      rewrite (app_assoc body [10] (js "```")).
      apply drop_closing_fence_last.
    - reflexivity.
    - rewrite !app_assoc, rev_app_distr. reflexivity. }
  split; [exact Hjson|]. split.
  - unfold strip_fence.
    rewrite trim_of_clean.
    + change (js "```" ++ [10] ++ body ++ [10] ++ js "```")
        with (96 :: 96 :: 96 :: 10 :: (body ++ [10] ++ js "```")).
      change (starts_with (js "```json")
                (96 :: 96 :: 96 :: 10 :: (body ++ [10] ++ js "```"))) with false.
      change (starts_with (js "```")
                (96 :: 96 :: 96 :: 10 :: (body ++ [10] ++ js "```"))) with true.
      cbv iota. unfold drop_fence. cbn [drop].
      rewrite (app_assoc body [10] (js "```")).
      apply drop_closing_fence_last.
    + reflexivity.
    + rewrite !app_assoc, rev_app_distr. reflexivity.
  - intros env extractedData Hparse. unfold parse_reply.
    rewrite Hjson, Hparse. reflexivity.
Qed.

(** ** Further properties of the doctor-info extractor *)

(** X8. Without a language model, or when its answer cannot be used (the
    request throws, the body has no content, the content does not decode,
    or it decodes to null), [extractDoctorInfo] returns what the patterns
    of [extractWithRegex] find in the transcript. *)
Theorem unusable_answer_falls_back_to_patterns (env : Env) (text : jsstring) (w : World) :
  text <> [] ->
  (useAI env = false ->
   extractDoctorInfo env (JStr text) w = (Ok (extractWithRegex env text), w))
  /\ (useAI env = true ->
      doctor_reply env text (trace w) ≫= (fun d => get_prop d (js "doctor_name")) = None ->
      extractDoctorInfo env (JStr text) w
      = (Ok (extractWithRegex env text), add_events [EvOpenAIDoctor text] w)).
Proof.
  intros Htext. destruct text as [|c text]; [congruence|].
  unfold extractDoctorInfo.
  change (negb (truthy (JStr (c :: text))) || negb (is_string (JStr (c :: text))))
    with false. cbv iota.
  split; intros Hai; rewrite Hai; [reflexivity|].
  unfold doctor_reply, try_catch at 1, extractWithAI, try_catch, bind, call, must.
  destruct (openai_doctor env (trace w) (c :: text)) as [data|]; [|reflexivity].
  unfold ret at 1. cbn [mbind option_bind].
  destruct (response_content data) as [content|]; [|reflexivity].
  unfold ret at 1. cbn [mbind option_bind].
  destruct (parse_reply env content) as [extractedData|]; [|reflexivity].
  unfold ret at 1. cbn [mbind option_bind].
  intros Hnull. rewrite Hnull. reflexivity.
Qed.

Lemma unusable_answer_falls_back_to_patterns_witness :
  let env := Samples.studio (fun _ => false) "Rao" true in
  (useAI env = false ->
   extractDoctorInfo env (JStr (js "I am Dr. Rao")) Samples.empty_world
   = (Ok (extractWithRegex env (js "I am Dr. Rao")), Samples.empty_world))
  /\ (useAI env = true ->
      doctor_reply env (js "I am Dr. Rao") (trace Samples.empty_world)
        ≫= (fun d => get_prop d (js "doctor_name")) = None ->
      extractDoctorInfo env (JStr (js "I am Dr. Rao")) Samples.empty_world
      = (Ok (extractWithRegex env (js "I am Dr. Rao")),
         add_events [EvOpenAIDoctor (js "I am Dr. Rao")] Samples.empty_world)).
Proof.
  apply (unusable_answer_falls_back_to_patterns
           (Samples.studio (fun _ => false) "Rao" true) (js "I am Dr. Rao")
           Samples.empty_world).
  discriminate.
Defined.

(** ** Further properties of the extraction-and-delivery step *)

Lemma extractDoctorInfo_no_text (env : Env) (transcript : jsval) :
  no_text transcript -> extractDoctorInfo env transcript = ret getEmptyDoctorInfo.
Proof.
  intros H. unfold extractDoctorInfo.
  destruct transcript as [| |b|x|s|t|l|o];
    try (cbn [is_string negb]; rewrite ?orb_true_r; reflexivity).
  rewrite (H s eq_refl). reflexivity.
Qed.

Lemma extractWithCustomFields_no_text (env : Env) (transcript : jsval)
    (customFields : list CustomField) :
  no_text transcript ->
  extractWithCustomFields env transcript customFields
  = ret (getEmptyCustomFieldsData customFields).
Proof.
  intros H. unfold extractWithCustomFields.
  destruct transcript as [| |b|x|s|t|l|o];
    try (cbn [is_string negb]; rewrite ?orb_true_r; reflexivity).
  rewrite (H s eq_refl). reflexivity.
Qed.

Lemma fill_values (P : jsval -> Prop) (g : CustomField -> jsstring)
    (customFields : list CustomField) :
  (forall f, P (JStr (g f))) ->
  forall result : jsobj,
    (forall k v, result !! k = Some v -> P v) ->
    forall k v, fill g customFields result !! k = Some v -> P v.
Proof.
  intros Hg. induction customFields as [|f fs IH]; intros result Hresult k v.
  - exact (Hresult k v).
  - cbn [fill foldl]. apply IH. intros k' v' Hset.
    apply set_text_lookup_inv in Hset. destruct Hset as [->|Hset];
      [apply Hg|exact (Hresult k' v' Hset)].
Qed.

Lemma nothing_found (customFields : list CustomField) :
  some_found (getEmptyCustomFieldsData customFields) = false.
Proof.
  rewrite getEmptyCustomFieldsData_fill. unfold some_found.
  destruct (existsb _ _) eqn:E; [|reflexivity].
  apply existsb_exists in E as [[k v] [Hin Hv]].
  apply list_elem_of_In, elem_of_map_to_list in Hin.
  apply (fill_values (fun v => is_not_found v = true)) in Hin.
  - cbn [snd] in Hv. rewrite Hin in Hv. discriminate Hv.
  - intros f. cbn [is_not_found]. apply bool_decide_eq_true. reflexivity.
  - intros k' v'. rewrite lookup_empty. discriminate.
Qed.

(** X9. The doctor-info step does nothing for an execution whose
    transcript is not a string or is the empty string: no call to the
    language model, no row, nothing saved, and the execution stays
    unprocessed. *)
Theorem doctor_step_needs_text (env : Env) (execution : jsobj) (w : World) :
  no_text (field execution k_transcript) ->
  processTranscriptForExtraction DoctorInfoMode env execution w = (Ok execution, w).
Proof.
  intros Htext. cbn [processTranscriptForExtraction].
  unfold processTranscriptForExtraction_doctor.
  destruct (already_processed execution); [reflexivity|].
  rewrite (extractDoctorInfo_no_text env _ Htext). reflexivity.
Qed.

Lemma doctor_step_needs_text_witness :
  let execution := <[k_transcript := JNum 42]> Samples.fresh_execution in
  processTranscriptForExtraction DoctorInfoMode (Samples.studio (fun _ => true) "Rao" true)
    execution Samples.empty_world
  = (Ok execution, Samples.empty_world).
Proof.
  apply (doctor_step_needs_text (Samples.studio (fun _ => true) "Rao" true)
           (<[k_transcript := JNum 42]> Samples.fresh_execution) Samples.empty_world).
  intros s Hs. vm_compute in Hs. discriminate Hs.
Defined.

(** X10. The custom-fields step does nothing (no call to the language
    model, no row, nothing saved) when the agent of the execution is
    unknown, when the agent has no client, when the client has no active
    field, and, unless empty extractions are to be saved, when the
    transcript is not a string or is empty. *)
Theorem custom_step_quiet_exits (env : Env) (execution : jsobj) (w : World) :
  truthy (agent_of env execution) = false
  \/ truthy (get_opt (agent_of env execution) (js "client_id")) = false
  \/ fields_of env execution = []
  \/ (no_text (field execution k_transcript) /\ SAVE_EMPTY_EXTRACTIONS env = false) ->
  processTranscriptForExtraction CustomFieldsMode env execution w = (Ok execution, w).
Proof.
  intros H. cbn [processTranscriptForExtraction].
  unfold processTranscriptForExtraction_custom.
  destruct (already_processed execution); [reflexivity|].
  fold (agent_of env execution). fold (fields_of env execution).
  destruct (truthy (agent_of env execution)) eqn:Hagent; [|reflexivity].
  destruct (truthy (get_opt (agent_of env execution) (js "client_id"))) eqn:Hclient;
    [|reflexivity].
  cbn [negb orb]. cbv iota.
  destruct (fields_of env execution) as [|f fs] eqn:Hfields; [reflexivity|].
  destruct H as [H | [H | [H | [Htext Hsave]]]]; try discriminate H.
  cbn [length Nat.eqb]. cbv iota.
  rewrite (extractWithCustomFields_no_text env _ _ Htext).
  unfold try_catch, bind, ret.
  rewrite nothing_found, Hsave. reflexivity.
Qed.

Lemma custom_step_quiet_exits_witness :
  let env := Samples.studio (fun _ => true) "Pune" true in
  let execution := <[k_transcript := JStr []]> Samples.fresh_execution in
  processTranscriptForExtraction CustomFieldsMode env execution Samples.empty_world
  = (Ok execution, Samples.empty_world).
Proof.
  apply (custom_step_quiet_exits (Samples.studio (fun _ => true) "Pune" true)
           (<[k_transcript := JStr []]> Samples.fresh_execution) Samples.empty_world).
  right. right. right. split; [|reflexivity].
  intros s Hs. vm_compute in Hs. injection Hs as <-. reflexivity.
Defined.

(** ** Further properties of the reconciler and of the sync *)

Lemma upsert_skipped (v : Version) (env : Env) (agentId executionData : jsval) (w : World) :
  skipped executionData = true ->
  upsertExecution v env agentId executionData w
  = (Ok JUndefined, add_events [EvReconcile executionData] w).
Proof.
  unfold skipped, upsertExecution. intros H.
  unfold bind at 1, emit. rewrite try_rethrow.
  destruct (get_prop executionData (js "id")) as [id|]; [|discriminate].
  unfold bind, must, ret. rewrite H. reflexivity.
Qed.

Lemma upsert_each_skipped (v : Version) (env : Env) (agentId : jsval) (items : list jsval) :
  Forall (fun r => skipped r = true) items ->
  forall (totalSynced : N) (w : World),
    upsert_each v env agentId items totalSynced w
    = (Ok (totalSynced + N.of_nat (length items)), add_events (map EvReconcile items) w).
Proof.
  induction 1 as [|r items Hr _ IH]; intros totalSynced w.
  - cbn [upsert_each length map]. rewrite add_events_nil, N.add_0_r. reflexivity.
  - cbn [upsert_each]. unfold bind at 1, try_catch, bind at 1.
    rewrite (upsert_skipped v env agentId r w Hr). unfold ret at 1 2.
    rewrite IH, add_events_app. cbn [length map app]. f_equal. f_equal. lia.
Qed.

Lemma sync_page_step (fuel : nat) (v : Version) (env : Env) (bolnaAgentId agentId : jsval)
    (pageNumber totalSynced n : N) (w w1 : World) (response : jsval) (records : list jsval) :
  bolna_executions env (trace w) bolnaAgentId pageNumber = Some response ->
  page_records response = Some records ->
  upsert_each v env agentId records totalSynced
    (add_events [EvFetchExecutions bolnaAgentId pageNumber] w) = (Ok n, w1) ->
  sync_pages (S fuel) v env bolnaAgentId agentId pageNumber totalSynced w
  = (if truthy (js_or (get_opt response (js "has_more")) (JBool false))
     then sync_pages fuel v env bolnaAgentId agentId (pageNumber + 1) n w1
     else (Ok n, w1)).
Proof.
  intros Hfetch Hrecords Heach. unfold page_records in Hrecords.
  destruct (get_prop response (js "data")) as [data|] eqn:Hdata; [|discriminate].
  simpl in Hrecords.
  simpl sync_pages. unfold bind at 1, fetchExecutionsForAgent.
  rewrite try_rethrow. unfold bind at 1, call. rewrite Hfetch. unfold ret at 1.
  unfold bind at 1. rewrite Hdata. simpl must. unfold ret at 1.
  unfold bind at 1. rewrite Hrecords. simpl must. unfold ret at 1.
  unfold bind at 1. rewrite Heach.
  destruct (truthy (js_or (get_opt response (js "has_more")) (JBool false))); reflexivity.
Qed.

Lemma sync_fetch_fails (fuel : nat) (v : Version) (env : Env) (bolnaAgentId agentId : jsval)
    (pageNumber totalSynced : N) (w : World) :
  bolna_executions env (trace w) bolnaAgentId pageNumber = None ->
  sync_pages (S fuel) v env bolnaAgentId agentId pageNumber totalSynced w
  = (Throw "request failed", add_events [EvFetchExecutions bolnaAgentId pageNumber] w).
Proof.
  intros Hfetch. simpl sync_pages. unfold bind at 1, fetchExecutionsForAgent.
  rewrite try_rethrow. unfold bind at 1, call. rewrite Hfetch. reflexivity.
Qed.

(** X11. A record without id is counted though nothing is stored for it:
    when the only page of an agent holds records that can be read and
    carry no usable id, the sync reports as many executions synced as the
    page has records, and the collection is as it was. *)
Theorem records_without_id_are_counted (v : Version) (env : Env) (bolnaAgentId : jsval)
    (response : jsval) (items : list jsval) (w : World) (fuel : nat) :
  truthy (Agent_findOne env bolnaAgentId) = true ->
  bolna_executions env (trace w) bolnaAgentId 1 = Some response ->
  page_records response = Some items ->
  truthy (get_opt response (js "has_more")) = false ->
  Forall (fun r => skipped r = true) items ->
  (1 <= fuel)%nat ->
  exists w',
    syncExecutionsForAgent fuel v env bolnaAgentId w = (Ok (N.of_nat (length items)), w')
    /\ executions w' = executions w
    /\ trace w' = trace w ++ EvFetchExecutions bolnaAgentId 1 :: map EvReconcile items.
Proof.
  intros Hagent Hfetch Hrecords Hmore Hitems Hfuel.
  destruct fuel as [|fuel]; [lia|].
  eexists. split.
  - unfold syncExecutionsForAgent, try_catch. rewrite Hagent.
    change (negb true) with false. cbv match.
    rewrite (sync_page_step fuel v env bolnaAgentId _ 1 0 _ w _ response items
               Hfetch Hrecords (upsert_each_skipped v env _ items Hitems 0 _)).
    unfold js_or. rewrite Hmore. change (truthy (JBool false)) with false.
    cbv iota. rewrite N.add_0_l. reflexivity.
  - split; [reflexivity|]. cbn [add_events trace]. rewrite <- app_assoc. reflexivity.
Qed.

Lemma records_without_id_are_counted_witness :
  let env := Samples.with_remote (Samples.studio (fun _ => true) "Pune" true)
               (fun _ _ _ => Some Samples.page_of_skipped) in
  exists w',
    syncExecutionsForAgent 1 CustomFieldsMode env (Samples.str "agent-1") Samples.empty_world
      = (Ok 2, w')
    /\ executions w' = ∅
    /\ trace w' = [EvFetchExecutions (Samples.str "agent-1") 1;
                   EvReconcile Samples.nameless; EvReconcile Samples.zero_id].
Proof.
  intros env.
  apply (records_without_id_are_counted CustomFieldsMode env (Samples.str "agent-1")
           Samples.page_of_skipped [Samples.nameless; Samples.zero_id]
           Samples.empty_world 1%nat).
  - reflexivity.
  - reflexivity.
  - reflexivity.
  - reflexivity.
  - repeat constructor.
  - lia.
Defined.

(** X12. A record whose transcript is blank (white space only, empty or
    absent) is stored and not handed to the extraction step: the
    reconciler writes the document, with the transcript as received or the
    empty string, and calls nothing else. *)
Theorem blank_transcript_is_not_extracted (v : Version) (env : Env)
    (agentId executionData executionId : jsval) (w : World) :
  remote_id executionData = Some executionId ->
  blank (get_opt executionData k_transcript) ->
  exists doc,
    upsertExecution v env agentId executionData w
    = (Ok (JObj doc),
       with_execution env executionId doc (add_events [EvReconcile executionData] w))
    /\ doc !! k_transcript = Some (js_or (get_opt executionData k_transcript) (JStr []))
    /\ doc !! k_bolna_execution_id = Some executionId.
Proof.
  intros Hid Hblank.
  pose proof (upsertExecution_with_id v env agentId executionData w executionId Hid) as Hrun.
  cbv zeta in Hrun.
  set (w0 := add_events [EvReconcile executionData] w) in *.
  set (doc := reconciled env agentId executionId executionData (executions w0) (trace w0)) in *.
  assert (Htranscript : doc !! k_transcript
                        = Some (js_or (get_opt executionData k_transcript) (JStr []))).
  { apply reconciled_lookup, executionDoc_transcript. }
  assert (Hfield : field doc k_transcript
                   = js_or (get_opt executionData k_transcript) (JStr [])).
  { unfold field. rewrite Htranscript. reflexivity. }
  exists doc. split; [|split; [exact Htranscript|apply reconciled_lookup, executionDoc_id]].
  rewrite Hrun. unfold has_transcript. rewrite Hfield.
  unfold blank in Hblank.
  destruct (get_opt executionData k_transcript) as [| |b|x|s|t|l|o];
    try discriminate Hblank; try reflexivity.
  - unfold js_or. rewrite Hblank. reflexivity.
  - unfold js_or. rewrite Hblank. reflexivity.
  - destruct s as [|c s]; [reflexivity|].
    change (js_or (JStr (c :: s)) (JStr [])) with (JStr (c :: s)).
    cbv iota. rewrite Hblank. reflexivity.
Qed.

Lemma blank_transcript_is_not_extracted_witness :
  let env := Samples.studio (fun _ => true) "Pune" true in
  let executionData :=
    JObj (Samples.obj [("id"%string, Samples.str "E7");
                       ("transcript"%string, JStr [32; 10; 9; 32])]) in
  exists doc,
    upsertExecution CustomFieldsMode env (Samples.str "a1") executionData Samples.empty_world
    = (Ok (JObj doc),
       with_execution env (Samples.str "E7") doc
         (add_events [EvReconcile executionData] Samples.empty_world))
    /\ doc !! k_transcript = Some (JStr [32; 10; 9; 32])
    /\ doc !! k_bolna_execution_id = Some (Samples.str "E7").
Proof.
  intros env executionData.
  apply (blank_transcript_is_not_extracted CustomFieldsMode env (Samples.str "a1")
           executionData (Samples.str "E7") Samples.empty_world).
  - reflexivity.
  - reflexivity.
Defined.

(** X13. A sync that cannot fetch a later page reports nothing synced,
    although the records of the earlier pages have been reconciled: when
    the first page announces more and the second fetch fails, the result
    is 0 and the world is the one the records of the first page left. *)
Theorem failed_fetch_reports_zero (v : Version) (env : Env) (bolnaAgentId : jsval)
    (page1 : jsval) (records1 : list jsval) (w : World) (fuel : nat) :
  truthy (Agent_findOne env bolnaAgentId) = true ->
  bolna_executions env (trace w) bolnaAgentId 1 = Some page1 ->
  page_records page1 = Some records1 ->
  truthy (get_opt page1 (js "has_more")) = true ->
  (forall tr, fetches tr = S (fetches (trace w)) ->
     bolna_executions env tr bolnaAgentId 2 = None) ->
  (2 <= fuel)%nat ->
  exists n w1,
    upsert_each v env (get_opt (Agent_findOne env bolnaAgentId) (js "_id")) records1 0
      (add_events [EvFetchExecutions bolnaAgentId 1] w) = (Ok n, w1)
    /\ syncExecutionsForAgent fuel v env bolnaAgentId w
       = (Ok 0, add_events [EvFetchExecutions bolnaAgentId 2] w1).
Proof.
  intros Hagent Hfetch Hrecords Hmore Hsecond Hfuel.
  destruct fuel as [|[|fuel]]; try lia.
  set (agentId := get_opt (Agent_findOne env bolnaAgentId) (js "_id")).
  destruct (upsert_each_trace v env agentId records1 0
              (add_events [EvFetchExecutions bolnaAgentId 1] w))
    as (n & w1 & evs & Heach & Htrace & Hevs).
  exists n, w1. split; [exact Heach|].
  assert (Hcount : fetches (trace w1) = S (fetches (trace w))).
  { rewrite Htrace. cbn [add_events trace]. rewrite <- app_assoc.
    apply (fetches_after_page _ _ _ _ records1 Hevs). }
  unfold syncExecutionsForAgent, try_catch. rewrite Hagent.
  change (negb true) with false. cbv match. fold agentId.
  rewrite (sync_page_step (S fuel) v env bolnaAgentId agentId 1 0 n w w1 page1 records1
             Hfetch Hrecords Heach).
  unfold js_or at 1. rewrite Hmore, Hmore. cbv iota. change (1 + 1) with 2.
  rewrite (sync_fetch_fails fuel v env bolnaAgentId agentId 2 n w1 (Hsecond _ Hcount)).
  reflexivity.
Qed.

Lemma failed_fetch_reports_zero_witness :
  let env := Samples.with_remote (Samples.studio (fun _ => true) "Pune" true)
               Samples.broken_after_first in
  exists n w1,
    upsert_each CustomFieldsMode env (Samples.str "a1") [Samples.E1] 0
      (add_events [EvFetchExecutions (Samples.str "agent-1") 1] Samples.empty_world)
      = (Ok n, w1)
    /\ syncExecutionsForAgent 3 CustomFieldsMode env (Samples.str "agent-1")
         Samples.empty_world
       = (Ok 0, add_events [EvFetchExecutions (Samples.str "agent-1") 2] w1).
Proof.
  intros env.
  apply (failed_fetch_reports_zero CustomFieldsMode env (Samples.str "agent-1")
           (JObj (Samples.obj [("data"%string, JArr [Samples.E1]);
                               ("has_more"%string, JBool true)]))
           [Samples.E1] Samples.empty_world 3%nat).
  - reflexivity.
  - reflexivity.
  - reflexivity.
  - reflexivity.
  - intros tr _. reflexivity.
  - lia.
Defined.

(** *** What no sync undoes *)

Section Respect.

Variable R : gmap jsstring jsobj -> gmap jsstring jsobj -> Prop.
Hypothesis R_refl : forall store, R store store.
Hypothesis R_trans : forall a b c, R a b -> R b c -> R a c.

Lemma respects_ret {A} (a : A) : respects R (ret a).
Proof. intros w. apply R_refl. Qed.

Lemma respects_throw {A} (msg : string) : respects R (@throw A msg).
Proof. intros w. apply R_refl. Qed.

Lemma respects_must {A} (o : option A) : respects R (must o).
Proof. destruct o; [apply respects_ret|apply respects_throw]. Qed.

Lemma respects_bind {A B} (c : M A) (k : A -> M B) :
  respects R c -> (forall a, respects R (k a)) -> respects R (bind c k).
Proof.
  intros Hc Hk w. unfold bind. specialize (Hc w).
  destruct (c w) as [[a|msg|] w1]; cbn [snd] in *; try exact Hc.
  apply (R_trans _ _ _ Hc). apply Hk.
Qed.

Lemma respects_try_catch {A} (c : M A) (h : string -> M A) :
  respects R c -> (forall msg, respects R (h msg)) -> respects R (try_catch c h).
Proof.
  intros Hc Hh w. unfold try_catch. specialize (Hc w).
  destruct (c w) as [[a|msg|] w1]; cbn [snd] in *; try exact Hc.
  apply (R_trans _ _ _ Hc). apply Hh.
Qed.

Lemma respects_call {A} (answer : list Event -> A) (ev : A -> Event) :
  respects R (call answer ev).
Proof. intros w. apply R_refl. Qed.

Variables (v : Version) (env : Env).
Hypothesis R_upsert :
  forall agentId executionData, respects R (upsertExecution v env agentId executionData).

Lemma respects_upsert_each (agentId : jsval) (items : list jsval) :
  forall totalSynced, respects R (upsert_each v env agentId items totalSynced).
Proof.
  induction items as [|executionData rest IH]; intros totalSynced.
  - apply respects_ret.
  - cbn [upsert_each]. apply respects_bind; [|intros n; apply IH].
    apply respects_try_catch; [|intros msg; apply respects_ret].
    apply respects_bind; [apply R_upsert|intros x; apply respects_ret].
Qed.

Lemma respects_sync_pages (fuel : nat) (bolnaAgentId agentId : jsval) :
  forall pageNumber totalSynced,
    respects R (sync_pages fuel v env bolnaAgentId agentId pageNumber totalSynced).
Proof.
  induction fuel as [|fuel IH]; intros pageNumber totalSynced.
  - intros w. apply R_refl.
  - cbn [sync_pages].
    apply respects_bind.
    { unfold fetchExecutionsForAgent.
      apply respects_try_catch; [|intros msg; apply respects_throw].
      apply respects_bind; [apply respects_call|].
      intros [data|]; [apply respects_ret|apply respects_throw]. }
    intros response.
    apply respects_bind; [apply respects_must|]. intros data.
    apply respects_bind; [apply respects_must|]. intros items.
    apply respects_bind; [apply respects_upsert_each|]. intros n.
    destruct (truthy _); [apply IH|apply respects_ret].
Qed.

Lemma respects_sync (fuel : nat) (bolnaAgentId : jsval) :
  respects R (syncExecutionsForAgent fuel v env bolnaAgentId).
Proof.
  unfold syncExecutionsForAgent.
  apply respects_try_catch; [|intros msg; apply respects_ret].
  destruct (negb _); [apply respects_throw|apply respects_sync_pages].
Qed.

Lemma respects_sync_agents (fuel : nat) (agents : list jsval) :
  forall totalSynced,
    respects R (BolnaService.sync_agents fuel v env agents totalSynced).
Proof.
  induction agents as [|agent rest IH]; intros totalSynced.
  - apply respects_ret.
  - cbn [BolnaService.sync_agents]. apply respects_bind; [|intros n; apply IH].
    apply respects_try_catch.
    + apply respects_bind; [apply respects_must|]. intros name.
      apply respects_bind; [apply respects_must|]. intros bolna_agent_id.
      apply respects_bind; [apply respects_sync|]. intros synced.
      apply respects_ret.
    + intros msg. apply respects_bind; [apply respects_must|].
      intros x. apply respects_ret.
Qed.

Lemma respects_sync_all (fuel : nat) (agents : option (list jsval)) :
  respects R (BolnaService.syncAllExecutions fuel v env agents).
Proof.
  unfold BolnaService.syncAllExecutions.
  apply respects_try_catch; [|intros msg; apply respects_throw].
  apply respects_bind; [apply respects_must|]. intros documents.
  destruct (Nat.eqb _ _); [apply respects_ret|apply respects_sync_agents].
Qed.

End Respect.

Lemma keeps_refl (store : gmap jsstring jsobj) : keeps_processed store store.
Proof. intros key d Hd Hp. exists d. auto. Qed.

Lemma keeps_trans (a b c : gmap jsstring jsobj) :
  keeps_processed a b -> keeps_processed b c -> keeps_processed a c.
Proof.
  intros Hab Hbc key d Hd Hp.
  destruct (Hab key d Hd Hp) as (d1 & Hd1 & Hp1 & Hsub1).
  destruct (Hbc key d1 Hd1 Hp1) as (d2 & Hd2 & Hp2 & Hsub2).
  exists d2. split; [exact Hd2|]. split; [exact Hp2|].
  etransitivity; eassumption.
Qed.

Lemma keeps_insert_other (store : gmap jsstring jsobj) (key : jsstring) (doc : jsobj) :
  (forall d, store !! key = Some d -> already_processed d = true ->
     already_processed doc = true
     /\ spread (field d k_extracted_data) ⊆ spread (field doc k_extracted_data)) ->
  keeps_processed store (<[key := doc]> store).
Proof.
  intros Hdoc key' d Hd Hp.
  destruct (decide (key = key')) as [<-|Hne].
  - exists doc. rewrite lookup_insert_eq. split; [reflexivity|]. apply (Hdoc d Hd Hp).
  - exists d. rewrite lookup_insert_ne by exact Hne. auto.
Qed.

Lemma reconciled_keeps (env : Env) (agentId executionId executionData : jsval)
    (store : gmap jsstring jsobj) (tr : list Event) (d : jsobj) :
  store !! execution_key env executionId = Some d ->
  already_processed d = true ->
  let doc := reconciled env agentId executionId executionData store tr in
  already_processed doc = true
  /\ spread (field d k_extracted_data) ⊆ spread (field doc k_extracted_data).
Proof.
  intros Hd Hp doc.
  assert (Hfield : field doc k_extracted_data
                   = finalExtractedData_of executionData (Some d)).
  { unfold field, doc.
    rewrite (reconciled_lookup env agentId executionId executionData store tr
               k_extracted_data (finalExtractedData_of executionData (Some d))).
    - reflexivity.
    - rewrite Hd. apply executionDoc_extracted_data. }
  split.
  - rewrite already_processed_field, Hfield.
    apply finalExtractedData_processed. exact Hp.
  - rewrite Hfield. unfold finalExtractedData_of. rewrite Hp.
    cbn [spread]. apply map_union_subseteq_l.
Qed.

Lemma upsert_keeps_processed (v : Version) (env : Env) (agentId executionData : jsval) :
  respects keeps_processed (upsertExecution v env agentId executionData).
Proof.
  intros w.
  destruct (remote_id executionData) as [executionId|] eqn:Hid.
  - destruct (upsert_outcome v env agentId executionData w executionId Hid)
      as (r & w' & evs & Hrun & _ & _ & _ & Hstore).
    rewrite Hrun. cbn [snd].
    destruct Hstore as [-> | (_ & Hfresh & compartment & -> & _ & _)].
    + apply keeps_insert_other. intros d Hd Hp.
      apply (reconciled_keeps env agentId executionId executionData _ _ d Hd Hp).
    + apply keeps_insert_other. intros d Hd Hp.
      destruct (reconciled_keeps env agentId executionId executionData (executions w)
                  (trace w ++ [EvReconcile executionData]) d Hd Hp) as [Hdoc _].
      congruence.
  - destruct (upsert_without_id v env agentId executionData w Hid) as (r & Hrun & _).
    rewrite Hrun. apply keeps_refl.
Qed.

(** X14. No sync of an agent undoes an extraction: whatever the remote
    answers, whatever fails and wherever the loop stops, every execution
    that was processed before [syncExecutionsForAgent] is still stored and
    still processed after it, and its extracted_data compartment has kept
    every key with its value. *)
Theorem sync_keeps_processed_executions (fuel : nat) (v : Version) (env : Env)
    (bolnaAgentId : jsval) (w : World) :
  keeps_processed (executions w)
    (executions (snd (syncExecutionsForAgent fuel v env bolnaAgentId w))).
Proof.
  apply (respects_sync keeps_processed keeps_refl keeps_trans v env
           (upsert_keeps_processed v env)).
Qed.

Lemma well_keyed_insert (env : Env) (store : gmap jsstring jsobj) (key : jsstring)
    (doc : jsobj) :
  execution_key env (field doc k_bolna_execution_id) = key ->
  keeps_keys env store (<[key := doc]> store).
Proof.
  intros Hdoc Hstore key' d.
  destruct (decide (key = key')) as [<-|Hne].
  - rewrite lookup_insert_eq. intros [= <-]. exact Hdoc.
  - rewrite lookup_insert_ne by exact Hne. apply Hstore.
Qed.

Lemma upsert_keeps_keys (v : Version) (env : Env) (agentId executionData : jsval) :
  respects (keeps_keys env) (upsertExecution v env agentId executionData).
Proof.
  intros w.
  destruct (remote_id executionData) as [executionId|] eqn:Hid.
  - destruct (upsert_outcome v env agentId executionData w executionId Hid)
      as (r & w' & evs & Hrun & _ & _ & _ & Hstore).
    rewrite Hrun. cbn [snd].
    destruct Hstore as [-> | (_ & _ & compartment & -> & _ & _)];
      apply well_keyed_insert.
    + rewrite reconciled_id. reflexivity.
    + rewrite field_insert_ne by distinct_keys. rewrite reconciled_id. reflexivity.
  - destruct (upsert_without_id v env agentId executionData w Hid) as (r & Hrun & _).
    rewrite Hrun. intros H. exact H.
Qed.

(** X15. The collection stays keyed by remote id: when every stored
    document is stored under the key of its own remote id before
    [syncExecutionsForAgent], the same holds after it, whatever the remote
    answers and whatever fails; a remote execution never gets a second
    document. *)
Theorem sync_keeps_collection_keyed (fuel : nat) (v : Version) (env : Env)
    (bolnaAgentId : jsval) (w : World) :
  well_keyed env (executions w) ->
  well_keyed env (executions (snd (syncExecutionsForAgent fuel v env bolnaAgentId w))).
Proof.
  apply (respects_sync (keeps_keys env)); try (intros; intros H; auto; fail).
  - intros a b c Hab Hbc H. auto.
  - apply upsert_keeps_keys.
Qed.

Lemma sync_keeps_collection_keyed_witness :
  let env := Samples.studio (fun _ => true) "Pune" true in
  well_keyed env ∅
  /\ well_keyed env
       (executions (snd (syncExecutionsForAgent 5 CustomFieldsMode env
                           (Samples.str "agent-1") Samples.empty_world))).
Proof.
  intros env.
  assert (Hempty : well_keyed env ∅).
  { intros key d Hd. rewrite lookup_empty in Hd. discriminate Hd. }
  split; [exact Hempty|].
  apply (sync_keeps_collection_keyed 5 CustomFieldsMode env (Samples.str "agent-1")
           Samples.empty_world).
  exact Hempty.
Defined.

Import BolnaService.

Lemma sync_agent_does_not_throw (fuel : nat) (v : Version) (env : Env)
    (bolnaAgentId : jsval) (w : World) (msg : string) :
  fst (syncExecutionsForAgent fuel v env bolnaAgentId w) <> Throw msg.
Proof.
  unfold syncExecutionsForAgent, try_catch.
  destruct (negb _); [discriminate|].
  destruct (sync_pages _ _ _ _ _ _ _ w) as [[n|msg'|] w1]; discriminate.
Qed.

Lemma sync_agents_do_not_throw (fuel : nat) (v : Version) (env : Env)
    (agents : list jsval) :
  Forall (fun agent => get_prop agent (js "name") <> None) agents ->
  forall (totalSynced : N) (w : World) (msg : string),
    fst (sync_agents fuel v env agents totalSynced w) <> Throw msg.
Proof.
  induction 1 as [|agent rest Hagent _ IH]; intros totalSynced w msg; [discriminate|].
  cbn [sync_agents]. unfold bind at 1, try_catch, bind at 1, must.
  destruct (get_prop agent (js "name")) as [name|] eqn:Hname; [|congruence].
  unfold ret at 1. unfold bind at 1.
  assert (Hid : exists id, get_prop agent (js "bolna_agent_id") = Some id).
  { destruct agent; try (eexists; reflexivity); discriminate Hname. }
  destruct Hid as [id ->]. unfold ret at 1. unfold bind at 1.
  pose proof (sync_agent_does_not_throw fuel v env id w) as Hsync.
  destruct (syncExecutionsForAgent fuel v env id w) as [[synced|msg'|] w1];
    cbn [fst] in Hsync.
  - unfold ret at 1. apply IH.
  - exfalso. exact (Hsync msg' eq_refl).
  - discriminate.
Qed.

(** X16. [syncAllExecutions] undoes no extraction either: every execution
    that was processed before it is still stored and still processed after
    it, with every key of its extracted_data compartment unchanged. And no
    exception leaves it once the agents are read: a failing fetch or a
    failing record of one agent never stops the sync of the others. *)
Theorem sync_all_keeps_processed_executions (fuel : nat) (v : Version) (env : Env)
    (agents : option (list jsval)) (w : World) :
  keeps_processed (executions w)
    (executions (snd (syncAllExecutions fuel v env agents w)))
  /\ forall documents msg,
       agents = Some documents ->
       Forall (fun agent => get_prop agent (js "name") <> None) documents ->
       fst (syncAllExecutions fuel v env agents w) <> Throw msg.
Proof.
  split.
  - apply (respects_sync_all keeps_processed keeps_refl keeps_trans v env
             (upsert_keeps_processed v env)).
  - intros documents msg -> Hdocuments.
    unfold syncAllExecutions. rewrite try_rethrow.
    unfold bind, must, ret.
    destruct (Nat.eqb _ _); [discriminate|].
    apply sync_agents_do_not_throw. exact Hdocuments.
Qed.

(** *** The refresh of one execution *)

Lemma refreshed_id (execution : jsobj) (a b c : jsval) :
  field (<[js "metadata" := a]>
           (<[k_transcript := b]> (<[k_extracted_data := c]> execution)))
        k_bolna_execution_id
  = field execution k_bolna_execution_id.
Proof. rewrite !field_insert_ne by distinct_keys. reflexivity. Qed.

(** X17. The refresh of one execution keeps what was extracted: for a
    stored execution that is processed, [fetchAndUpdateExecution] stores
    the stored compartment laid over the remote one (the stored value wins
    on every key), the execution stays processed, and the extraction step
    is not run again: nothing but this document is written and no call is
    made. *)
Theorem refresh_keeps_processed_compartment (v : Version) (env : Env)
    (details remote bolnaExecutionId : jsval) (execution : jsobj) (w : World) :
  executions w !! execution_key env bolnaExecutionId = Some execution ->
  execution_key env (field execution k_bolna_execution_id)
    = execution_key env bolnaExecutionId ->
  already_processed execution = true ->
  get_prop details k_extracted_data = Some remote ->
  exists execution',
    snd (fetchAndUpdateExecution v env (Some details) bolnaExecutionId w)
      = with_execution env bolnaExecutionId execution' w
    /\ execution' !! k_extracted_data
       = Some (JObj (spread (field execution k_extracted_data)
                     ∪ spread (js_or remote (JObj ∅))))
    /\ already_processed execution' = true.
Proof.
  intros Hstored Hkey Hprocessed Hremote.
  set (compartment := spread (field execution k_extracted_data)
                      ∪ spread (js_or remote (JObj ∅))).
  set (execution1 :=
         <[js "metadata" :=
             JObj (<[js "recording_url" :=
                       get_opt (get_opt details (js "telephony_data")) (js "recording_url")]>
                     (spread details ∪ spread (field execution (js "metadata"))))]>
           (<[k_transcript := js_or (get_opt details k_transcript)
                                (field execution k_transcript)]>
              (<[k_extracted_data := JObj compartment]> execution))).
  assert (Hc : execution1 !! k_extracted_data = Some (JObj compartment)).
  { unfold execution1. rewrite !lookup_insert_ne by distinct_keys.
    apply lookup_insert_eq. }
  assert (Hp : already_processed execution1 = true).
  { rewrite already_processed_field. unfold field. rewrite Hc. cbn [default].
    rewrite already_processed_field in Hprocessed.
    destruct (compartment_processed_inv _ Hprocessed) as (o & flag & Ho & Hflag & Htruthy).
    apply (compartment_processed_object compartment flag); [|exact Htruthy].
    unfold compartment. rewrite Ho. cbn [spread].
    apply lookup_union_Some_l. exact Hflag. }
  exists execution1. split; [|split; [exact Hc|exact Hp]].
  unfold fetchAndUpdateExecution. rewrite try_rethrow.
  unfold bind at 1, must, ret at 1. unfold bind at 1, findOne. rewrite Hstored.
  unfold bind at 1. rewrite Hremote. unfold ret at 1.
  rewrite Hprocessed. fold compartment. fold execution1.
  assert (Hid1 : field execution1 k_bolna_execution_id
                 = field execution k_bolna_execution_id)
    by (unfold execution1; apply refreshed_id).
  unfold bind at 1, save. rewrite Hid1, Hkey. cbn [executions trace].
  fold (with_execution env bolnaExecutionId execution1 w).
  destruct (truthy (js_or (get_opt details k_transcript) (field execution k_transcript)));
    [|reflexivity].
  destruct (js_or (get_opt details k_transcript) (field execution k_transcript));
    try reflexivity.
  destruct (negb _); [|reflexivity].
  unfold bind. rewrite (step_processed_noop v env execution1 _ Hp). reflexivity.
Qed.

Lemma refresh_keeps_processed_compartment_witness :
  let env := Samples.studio (fun _ => true) "Pune" true in
  let w := {| executions := {[ js "E1" := Samples.processed_execution ]}; trace := [] |} in
  let details :=
    JObj (Samples.obj [("transcript"%string, Samples.str "Hello, this is Dr. Mehta");
                       ("extracted_data"%string,
                        JObj (Samples.obj [("a"%string, JNum 9); ("b"%string, JNum 2)]))]) in
  exists execution',
    snd (fetchAndUpdateExecution CustomFieldsMode env (Some details) (Samples.str "E1") w)
      = with_execution env (Samples.str "E1") execution' w
    /\ execution' !! k_extracted_data
       = Some (JObj (Samples.obj [("a"%string, JNum 1); ("b"%string, JNum 2);
                                  ("_extraction_processed"%string, JBool true)]))
    /\ already_processed execution' = true.
Proof.
  intros env w details.
  apply (refresh_keeps_processed_compartment CustomFieldsMode env details
           (JObj (Samples.obj [("a"%string, JNum 9); ("b"%string, JNum 2)]))
           (Samples.str "E1") Samples.processed_execution w).
  - reflexivity.
  - reflexivity.
  - reflexivity.
  - reflexivity.
Defined.

(** X18. The refresh of one execution never loses a transcript: when the
    remote details carry no transcript, the document stored afterwards has
    the transcript it had before, whether or not the extraction step ran. *)
Theorem refresh_keeps_transcript (v : Version) (env : Env)
    (details remote bolnaExecutionId : jsval) (execution : jsobj) (w : World) :
  executions w !! execution_key env bolnaExecutionId = Some execution ->
  execution_key env (field execution k_bolna_execution_id)
    = execution_key env bolnaExecutionId ->
  get_prop details k_extracted_data = Some remote ->
  truthy (get_opt details k_transcript) = false ->
  exists execution',
    executions (snd (fetchAndUpdateExecution v env (Some details) bolnaExecutionId w))
      !! execution_key env bolnaExecutionId = Some execution'
    /\ execution' !! k_transcript = Some (field execution k_transcript).
Proof.
  intros Hstored Hkey Hremote Hnone.
  unfold fetchAndUpdateExecution. rewrite try_rethrow.
  unfold bind at 1, must, ret at 1. unfold bind at 1, findOne. rewrite Hstored.
  unfold bind at 1. rewrite Hremote. unfold ret at 1.
  assert (Hor : js_or (get_opt details k_transcript) (field execution k_transcript)
                = field execution k_transcript)
    by (unfold js_or; rewrite Hnone; reflexivity).
  rewrite !Hor.
  set (execution1 := <[js "metadata" := _]> (<[k_transcript := _]> (<[k_extracted_data := _]> execution))).
  assert (Ht : execution1 !! k_transcript = Some (field execution k_transcript)).
  { unfold execution1. rewrite lookup_insert_ne by distinct_keys. apply lookup_insert_eq. }
  assert (Hid1 : field execution1 k_bolna_execution_id
                 = field execution k_bolna_execution_id)
    by (unfold execution1; apply refreshed_id).
  unfold bind at 1, save. rewrite Hid1, Hkey. cbn [executions trace].
  set (w1 := {| executions := <[execution_key env bolnaExecutionId := execution1]> (executions w);
                trace := trace w |}).
  assert (Hw1 : executions w1 !! execution_key env bolnaExecutionId = Some execution1)
    by apply lookup_insert_eq.
  destruct (truthy (field execution k_transcript));
    [|exists execution1; split; [exact Hw1|exact Ht]].
  destruct (field execution k_transcript) as [| |b|x|text|t|l|o] eqn:Hfield;
    try (exists execution1; split; [exact Hw1|exact Ht]).
  destruct (negb _); [|exists execution1; split; [exact Hw1|exact Ht]].
  unfold bind.
  destruct (step_cases v env execution1 w1 _ eq_refl) as [Hquiet | Hsaved].
  - destruct Hquiet as (evs & -> & _). unfold ret. cbn [snd add_events executions].
    exists execution1. split; [exact Hw1|exact Ht].
  - destruct Hsaved as (compartment & evs & _ & -> & _).
    unfold saved, ret. cbn [snd executions].
    rewrite Hid1, Hkey. rewrite lookup_insert_eq.
    eexists. split; [reflexivity|].
    rewrite lookup_insert_ne by distinct_keys. exact Ht.
Qed.

Lemma refresh_keeps_transcript_witness :
  let env := Samples.studio (fun _ => true) "Pune" true in
  let w := {| executions := {[ js "E1" := Samples.fresh_execution ]}; trace := [] |} in
  let details := JObj (Samples.obj [("status"%string, Samples.str "completed")]) in
  exists execution',
    executions (snd (fetchAndUpdateExecution CustomFieldsMode env (Some details)
                       (Samples.str "E1") w)) !! js "E1" = Some execution'
    /\ execution' !! k_transcript = Some (Samples.str "I am Dr. Rao from Pune").
Proof.
  intros env w details.
  apply (refresh_keeps_transcript CustomFieldsMode env details JUndefined
           (Samples.str "E1") Samples.fresh_execution w).
  - reflexivity.
  - reflexivity.
  - reflexivity.
  - reflexivity.
Defined.

(** ** The key of the cipher *)

Import GoogleSheets.

Lemma Buffer_from_hex_length (n : nat) :
  forall s : jsstring,
    length s = (2 * n)%nat -> forallb is_hex s = true ->
    length (Buffer_from_hex s) = n.
Proof.
  induction n as [|n IH]; intros s Hlen Hhex.
  - destruct s; [reflexivity|discriminate].
  - destruct s as [|a [|b s]]; try (simpl in Hlen; lia).
    cbn [forallb] in Hhex.
    apply andb_prop in Hhex as [Ha Hhex]. apply andb_prop in Hhex as [Hb Hhex].
    unfold is_hex in Ha, Hb. cbn [Buffer_from_hex].
    destruct (hex_value a); [|discriminate]. destruct (hex_value b); [|discriminate].
    cbn [length]. f_equal. apply IH; [simpl in Hlen; lia|exact Hhex].
Qed.

Lemma toString_hex_length (buf : bytes) :
  length (toString_hex buf) = (2 * length buf)%nat.
Proof.
  induction buf as [|b buf IH]; [reflexivity|].
  unfold toString_hex. cbn [flat_map]. fold (toString_hex buf).
  rewrite length_app, IH. cbn [hex_of_byte length]. lia.
Qed.

(** X19. The key the constructor derives from ENCRYPTION_KEY: 64
    hexadecimal digits give a key of 32 bytes; a value of another length is
    refused; without a value the temporary random key is taken; and a value
    of 64 characters that does not start with a hexadecimal digit is
    accepted although it decodes to the empty key. *)
Theorem key_of_encryption_key (k : jsstring) (random : bytes) :
  (length k = 64%nat -> forallb is_hex k = true ->
   exists key, key_of (Some k) random = Some key /\ length key = 32%nat)
  /\ (k <> [] -> length k <> 64%nat -> key_of (Some k) random = None)
  /\ key_of None random = Some random
  /\ key_of (Some []) random = Some random
  /\ (length k = 64%nat -> (exists c rest, k = c :: rest /\ hex_value c = None) ->
      key_of (Some k) random = Some []).
Proof.
  split; [|split; [|split; [|split]]].
  - intros Hlen Hhex. destruct k as [|c k]; [discriminate|].
    unfold key_of. rewrite Hlen. cbn [Nat.eqb negb].
    eexists. split; [reflexivity|].
    apply (Buffer_from_hex_length 32); [exact Hlen|exact Hhex].
  - intros Hne Hlen. destruct k as [|c k]; [congruence|].
    unfold key_of. apply Nat.eqb_neq in Hlen. rewrite Hlen. reflexivity.
  - reflexivity.
  - reflexivity.
  - intros Hlen (c & rest & -> & Hc).
    unfold key_of. rewrite Hlen. cbn [Nat.eqb negb].
    destruct rest as [|b rest]; [discriminate|].
    cbn [Buffer_from_hex]. rewrite Hc. reflexivity.
Qed.

(** X20. A key made by [generateKey] is a key the constructor accepts, and
    the constructor recovers the 32 bytes it was made from. *)
Theorem generated_key_is_accepted (random other : bytes) :
  length random = 32%nat ->
  length (generateKey random) = 64%nat
  /\ key_of (Some (generateKey random)) other = Some random.
Proof.
  intros Hlen. unfold generateKey.
  assert (H64 : length (toString_hex random) = 64%nat)
    by (rewrite toString_hex_length, Hlen; reflexivity).
  split; [exact H64|].
  unfold key_of. destruct (toString_hex random) as [|c s] eqn:Es; [discriminate|].
  rewrite H64. cbn [Nat.eqb negb]. rewrite <- Es, Buffer_from_hex_toString. reflexivity.
Qed.

Lemma generated_key_is_accepted_witness :
  length (generateKey Samples.toy_key) = 64%nat
  /\ key_of (Some (generateKey Samples.toy_key)) [] = Some Samples.toy_key.
Proof. apply (generated_key_is_accepted Samples.toy_key []). reflexivity. Defined.

(** ** The credentials of the Sheets client *)

(** X21. After a refresh the Sheets client is given the new access token:
    when the stored expiry is less than five minutes away, the stored
    refresh token decrypts and the refresh is answered with a new access
    token, [createSheetsClient] stores that token encrypted and hands the
    Sheets client the token itself, decrypted from what it has just stored,
    with the refresh token it had. *)
Theorem refreshed_token_is_used
    (gcm_encrypt : bytes -> bytes -> bytes -> option (bytes * bytes))
    (gcm_decrypt : bytes -> bytes -> bytes -> bytes -> option bytes)
    (key iv : bytes) (refreshAccessToken : jsstring -> option jsval)
    (env : Env) (now : float) (client : jsobj)
    (refresh_token access_token : jsstring) (credentials : jsval) :
  gcm_law gcm_encrypt gcm_decrypt ->
  length key = 32%nat -> length iv = 16%nat ->
  truthy (field client (js "google_token_expiry")) = true ->
  PrimFloat.ltb
    (PrimFloat.sub (new_Date env (field client (js "google_token_expiry"))) now)
    300000%float = true ->
  decrypt gcm_decrypt key (field client (js "google_refresh_token")) = JStr refresh_token ->
  refresh_token <> [] ->
  refreshAccessToken refresh_token = Some credentials ->
  get_prop credentials (js "access_token") = Some (JStr access_token) ->
  access_token <> [] -> well_formed access_token = true ->
  exists client' stored,
    createSheetsClient gcm_encrypt gcm_decrypt key refreshAccessToken env now iv client
      = Some (client', JStr access_token, JStr refresh_token)
    /\ client' !! js "google_access_token" = Some (JStr stored)
    /\ decrypt gcm_decrypt key (JStr stored) = JStr access_token.
Proof.
  intros Hlaw Hkey Hiv Hexpiry Hsoon Hrefresh Hrt Hanswer Haccess Hat Hwf.
  destruct (decrypt_encrypt gcm_encrypt gcm_decrypt key iv access_token
              Hlaw Hkey Hiv Hat Hwf) as (stored & Henc & Hdec).
  destruct refresh_token as [|c token]; [congruence|].
  unfold createSheetsClient, refreshTokenIfNeeded.
  rewrite Hexpiry. cbn [negb]. cbv iota. rewrite Hsoon, Hrefresh, Hanswer.
  cbn [mbind option_bind]. rewrite Haccess. cbn [mbind option_bind].
  rewrite Henc. cbn [mbind option_bind].
  set (client1 := <[js "google_access_token" := JStr stored]> client).
  assert (Hfields : forall client' : jsobj,
            client' = client1
            \/ (exists d, client' = <[js "google_token_expiry" := d]> client1) ->
            field client' (js "google_access_token") = JStr stored
            /\ field client' (js "google_refresh_token")
               = field client (js "google_refresh_token")
            /\ client' !! js "google_access_token" = Some (JStr stored)).
  { intros client' [-> | [d ->]]; unfold client1, field.
    - rewrite lookup_insert_eq, lookup_insert_ne by distinct_keys. auto.
    - rewrite !(lookup_insert_ne _ (js "google_token_expiry")) by distinct_keys.
      rewrite lookup_insert_eq, lookup_insert_ne by distinct_keys. auto. }
  destruct (truthy (get_opt credentials (js "expiry_date"))).
  - destruct (Hfields
                (<[js "google_token_expiry" :=
                     JDate (new_Date env (get_opt credentials (js "expiry_date")))]> client1)
                (or_intror (ex_intro _ _ eq_refl))) as (Ha & Hr & Hl).
    rewrite Ha, Hr, Hdec, Hrefresh.
    destruct access_token; [congruence|]. eexists _, stored. auto.
  - destruct (Hfields client1 (or_introl eq_refl)) as (Ha & Hr & Hl).
    rewrite Ha, Hr, Hdec, Hrefresh.
    destruct access_token; [congruence|]. eexists _, stored. auto.
Qed.

(** ** The header row and the data rows of a sheet *)

Lemma sentinel_or_trimmed_nonempty (v : jsstring) : sentinel_or_trimmed v -> v <> [].
Proof. intros [->|[H _]]; [discriminate|exact H]. Qed.

(** X22. The rows the custom-fields step sends line up with the header
    row written when a field is created: for the same list of active
    fields both have one column per field followed by the same four
    metadata columns. The column of a field holds, under the name of the
    field, the string that the extractor returned for it, which is never
    empty; under the name [__proto__], for which the extractor returns
    nothing, it holds Object.prototype. Each metadata column holds the
    metadata value of its name. *)
Theorem rows_line_up_with_headers (env : Env) (transcript : jsval)
    (allFields : list CustomField) (extractedData metadata : jsobj) (w w1 : World) :
  extractWithCustomFields env transcript allFields w = (Ok extractedData, w1) ->
  length (custom_row allFields extractedData metadata) = length (sheet_headers allFields)
  /\ (forall i f, allFields !! i = Some f ->
        sheet_headers allFields !! i = Some (JStr (field_name f))
        /\ (field_name f <> proto_key ->
            exists s, s <> [] /\ extractedData !! field_name f = Some (JStr s)
                      /\ custom_row allFields extractedData metadata !! i = Some (JStr s))
        /\ (field_name f = proto_key ->
            custom_row allFields extractedData metadata !! i = Some Object_prototype))
  /\ (forall j name, metadata_columns !! j = Some name ->
        sheet_headers allFields !! (length allFields + j)%nat = Some (JStr name)
        /\ custom_row allFields extractedData metadata !! (length allFields + j)%nat
           = Some (field metadata name)).
Proof.
  intros Hrun.
  destruct (extractWithCustomFields_runs env transcript allFields w)
    as [g [evs [Hrun' [Hg _]]]].
  rewrite Hrun in Hrun'. injection Hrun' as -> _.
  unfold custom_row, sheet_headers. split; [|split].
  - rewrite !length_app, !length_map. reflexivity.
  - intros i f Hf.
    assert (Hi : (i < length allFields)%nat) by apply (lookup_lt_Some _ _ _ Hf).
    split; [|split].
    + rewrite lookup_app_l by (rewrite length_map; exact Hi).
      rewrite list_lookup_fmap, Hf. reflexivity.
    + intros Hname.
      destruct (fill_lookup g allFields ∅ f
                  (proj1 (list_elem_of_In _ _) (list_elem_of_lookup_2 _ _ _ Hf)) Hname)
        as [f' [_ [_ Hl]]].
      exists (g f'). split; [apply sentinel_or_trimmed_nonempty, Hg|].
      split; [exact Hl|].
      rewrite lookup_app_l by (rewrite length_map; exact Hi).
      rewrite list_lookup_fmap, Hf. cbn [fmap option_fmap option_map].
      unfold get_member. rewrite Hl. unfold js_or.
      pose proof (sentinel_or_trimmed_nonempty _ (Hg f')) as Hne.
      destruct (g f'); [congruence|reflexivity].
    + intros Hname.
      rewrite lookup_app_l by (rewrite length_map; exact Hi).
      rewrite list_lookup_fmap, Hf. cbn [fmap option_fmap option_map].
      unfold get_member. rewrite Hname, (fill_lookup_proto g allFields ∅ (lookup_empty _)).
      reflexivity.
  - intros j name Hname. split.
    + rewrite lookup_app_r by (rewrite length_map; lia).
      rewrite length_map. replace (length allFields + j - length allFields)%nat with j by lia.
      destruct j as [|[|[|[|j]]]]; try discriminate Hname;
        injection Hname as <-; reflexivity.
    + rewrite lookup_app_r by (rewrite length_map; lia).
      rewrite length_map. replace (length allFields + j - length allFields)%nat with j by lia.
      destruct j as [|[|[|[|j]]]]; try discriminate Hname;
        injection Hname as <-; reflexivity.
Qed.

(** A run with a field named "f1" and a field named [__proto__]. *)
Lemma rows_line_up_with_headers_witness :
  let allFields := [Samples.fld "f1"; Samples.fld "__proto__"] in
  let extractedData := Samples.obj [("f1"%string, Samples.str "Pune")] in
  let metadata := Samples.obj [("Call_Date"%string, Samples.str "2023-11-14");
                               ("Call_Time"%string, Samples.str "22:13:20");
                               ("Execution_ID"%string, Samples.str "E1");
                               ("Agent_Name"%string, Samples.str "Front desk")] in
  length (custom_row allFields extractedData metadata) = length (sheet_headers allFields)
  /\ (forall i f, allFields !! i = Some f ->
        sheet_headers allFields !! i = Some (JStr (field_name f))
        /\ (field_name f <> proto_key ->
            exists s, s <> [] /\ extractedData !! field_name f = Some (JStr s)
                      /\ custom_row allFields extractedData metadata !! i = Some (JStr s))
        /\ (field_name f = proto_key ->
            custom_row allFields extractedData metadata !! i = Some Object_prototype))
  /\ (forall j name, metadata_columns !! j = Some name ->
        sheet_headers allFields !! (length allFields + j)%nat = Some (JStr name)
        /\ custom_row allFields extractedData metadata !! (length allFields + j)%nat
           = Some (field metadata name)).
Proof.
  intros allFields extractedData metadata.
  apply (rows_line_up_with_headers (Samples.studio (fun _ => true) "  Pune " true)
           (JStr (js "I am Dr. Rao from Pune")) allFields extractedData metadata
           Samples.empty_world
           (add_events [EvOpenAICustom (js "I am Dr. Rao from Pune") allFields]
              Samples.empty_world)).
  vm_compute. reflexivity.
Defined.

(** ** The webhook *)

(** X23. [sendToGoogleAppsScript] never throws and tells the truth: it
    answers true exactly when the webhook was called and answered with
    status success; without a configured URL no call is made. *)
Theorem webhook_result_is_faithful (env : Env) (data : jsobj) (w : World) :
  exists accepted evs,
    sendToGoogleAppsScript env data w = (Ok accepted, add_events evs w)
    /\ (accepted = true <->
        GOOGLE_SCRIPT_URL env = true
        /\ exists d, apps_script_post env (trace w) data = Some d
                     /\ truthy d = true
                     /\ get_opt d (js "status") = JStr (js "success"))
    /\ (GOOGLE_SCRIPT_URL env = false -> evs = [])
    /\ (GOOGLE_SCRIPT_URL env = true -> evs = [EvWebhook data accepted]).
Proof.
  unfold sendToGoogleAppsScript, try_catch.
  destruct (GOOGLE_SCRIPT_URL env) eqn:Hurl; cbn [negb]; cbv iota.
  - unfold bind, call.
    destruct (apps_script_post env (trace w) data) as [d|] eqn:Hpost.
    + destruct (truthy d && is_success (get_opt d (js "status"))) eqn:Hok.
      * exists true, [EvWebhook data true]. split; [reflexivity|].
        split; [|split; [discriminate|reflexivity]].
        split; [|reflexivity]. intros _. split; [reflexivity|].
        exists d. apply andb_prop in Hok as [Hd Hs].
        split; [reflexivity|]. split; [exact Hd|].
        unfold is_success in Hs. destruct (get_opt d (js "status")); try discriminate Hs.
        apply bool_decide_eq_true in Hs. rewrite Hs. reflexivity.
      * exists false, [EvWebhook data false]. split; [reflexivity|].
        split; [|split; [discriminate|reflexivity]].
        split; [discriminate|]. intros (_ & d' & Hd' & Htruthy & Hstatus).
        injection Hd' as <-. rewrite Htruthy, Hstatus in Hok.
        unfold is_success in Hok. rewrite bool_decide_eq_true_2 in Hok by reflexivity.
        discriminate Hok.
    + exists false, [EvWebhook data false]. split; [reflexivity|].
      split; [|split; [discriminate|reflexivity]].
      split; [discriminate|]. intros (_ & d' & Hd' & _). discriminate Hd'.
  - exists false, []. rewrite add_events_nil. split; [reflexivity|].
    split; [|split; [reflexivity|discriminate]].
    split; [discriminate|]. intros [H _]. discriminate H.
Qed.

Lemma refreshed_token_is_used_witness :
  exists client' stored,
    createSheetsClient Samples.toy_encrypt Samples.toy_decrypt Samples.toy_key
      Samples.identity_provider Samples.offline 1699999900000%float Samples.toy_iv
      Samples.expiring_client
      = Some (client', Samples.str "ya29.new", Samples.str "1//0gRefresh")
    /\ client' !! js "google_access_token" = Some (JStr stored)
    /\ decrypt Samples.toy_decrypt Samples.toy_key (JStr stored) = Samples.str "ya29.new".
Proof.
  apply (refreshed_token_is_used Samples.toy_encrypt Samples.toy_decrypt Samples.toy_key
           Samples.toy_iv Samples.identity_provider Samples.offline 1699999900000%float
           Samples.expiring_client (js "1//0gRefresh") (js "ya29.new")
           (JObj (Samples.obj [("access_token"%string, Samples.str "ya29.new");
                               ("expiry_date"%string, JNum 1700003600000)]))).
  - exact toy_gcm_law.
  - reflexivity.
  - reflexivity.
  - reflexivity.
  - vm_compute. reflexivity.
  - vm_compute. reflexivity.
  - discriminate.
  - reflexivity.
  - reflexivity.
  - discriminate.
  - reflexivity.
Defined.

(** ** File names *)

Import Csv.

Lemma ends_with_extension (filename : jsstring) :
  ends_with (js ".csv") (filename ++ js ".csv") = true.
Proof.
  unfold ends_with. rewrite rev_app_distr. reflexivity.
Qed.

(** X24. A file name with and without the extension is the same file: the
    extension is added once, so that what is appended under a name is read
    and deleted under the name with or without .csv. *)
Theorem extension_is_added_once (path_join : jsstring -> jsstring) (env : Env)
    (data : jsval) (filename : jsstring) (files : Files) :
  with_extension (with_extension filename) = with_extension filename
  /\ appendToCSV path_join env data (with_extension filename) files
     = appendToCSV path_join env data filename files
  /\ readCSV path_join (with_extension filename) files = readCSV path_join filename files
  /\ deleteCSV path_join (with_extension filename) files
     = deleteCSV path_join filename files.
Proof.
  assert (Hidem : with_extension (with_extension filename) = with_extension filename).
  { unfold with_extension at 2 3.
    destruct (ends_with (js ".csv") filename) eqn:E.
    - unfold with_extension. rewrite E. reflexivity.
    - unfold with_extension. rewrite ends_with_extension. reflexivity. }
  split; [exact Hidem|].
  unfold appendToCSV, readCSV, deleteCSV. rewrite !Hidem. auto.
Qed.

(** ** The answer of the language model *)

Lemma sanitize_each_total (extractedData : jsval) (customFields : list CustomField) :
  (forall k, get_computed extractedData k <> None) ->
  forall result,
    sanitize_each extractedData customFields result
    = Some (fill (answered extractedData) customFields result).
Proof.
  intros Hread. induction customFields as [|f fs IH]; intros result; [reflexivity|].
  cbn [sanitize_each].
  destruct (get_computed extractedData (field_name f)) as [value|] eqn:E.
  - assert (Ha : answered extractedData f = sanitizeCustomValue value)
      by (unfold answered; rewrite E; reflexivity).
    rewrite IH. unfold fill. cbn [foldl]. rewrite Ha. reflexivity.
  - exfalso. exact (Hread _ E).
Qed.

Lemma get_computed_reads (extractedData : jsval) (k : jsstring) :
  extractedData <> JUndefined -> extractedData <> JNull ->
  get_computed extractedData k <> None.
Proof.
  intros Hu Hn. destruct extractedData as [| |b|x|s|t|l|o]; try congruence;
    unfold get_computed; try (destruct (inherited k)); discriminate.
Qed.

(** X25. What the custom-fields extractor makes of an answer of the
    language model that decodes to a value: after the one request, the
    result has a key for each field name other than [__proto__] and no
    other key (keys of the answer that are no field are dropped), and
    under the name of a field it holds the sanitized property of the
    decoded value (the sentinel when the property is missing), or the
    sentinel when the value is null or undefined, whose properties cannot
    be read. *)
Theorem model_answer_is_sanitized (env : Env) (text : jsstring)
    (customFields : list CustomField) (data content extractedData : jsval) (w : World) :
  text <> [] -> customFields <> [] -> useAI env = true ->
  openai_custom env (trace w) text customFields = Some data ->
  response_content data = Some content ->
  parse_reply env content = Some extractedData ->
  exists result,
    extractWithCustomFields env (JStr text) customFields w
    = (Ok result, add_events [EvOpenAICustom text customFields] w)
    /\ dom result = list_to_set (map field_name customFields) ∖ {[proto_key]}
    /\ forall f, In f customFields -> field_name f <> proto_key ->
         result !! field_name f
         = Some (JStr (match get_computed extractedData (field_name f) with
                       | Some value => sanitizeCustomValue value
                       | None => not_found
                       end)).
Proof.
  intros Htext Hfields Hai Hanswer Hcontent Hparse.
  exists (fill (answered extractedData) customFields ∅). split; [|split].
  - destruct text as [|c text]; [congruence|].
    destruct customFields as [|f fs]; [congruence|].
    unfold extractWithCustomFields.
    change (negb (truthy (JStr (c :: text))) || negb (is_string (JStr (c :: text))))
      with false. cbv iota. rewrite Hai.
    unfold try_catch at 1, extractWithCustomFieldsAI, try_catch, bind, call, must.
    rewrite Hanswer. unfold ret at 1. rewrite Hcontent. unfold ret at 1.
    rewrite Hparse. unfold ret at 1.
    destruct extractedData as [| |b|x|s|t|l|o]; try reflexivity;
      rewrite sanitize_each_total by (intros k; apply get_computed_reads; discriminate);
      reflexivity.
  - rewrite fill_dom, dom_empty_L. set_solver.
  - intros f Hin Hname.
    destruct (fill_lookup (answered extractedData) customFields ∅ f Hin Hname)
      as [f' [_ [Hsame Hl]]].
    rewrite Hl. unfold answered. rewrite Hsame.
    destruct (get_computed extractedData (field_name f)); reflexivity.
Qed.

Lemma model_answer_is_sanitized_witness :
  let env := Samples.studio (fun _ => true) "  Pune " true in
  let customFields := [Samples.fld "f1"; Samples.fld "f2"] in
  let extractedData := JObj (Samples.obj [("f1"%string, Samples.str "  Pune ")]) in
  exists result,
    extractWithCustomFields env (JStr (js "I am Dr. Rao from Pune")) customFields
      Samples.empty_world
    = (Ok result,
       add_events [EvOpenAICustom (js "I am Dr. Rao from Pune") customFields]
         Samples.empty_world)
    /\ dom result = list_to_set (map field_name customFields) ∖ {[proto_key]}
    /\ forall f, In f customFields -> field_name f <> proto_key ->
         result !! field_name f
         = Some (JStr (match get_computed extractedData (field_name f) with
                       | Some value => sanitizeCustomValue value
                       | None => not_found
                       end)).
Proof.
  intros env customFields extractedData.
  apply (model_answer_is_sanitized env (js "I am Dr. Rao from Pune") customFields
           (Samples.completion
              (Samples.fenced (Samples.object_text [("f1"%string, "  Pune "%string)])))
           (JStr (Samples.fenced (Samples.object_text [("f1"%string, "  Pune "%string)])))
           extractedData Samples.empty_world).
  - discriminate.
  - discriminate.
  - reflexivity.
  - reflexivity.
  - reflexivity.
  - vm_compute. reflexivity.
Defined.

(** *** Any number of pages *)

Lemma upsert_countable (v : Version) (env : Env) (agentId executionData : jsval)
    (w : World) :
  countable executionData = true ->
  exists x w', upsertExecution v env agentId executionData w = (Ok x, w').
Proof.
  intros Hc. unfold countable in Hc.
  destruct (get_prop executionData (js "id")) as [id|] eqn:Hread; [|discriminate].
  destruct (remote_id executionData) as [executionId|] eqn:Hid.
  - pose proof (upsertExecution_with_id v env agentId executionData w executionId Hid)
      as Hrun. cbv zeta in Hrun.
    set (w0 := add_events [EvReconcile executionData] w) in *.
    set (doc := reconciled env agentId executionId executionData (executions w0) (trace w0))
      in *.
    assert (Hfield : field doc k_transcript
                     = js_or (get_opt executionData k_transcript) (JStr [])).
    { unfold field, doc.
      rewrite (reconciled_lookup env agentId executionId executionData _ _ k_transcript
                 (js_or (get_opt executionData k_transcript) (JStr [])));
        [reflexivity|apply executionDoc_transcript]. }
    rewrite Hrun. destruct (has_transcript doc).
    + unfold bind.
      destruct (step_never_throws v env doc (with_execution env executionId doc w0))
        as (execution' & w' & ->).
      eexists _, _. reflexivity.
    + rewrite Hfield.
      destruct (get_opt executionData k_transcript) as [| |b|x|s|t|l|o];
        try discriminate Hc;
        try (rewrite js_or_text; cbn [is_string negb]; rewrite andb_false_r;
             eexists _, _; reflexivity);
        unfold js_or;
        try (apply negb_true_iff in Hc; rewrite Hc);
        eexists _, _; reflexivity.
  - eexists _, _. apply upsert_skipped. unfold skipped. rewrite Hread.
    unfold remote_id in Hid. rewrite Hread in Hid. cbn [mbind option_bind] in Hid.
    destruct (truthy (js_or id (get_opt executionData (js "execution_id"))));
      [discriminate|reflexivity].
Qed.

Lemma upsert_each_run (v : Version) (env : Env) (agentId : jsval) (items : list jsval) :
  forall (totalSynced : N) (w : World),
  exists totalSynced' w' evs,
    upsert_each v env agentId items totalSynced w = (Ok totalSynced', w')
    /\ trace w' = trace w ++ evs
    /\ List.filter is_sync evs = map EvReconcile items
    /\ totalSynced' <= totalSynced + N.of_nat (length items)
    /\ (Forall (fun r => countable r = true) items ->
        totalSynced' = totalSynced + N.of_nat (length items)).
Proof.
  induction items as [|executionData rest IH]; intros totalSynced w.
  - exists totalSynced, w, []. rewrite app_nil_r. cbn [length].
    repeat split; try reflexivity; try lia.
  - destruct (upsert_trace v env agentId executionData w)
      as (r & w1 & evs1 & Hrun & Htrace1 & Hevs1 & Hr).
    assert (Hone : exists n,
              try_catch (let* _ := upsertExecution v env agentId executionData in
                         ret (totalSynced + 1))
                        (fun _ => ret totalSynced) w = (Ok n, w1)
              /\ n <= totalSynced + 1
              /\ (countable executionData = true -> n = totalSynced + 1)).
    { unfold try_catch, bind. rewrite Hrun.
      destruct r as [x|msg|]; [| |congruence].
      - exists (totalSynced + 1). repeat split; try reflexivity; lia.
      - exists totalSynced. split; [reflexivity|]. split; [lia|].
        intros Hc. destruct (upsert_countable v env agentId executionData w Hc)
          as (x & w' & Hok). congruence. }
    destruct Hone as (n & Hone & Hle & Hcount).
    destruct (IH n w1) as (n' & w' & evs & Hrest & Htrace & Hevs & Hle' & Hcount').
    exists n', w', (EvReconcile executionData :: evs1 ++ evs).
    split.
    { cbn [upsert_each]. unfold bind at 1. rewrite Hone. exact Hrest. }
    split.
    { rewrite Htrace, Htrace1, <- app_assoc. reflexivity. }
    split.
    { simpl. rewrite List.filter_app, (filter_not_sync evs1 Hevs1), Hevs. reflexivity. }
    cbn [length]. split; [lia|].
    intros Hall. rewrite (Hcount' (Forall_inv_tail Hall)), (Hcount (Forall_inv Hall)). lia.
Qed.

Lemma sync_pages_run (v : Version) (env : Env) (bolnaAgentId agentId : jsval)
    (responses : list jsval) :
  forall (pages : list (list jsval)) (fuel : nat) (pageNumber totalSynced : N) (w : World),
    (forall k response tr p,
       responses !! k = Some response ->
       fetches tr = (fetches (trace w) + k)%nat ->
       bolna_executions env tr bolnaAgentId p = Some response) ->
    Forall2 (fun response records => page_records response = Some records)
      responses pages ->
    announces responses ->
    (length responses <= fuel)%nat ->
    exists totalSynced' w' evs,
      sync_pages fuel v env bolnaAgentId agentId pageNumber totalSynced w
        = (Ok totalSynced', w')
      /\ trace w' = trace w ++ evs
      /\ List.filter is_sync evs = pages_events bolnaAgentId pageNumber pages
      /\ totalSynced' <= totalSynced + N.of_nat (length (concat pages))
      /\ (Forall (fun r => countable r = true) (concat pages) ->
          totalSynced' = totalSynced + N.of_nat (length (concat pages))).
Proof.
  induction responses as [|response rest IH];
    intros pages fuel pageNumber totalSynced w Horacle Hpages Hmore Hfuel;
    [destruct Hmore|].
  destruct pages as [|records pages]; [inversion Hpages|].
  apply Forall2_cons_1 in Hpages as [Hrecords Hpages].
  destruct fuel as [|fuel]; [simpl in Hfuel; lia|].
  assert (Hfetch : bolna_executions env (trace w) bolnaAgentId pageNumber = Some response).
  { apply (Horacle 0%nat); [reflexivity|lia]. }
  destruct (upsert_each_run v env agentId records totalSynced
              (add_events [EvFetchExecutions bolnaAgentId pageNumber] w))
    as (n & w1 & evs1 & Heach & Htrace1 & Hevs1 & Hle1 & Hcount1).
  assert (Htrace1' : trace w1 = trace w ++ EvFetchExecutions bolnaAgentId pageNumber :: evs1).
  { rewrite Htrace1. cbn [add_events trace]. rewrite <- app_assoc. reflexivity. }
  rewrite (sync_page_step fuel v env bolnaAgentId agentId pageNumber totalSynced n w w1
             response records Hfetch Hrecords Heach).
  destruct rest as [|response2 rest].
  - cbn [announces] in Hmore. unfold js_or. rewrite Hmore.
    change (truthy (JBool false)) with false. cbv iota.
    apply Forall2_nil_inv_l in Hpages. subst pages.
    exists n, w1, (EvFetchExecutions bolnaAgentId pageNumber :: evs1).
    split; [reflexivity|]. split; [exact Htrace1'|].
    cbn [pages_events concat]. rewrite !app_nil_r.
    split; [cbn [List.filter is_sync]; rewrite Hevs1; reflexivity|].
    split; [exact Hle1|exact Hcount1].
  - destruct Hmore as [Hmore Hrest]. unfold js_or. rewrite Hmore, Hmore. cbv iota.
    assert (Hcount : fetches (trace w1) = S (fetches (trace w))).
    { rewrite Htrace1'. apply (fetches_after_page _ _ _ _ records Hevs1). }
    destruct (IH pages fuel (pageNumber + 1) n w1) as
      (n' & w' & evs & Hrun & Htrace & Hevs & Hle & Hall).
    + intros k r tr p Hk Htr. apply (Horacle (S k)); [exact Hk|].
      rewrite Htr, Hcount. lia.
    + exact Hpages.
    + exact Hrest.
    + simpl in Hfuel. simpl. lia.
    + exists n', w', (EvFetchExecutions bolnaAgentId pageNumber :: evs1 ++ evs).
      split; [exact Hrun|].
      split; [rewrite Htrace, Htrace1', <- app_assoc; reflexivity|].
      cbn [pages_events concat].
      split.
      { cbn [List.filter is_sync]. rewrite List.filter_app, Hevs1, Hevs. reflexivity. }
      rewrite length_app. split; [lia|].
      intros Hcountable. apply Forall_app in Hcountable as [Hc1 Hc2].
      rewrite (Hall Hc2), (Hcount1 Hc1). lia.
Qed.

(** X26. Pages are consumed in order, however many there are: when the
    remote answers the successive fetches of a sync with responses of
    which all but the last announce more, the sync ends after one fetch per
    response, for the page numbers 1, 2, 3, ... in this order, hands the
    records of each page to the reconciler in the order received and
    before the next fetch, and reports at most as many executions as it
    received: exactly as many when every record can be read and has a
    transcript that is a string or is missing. *)
Theorem pages_are_consumed_in_order (v : Version) (env : Env) (bolnaAgentId : jsval)
    (responses : list jsval) (pages : list (list jsval)) (w : World) (fuel : nat) :
  truthy (Agent_findOne env bolnaAgentId) = true ->
  (forall k response tr p,
     responses !! k = Some response ->
     fetches tr = (fetches (trace w) + k)%nat ->
     bolna_executions env tr bolnaAgentId p = Some response) ->
  Forall2 (fun response records => page_records response = Some records) responses pages ->
  announces responses ->
  (length responses <= fuel)%nat ->
  exists totalSynced w' evs,
    syncExecutionsForAgent fuel v env bolnaAgentId w = (Ok totalSynced, w')
    /\ trace w' = trace w ++ evs
    /\ List.filter is_sync evs = pages_events bolnaAgentId 1 pages
    /\ totalSynced <= N.of_nat (length (concat pages))
    /\ (Forall (fun r => countable r = true) (concat pages) ->
        totalSynced = N.of_nat (length (concat pages))).
Proof.
  intros Hagent Horacle Hpages Hmore Hfuel.
  destruct (sync_pages_run v env bolnaAgentId
              (get_opt (Agent_findOne env bolnaAgentId) (js "_id"))
              responses pages fuel 1 0 w Horacle Hpages Hmore Hfuel)
    as (n & w' & evs & Hrun & Htrace & Hevs & Hle & Hall).
  exists n, w', evs.
  split; [|split; [exact Htrace|split; [exact Hevs|split; [exact Hle|exact Hall]]]].
  unfold syncExecutionsForAgent, try_catch. rewrite Hagent.
  change (negb true) with false. cbv match. rewrite Hrun. reflexivity.
Qed.

Lemma pages_are_consumed_in_order_witness :
  let env := Samples.studio (fun _ => true) "Pune" true in
  exists totalSynced w' evs,
    syncExecutionsForAgent 5 CustomFieldsMode env (Samples.str "agent-1")
      Samples.empty_world = (Ok totalSynced, w')
    /\ trace w' = trace Samples.empty_world ++ evs
    /\ List.filter is_sync evs
       = [EvFetchExecutions (Samples.str "agent-1") 1; EvReconcile Samples.E1;
          EvFetchExecutions (Samples.str "agent-1") 2; EvReconcile Samples.E2;
          EvReconcile Samples.E3;
          EvFetchExecutions (Samples.str "agent-1") 3; EvReconcile Samples.E4]
    /\ totalSynced <= 4
    /\ (Forall (fun r => countable r = true)
          [Samples.E1; Samples.E2; Samples.E3; Samples.E4] ->
        totalSynced = 4).
Proof.
  intros env.
  apply (pages_are_consumed_in_order CustomFieldsMode env (Samples.str "agent-1")
           [JObj (Samples.obj [("data"%string, JArr [Samples.E1]);
                               ("has_more"%string, JBool true)]);
            JObj (Samples.obj [("data"%string, JArr [Samples.E2; Samples.E3]);
                               ("has_more"%string, JBool true)]);
            JObj (Samples.obj [("data"%string, JArr [Samples.E4]);
                               ("has_more"%string, JBool false)])]
           [[Samples.E1]; [Samples.E2; Samples.E3]; [Samples.E4]]
           Samples.empty_world 5%nat).
  - reflexivity.
  - intros k response tr p Hk Htr. simpl. rewrite Htr.
    destruct k as [|[|[|k]]]; try discriminate Hk; injection Hk as <-; reflexivity.
  - repeat constructor.
  - repeat split.
  - simpl. lia.
Defined.

(** ** The stored form of a token *)

Lemma toString_hex_digits (buf : bytes) :
  Forall (fun c => c = 58 \/ is_hex c = true) (toString_hex buf).
Proof.
  induction buf as [|b buf IH]; [constructor|].
  unfold toString_hex. cbn [flat_map]. fold (toString_hex buf).
  pose proof (Byte.to_N_bounded b) as Hb.
  assert (Hhi : Byte.to_N b / 16 < 16) by euclid.
  assert (Hlo : Byte.to_N b mod 16 < 16) by euclid.
  unfold hex_of_byte. cbn [app].
  constructor; [right; unfold is_hex; rewrite (hex_value_digit _ Hhi); reflexivity|].
  constructor; [right; unfold is_hex; rewrite (hex_value_digit _ Hlo); reflexivity|].
  exact IH.
Qed.

(** X27. The stored form of a token: for a non-empty string, what
    [encrypt] returns is the hexadecimal iv, authentication tag and
    ciphertext, in this order, separated by colons: it splits at the colons
    into exactly these three parts and holds nothing but hexadecimal digits
    and colons. The empty string is not encrypted: the result is null. *)
Theorem ciphertext_has_three_parts
    (gcm_encrypt : bytes -> bytes -> bytes -> option (bytes * bytes))
    (key iv encrypted authTag : bytes) (s : jsstring) :
  s <> [] ->
  gcm_encrypt key iv (utf8_encode s) = Some (encrypted, authTag) ->
  (exists t,
     encrypt gcm_encrypt key iv (JStr s) = Some (JStr t)
     /\ split 58 t = [toString_hex iv; toString_hex authTag; toString_hex encrypted]
     /\ Forall (fun c => c = 58 \/ is_hex c = true) t)
  /\ encrypt gcm_encrypt key iv (JStr []) = Some JNull.
Proof.
  intros Hs Hgcm. split; [|reflexivity].
  destruct s as [|c s]; [congruence|].
  unfold encrypt. change (negb (truthy (JStr (c :: s)))) with false. cbv iota.
  rewrite Hgcm. cbn [mbind option_bind].
  eexists. split; [reflexivity|]. split; [apply split_ciphertext|].
  repeat (apply Forall_app; split); try apply toString_hex_digits;
    repeat constructor; left; reflexivity.
Qed.

Lemma ciphertext_has_three_parts_witness :
  (exists t,
     encrypt Samples.toy_encrypt Samples.toy_key Samples.toy_iv (JStr (js "ya29.a0Af"))
       = Some (JStr t)
     /\ split 58 t
        = [toString_hex Samples.toy_iv; toString_hex Samples.toy_iv;
           toString_hex (rev (utf8_encode (js "ya29.a0Af")))]
     /\ Forall (fun c => c = 58 \/ is_hex c = true) t)
  /\ encrypt Samples.toy_encrypt Samples.toy_key Samples.toy_iv (JStr []) = Some JNull.
Proof.
  apply (ciphertext_has_three_parts Samples.toy_encrypt Samples.toy_key Samples.toy_iv
           (rev (utf8_encode (js "ya29.a0Af"))) Samples.toy_iv (js "ya29.a0Af")).
  - discriminate.
  - reflexivity.
Defined.
